(** * amber: table specifications, SQL composition, derivations and sinks

    A shallow embedding of
    - [amberapi/datacomposer.py] (field maps, table specs, [compose_create],
      [compose_insert]),
    - [amberapi_v1/amber_data.py] (the derivation functions), and
    - [MqttConsumer.consume], [PostgresConsumer.connect], [create_tables] and
      [write], and [find_config_file] in [amberapi/amber.py],
    followed by the properties of the specification that these functions
    decide, and by further properties of the code.

    Conventions.  A Python [str] is the [string] of its UTF-8 bytes: a
    character below U+0080 is one byte, and the white space that [strip]
    removes includes the Unicode white space of two and three bytes (U+00A0,
    U+2003, ...).  An [Optional[...]] attribute is an [option] with
    Python truthiness written out.  Code that may raise returns an [outcome];
    code that also logs, prints or talks to a sink runs in the monad [M],
    whose state is the chronological list of observable events.  *)

From Stdlib Require Import String Ascii List Bool Arith ZArith Lia.
From Stdlib Require DecimalString DecimalNat.
Import ListNotations.
Local Open Scope list_scope.
Local Open Scope string_scope.

Set Implicit Arguments.

(** ** Python strings *)

Module Py.

(** [sep.join(ls)] *)
Definition join (sep : string) (ls : list string) : string :=
  String.concat sep ls.

(** [str(n)] for a non-negative [int] *)
Definition str_of_nat (n : nat) : string :=
  DecimalString.NilEmpty.string_of_uint (Nat.to_uint n).


(** [c.isspace()] for a character below U+0080, which is one byte: TAB, LF,
    VT, FF, CR, FS, GS, RS, US and space *)
Definition isspace (c : ascii) : bool :=
  let n := nat_of_ascii c in
  (((9 <=? n) && (n <=? 13)) || ((28 <=? n) && (n <=? 32)))%nat.

(** [c.isspace()] for a character of two bytes: U+0085 and U+00A0 *)
Definition isspace2 (a b : ascii) : bool :=
  let a := nat_of_ascii a in
  let b := nat_of_ascii b in
  ((a =? 194) && ((b =? 133) || (b =? 160)))%nat.

(** [c.isspace()] for a character of three bytes: U+1680, U+2000 to U+200A,
    U+2028, U+2029, U+202F, U+205F and U+3000 *)
Definition isspace3 (a b c : ascii) : bool :=
  let a := nat_of_ascii a in
  let b := nat_of_ascii b in
  let c := nat_of_ascii c in
  (((a =? 225) && (b =? 154) && (c =? 128))
   || ((a =? 226) && (b =? 128)
       && (((128 <=? c) && (c <=? 138)) || (c =? 168) || (c =? 169) || (c =? 175)))
   || ((a =? 226) && (b =? 129) && (c =? 159))
   || ((a =? 227) && (b =? 128) && (c =? 128)))%nat.

(** Drops from the front of [s] every character that one of the three tests
    accepts, and stops at the first character that none accepts. *)
Fixpoint lstrip_by (p1 : ascii -> bool) (p2 : ascii -> ascii -> bool)
    (p3 : ascii -> ascii -> ascii -> bool) (s : string) : string :=
  match s with
  | String a rest =>
      if p1 a then lstrip_by p1 p2 p3 rest
      else
        match rest with
        | String b rest2 =>
            if p2 a b then lstrip_by p1 p2 p3 rest2
            else
              match rest2 with
              | String c rest3 =>
                  if p3 a b c then lstrip_by p1 p2 p3 rest3 else s
              | EmptyString => s
              end
        | EmptyString => s
        end
  | EmptyString => EmptyString
  end.

(** [s.lstrip()] *)
Definition lstrip (s : string) : string := lstrip_by isspace isspace2 isspace3 s.

Definition reverse (s : string) : string :=
  string_of_list_ascii (List.rev (list_ascii_of_string s)).

(** [s.rstrip()]: the same from the end, where the bytes of a character are
    met last byte first *)
Definition rstrip (s : string) : string :=
  reverse (lstrip_by isspace (fun a b => isspace2 b a)
             (fun a b c => isspace3 c b a) (reverse s)).

(** [s.strip()] *)
Definition strip (s : string) : string := rstrip (lstrip s).

(** truthiness of an [Optional[str]]: [None] and [''] are falsy *)
Definition truthy_str (o : option string) : bool :=
  match o with
  | Some s => negb (s =? "")
  | None => false
  end.

(** truthiness of an [Optional[bool]] *)
Definition truthy_bool (o : option bool) : bool :=
  match o with
  | Some b => b
  | None => false
  end.

(** [str(x)] / [f"{x}"] for an [Optional[str]] *)
Definition str_of_opt (o : option string) : string :=
  match o with
  | Some s => s
  | None => "None"
  end.

Definition newline : string := String (ascii_of_nat 10) EmptyString.

End Py.

(** ** Exceptions and outcomes *)

(** The [Exception] subclasses that the modelled code can meet.  Everything
    here derives from [Exception], so an [except Exception] clause catches
    each of them. *)
Inductive exn : Type :=
| KeyError (key : string)
| IndexError (msg : string)
| ValueError (msg : string)
| AttributeError (msg : string)
| TypeError (msg : string)
| UnboundLocalError (var : string)
| UniqueViolationError
| PostgresError (msg : string)
| MqttError (msg : string)
| OtherError (msg : string).

Definition is_unique_violation (e : exn) : bool :=
  match e with
  | UniqueViolationError => true
  | _ => false
  end.

Inductive outcome (A : Type) : Type :=
| Return (a : A)
| Raise (e : exn).
Arguments Return {A} a.
Arguments Raise {A} e.

Definition obind {A B} (o : outcome A) (k : A -> outcome B) : outcome B :=
  match o with
  | Return a => k a
  | Raise e => Raise e
  end.

(** ** Values, events and the effect monad *)

(** A scalar member of a decoded JSON object. *)
Inductive scalar : Type :=
| JNull
| JStr (s : string)
| JNum (bits : Z).                    (* a number, kept opaque *)

(** A value stored in a data frame cell or passed to a sink. *)
Inductive cell : Type :=
| NA                                  (* NaN, None or NaT *)
| VStr (s : string)
| VInt (z : Z)
| VFloat (bits : Z)                   (* a double, kept opaque: no float arithmetic is modelled *)
| VTime (ns : Z)                      (* Timestamp: nanoseconds since the epoch *)
| VDelta (ns : Z)                     (* Timedelta: nanoseconds *)
| VObj (kv : list (string * scalar))  (* decoded JSON object, e.g. the price range *)
| VPair (a b : cell).                 (* a 2-tuple *)

(** A dictionary key or an index label. *)
Inductive label : Type :=
| LStr (s : string)
| LInt (i : Z).

(** What [to_dict()] can put under a key: a cell, or (for a frame) the
    per-row dictionary of a column. *)
Inductive pyobj : Type :=
| OCell (c : cell)
| ODict (d : list (label * cell)).

(** An insertion-ordered [dict]. *)
Definition pydict : Type := list (label * pyobj).

Inductive loglevel : Type := DEBUG | INFO | WARNING | ERROR.

(** Observable effects, in the order they happen.  Log records keep the
    format string and the arguments that identify the table and statement;
    printed data frames are recorded by a tag only. *)
Inductive event : Type :=
| Log (lvl : loglevel) (fmt : string) (args : list string)
| LogException (fmt : string) (args : list string) (e : exn)
| Stdout (what : string)
| Execute (sql : string) (args : list pyobj)
| ExecuteMany (sql : string) (args : list (list cell))
| Publish (topic : string) (msg : string).

Definition trace : Type := list event.

Definition M (A : Type) : Type := trace -> outcome A * trace.

Definition ret {A} (a : A) : M A := fun tr => (Return a, tr).

Definition bind {A B} (c : M A) (k : A -> M B) : M B :=
  fun tr =>
    match c tr with
    | (Return a, tr') => k a tr'
    | (Raise e, tr') => (Raise e, tr')
    end.

Definition raise {A} (e : exn) : M A := fun tr => (Raise e, tr).

Definition lift {A} (o : outcome A) : M A := fun tr => (o, tr).

Definition emit (ev : event) : M unit := fun tr => (Return tt, List.app tr [ev]).

(** [try: c  except Exception as e: h e] *)
Definition try_except {A} (c : M A) (h : exn -> M A) : M A :=
  fun tr =>
    match c tr with
    | (Return a, tr') => (Return a, tr')
    | (Raise e, tr') => h e tr'
    end.

Declare Scope py_scope.
Notation "x <- c ;; k" := (bind c (fun x => k))
  (at level 61, c at next level, right associativity) : py_scope.
Notation "c ;;; k" := (bind c (fun _ => k))
  (at level 61, right associativity) : py_scope.
Local Open Scope py_scope.

Definition log_debug (fmt : string) (args : list string) : M unit :=
  emit (Log DEBUG fmt args).
Definition log_info (fmt : string) (args : list string) : M unit :=
  emit (Log INFO fmt args).
Definition log_warning (fmt : string) (args : list string) : M unit :=
  emit (Log WARNING fmt args).
Definition log_exception (fmt : string) (args : list string) (e : exn) : M unit :=
  emit (LogException fmt args e).
Definition print (what : string) : M unit := emit (Stdout what).

(** ** Data frames *)

(** A frame has column labels and rows; a row carries its index label and
    one cell per column.  The labels of a frame built from the decoded
    payload are distinct; should a label be repeated, it stands for its first
    column here. *)
Record DataFrame : Type := mkDataFrame {
  columns : list string;
  rows : list (Z * list cell)
}.

(** A series: labelled cells. *)
Definition Series : Type := list (label * cell).

(** The result of [squeeze()]. *)
Inductive squeezed : Type :=
| SqScalar (c : cell)
| SqSeries (s : Series)
| SqFrame (df : DataFrame).

(** ** datacomposer.py *)

Definition null_convert (input : cell) : cell := input.

(** [@dataclass class FieldMap] *)
Record FieldMap : Type := mkFieldMap {
  in_name : string;
  data_type : option string;
  column_name : option string;
  fm_primary_key : option bool;
  keep : option bool;
  default : option string;
  convert : option (cell -> cell);
  comment : option string
}.

(** [FieldMap(in_name, data_type)] with the remaining defaults of the class. *)
Definition FieldMap_ (name : string) (ty : option string) : FieldMap :=
  {| in_name := name; data_type := ty; column_name := None;
     fm_primary_key := Some false; keep := Some true; default := None;
     convert := Some null_convert; comment := None |}.

(** [f.column_name if f.column_name else f.in_name] *)
Definition effective_column (f : FieldMap) : string :=
  match column_name f with
  | Some c => if Py.truthy_str (Some c) then c else in_name f
  | None => in_name f
  end.

Definition kept (f : FieldMap) : bool := Py.truthy_bool (keep f).

Definition get_in_names (fm : list FieldMap) : list string :=
  map in_name (filter kept fm).

Definition get_column_names (fm : list FieldMap) : list string :=
  map effective_column (filter kept fm).

(** The data attributes of a [TableSpec].  The derivation stored in a spec
    receives the spec itself; it is handed this record. *)
Record TableSpecData : Type := mkTableSpecData {
  field_map : list FieldMap;
  table_name : string;
  primary_key : option string;
  extra_sql : option (list string)
}.

(** [@dataclass class TableSpec] *)
Record TableSpec : Type := mkTableSpec {
  spec_data : TableSpecData;
  calculate : option (TableSpecData -> DataFrame -> M DataFrame)
}.



Definition spec_get_column_names (s : TableSpecData) : list string :=
  get_column_names (field_map s).

(** [TableSpec.do_calculate]: [None] is returned when there is no derivation
    and when the derivation raised. *)
Definition do_calculate (self : TableSpec) (timeseries : DataFrame)
  : M (option DataFrame) :=
  match calculate self with
  | Some calc =>
      try_except
        (df <- calc (spec_data self) timeseries ;; ret (Some df))
        (fun e =>
           log_exception "calculation exception: %s"
             [table_name (spec_data self)] e ;;;
           ret None)
  | None => ret None
  end.

(** *** [str.format] with keyword arguments *)

(** The keyword arguments, each with the text that [format(value, '')]
    gives: a [str] is itself, [None] is ['None']. *)
Definition kwargs : Type := list (string * string).

Fixpoint kw_lookup (name : string) (kw : kwargs) : option string :=
  match kw with
  | [] => None
  | (k, v) :: kw' => if k =? name then Some v else kw_lookup name kw'
  end.

Definition is_digit (c : ascii) : bool :=
  let n := nat_of_ascii c in ((48 <=? n) && (n <=? 57))%nat.

Definition all_digits (s : string) : bool :=
  forallb is_digit (list_ascii_of_string s).

(** The value of a replacement field: an empty or numeric name indexes the
    (empty) positional arguments, any other name is looked up in [kw]. *)
Definition get_value (name : string) (kw : kwargs) : outcome string :=
  if all_digits name then
    Raise (IndexError "Replacement index out of range for positional args tuple")
  else
    match kw_lookup name kw with
    | Some v => Return v
    | None => Raise (KeyError name)
    end.

Definition prefix (p : string) (o : outcome string) : outcome string :=
  obind o (fun r => Return (p ++ r)).

(** Where the scanner of [str.format] is: in literal text, just after a
    brace met in literal text, or inside a replacement field. *)
Inductive fstate : Type :=
| Text
| Open                    (* a [{] was read: an escape or the start of a field *)
| Close                   (* a [}] was read in literal text: it must be doubled *)
| Field (name : string).  (* inside a field whose name so far is [name] *)

(** [str.format] on a template with keyword arguments [kw], read left to
    right: a doubled brace is a literal brace, [{name}] is replaced by the
    value of [name], and the first failure met is the one raised.  The model
    covers replacement fields that are plain names: a field that carries a
    conversion ([!r]), a format spec ([:>10]) or an attribute or index
    access is outside it, and is read here as a name that no keyword argument
    has.  The properties speak of templates that format in this model, where
    it agrees with [str.format], and of templates whose references are
    identifiers. *)
Fixpoint format_from (kw : kwargs) (st : fstate) (s : string) : outcome string :=
  match s with
  | EmptyString =>
      match st with
      | Text => Return ""
      | Open => Raise (ValueError "Single '{' encountered in format string")
      | Close => Raise (ValueError "Single '}' encountered in format string")
      | Field _ => Raise (ValueError "expected '}' before end of string")
      end
  | String c rest =>
      match st with
      | Text =>
          if (c =? "{")%char then format_from kw Open rest
          else if (c =? "}")%char then format_from kw Close rest
          else prefix (String c EmptyString) (format_from kw Text rest)
      | Open =>
          if (c =? "{")%char then prefix "{" (format_from kw Text rest)
          else if (c =? "}")%char then
            obind (get_value "" kw) (fun v => prefix v (format_from kw Text rest))
          else format_from kw (Field (String c EmptyString)) rest
      | Close =>
          if (c =? "}")%char then prefix "}" (format_from kw Text rest)
          else Raise (ValueError "Single '}' encountered in format string")
      | Field name =>
          if (c =? "}")%char then
            obind (get_value name kw) (fun v => prefix v (format_from kw Text rest))
          else if (c =? "{")%char then
            Raise (ValueError "unexpected '{' in field name")
          else format_from kw (Field (name ++ String c EmptyString)) rest
      end
  end.

Definition py_format (template : string) (kw : kwargs) : outcome string :=
  format_from kw Text template.

(** *** [compose_create] *)

(** One entry of the column list: the two adjacent f-strings, stripped. *)
Definition fdesc_entry (f : FieldMap) : string :=
  Py.strip (effective_column f ++ " " ++ Py.str_of_opt (data_type f) ++ " "
            ++ match default f with Some d => d | None => "" end).

Definition create_kwargs (table_name : string) (primary_key : option string)
  : kwargs :=
  [("table_name", table_name); ("primary_key", Py.str_of_opt primary_key)].

(** The [for xsql in extra_sql] loop.  On failure it reports the template at
    which [format] raised, which is what the handler prints. *)
Fixpoint format_extra (kw : kwargs) (extra : list string)
    (clauses : list string) : (string * exn) + list string :=
  match extra with
  | [] => inr clauses
  | xsql :: rest =>
      match py_format xsql kw with
      | Return s => format_extra kw rest (List.app clauses [s])
      | Raise e => inl (xsql, e)
      end
  end.

Definition compose_create (table_name : string) (fields : list FieldMap)
    (primary_key : option string) (extra_sql : option (list string))
  : M string :=
  let clauses := [] in
  let fdesc :=
    Py.join ("," ++ Py.newline) (map fdesc_entry (filter kept fields)) in
  let clauses :=
    List.app clauses ["CREATE TABLE IF NOT EXISTS " ++ table_name ++ " ("
                      ++ Py.newline ++ fdesc] in
  let clauses :=
    if Py.truthy_str primary_key
    then List.app clauses
                  [", PRIMARY KEY(" ++ Py.str_of_opt primary_key ++ ")"]
    else clauses in
  let clauses := List.app clauses [");"] in
  clauses <-
    (match extra_sql with
     | Some ((_ :: _) as extra) =>
         match format_extra (create_kwargs table_name primary_key)
                 extra clauses with
         | inr clauses' => ret clauses'
         | inl (xsql, e) =>
             print (Py.join " " ["xsql %s table_name %s primary_key %s"; xsql;
                                 table_name; Py.str_of_opt primary_key]) ;;;
             raise e
         end
     | _ => ret clauses
     end) ;;
  ret (Py.join Py.newline clauses).

(** *** [compose_insert] *)

(** [[f"${i+1}" for i in range(len(field_names))]] *)
Definition insert_placeholders (field_names : list string) : list string :=
  map (fun i => "$" ++ Py.str_of_nat (i + 1)) (seq 0 (length field_names)).

Definition compose_insert (field_names : list string) (table_name : string)
    (xclause : option string) : string :=
  let fields := Py.join ", " field_names in
  let placeholders := Py.join ", " (insert_placeholders field_names) in
  let sql := "INSERT INTO " ++ table_name ++ " (" ++ fields ++ ") values ("
             ++ placeholders ++ ")" in
  if Py.truthy_str xclause
  then sql ++ Py.newline ++ Py.str_of_opt xclause
  else sql.

(** [DEFAULT_HYPERTABLE] of amber_data.py *)
Definition DEFAULT_HYPERTABLE : string :=
  "SELECT create_hypertable('{table_name}', '{primary_key}', "
  ++ "if_not_exists => TRUE);".

(** ** pandas operations used by the derivations and the sinks *)

Fixpoint index_of (name : string) (cols : list string) : option nat :=
  match cols with
  | [] => None
  | c :: cs => if c =? name then Some 0 else option_map S (index_of name cs)
  end.

(** The cell of [row] under column [name] of [df]. *)
Definition cell_at (df : DataFrame) (name : string) (row : list cell) : cell :=
  match index_of name (columns df) with
  | Some i => nth i row NA
  | None => NA
  end.

(** [len(df)] *)
Definition len (df : DataFrame) : nat := length (rows df).

(** [df.empty]: some axis has length 0 *)
Definition empty (df : DataFrame) : bool :=
  (length (columns df) =? 0)%nat || (length (rows df) =? 0)%nat.

(** [df.name]: a column read as an attribute *)
Definition getattr_column (df : DataFrame) (name : string)
  : outcome (list cell) :=
  match index_of name (columns df) with
  | Some i => Return (map (fun r => nth i (snd r) NA) (rows df))
  | None =>
      Raise (AttributeError ("'DataFrame' object has no attribute '" ++ name ++ "'"))
  end.

(** one element of [series == s] *)
Definition eq_str (s : string) (c : cell) : bool :=
  match c with
  | VStr t => t =? s
  | _ => false
  end.

(** [a & b] on boolean series of one frame *)
Fixpoint mask_and (a b : list bool) : list bool :=
  match a, b with
  | x :: a', y :: b' => (x && y) :: mask_and a' b'
  | _, _ => []
  end.

Definition mem (s : string) (l : list string) : bool := existsb (String.eqb s) l.

(** first occurrences only, in order *)
Fixpoint unique (seen l : list string) : list string :=
  match l with
  | [] => []
  | x :: l' => if mem x seen then unique seen l' else x :: unique (x :: seen) l'
  end.

(** [cols.intersection(names)]: the labels of [cols] that occur in [names],
    in the order of [cols], each once. *)
Definition intersection (cols names : list string) : list string :=
  unique [] (filter (fun c => mem c names) cols).

(** the rows selected by a boolean mask *)
Fixpoint select_rows (mask : list bool) (rs : list (Z * list cell))
  : list (Z * list cell) :=
  match mask, rs with
  | m :: mask', r :: rs' =>
      if m then r :: select_rows mask' rs' else select_rows mask' rs'
  | _, _ => []
  end.

(** a row of [df] cut down to the columns [cols] *)
Definition project (df : DataFrame) (cols : list string) (r : Z * list cell)
  : Z * list cell :=
  (fst r, map (fun c => cell_at df c (snd r)) cols).

(** [df.loc[mask, cols]] (a new frame) *)
Definition loc (df : DataFrame) (mask : list bool) (cols : list string)
  : DataFrame :=
  {| columns := cols;
     rows := map (project df cols) (select_rows mask (rows df)) |}.

(** [df.iloc[[-1]]] *)
Definition iloc_last (df : DataFrame) : outcome DataFrame :=
  match rows df with
  | [] => Raise (IndexError "positional indexers are out-of-bounds")
  | r :: rs => Return {| columns := columns df; rows := [last rs r] |}
  end.

(** [df.iloc[[0]]] *)
Definition iloc_first (df : DataFrame) : outcome DataFrame :=
  match rows df with
  | [] => Raise (IndexError "positional indexers are out-of-bounds")
  | r :: _ => Return {| columns := columns df; rows := [r] |}
  end.

Fixpoint set_nth {A} (i : nat) (x : A) (l : list A) : list A :=
  match l, i with
  | [], _ => []
  | _ :: l', O => x :: l'
  | y :: l', S i' => y :: set_nth i' x l'
  end.

(** [df[name] = vals]: replaces the column, or adds it as the last one *)
Definition set_column (df : DataFrame) (name : string) (vals : list cell)
  : DataFrame :=
  match index_of name (columns df) with
  | Some i =>
      {| columns := columns df;
         rows := map (fun rv => (fst (fst rv), set_nth i (snd rv) (snd (fst rv))))
                     (combine (rows df) vals) |}
  | None =>
      {| columns := List.app (columns df) [name];
         rows := map (fun rv => (fst (fst rv), List.app (snd (fst rv)) [snd rv]))
                     (combine (rows df) vals) |}
  end.

Definition is_na (c : cell) : bool :=
  match c with
  | NA => true
  | _ => false
  end.

(** [DataFrame.dropna()]: drops every row that holds a missing value *)
Definition frame_dropna (df : DataFrame) : DataFrame :=
  {| columns := columns df;
     rows := filter (fun r => negb (existsb is_na (snd r))) (rows df) |}.

(** [Series.dropna()]: drops the missing entries *)
Definition series_dropna (s : Series) : Series :=
  filter (fun kv => negb (is_na (snd kv))) s.

(** [DataFrame.squeeze()]: every axis of length 1 is squeezed away *)
Definition squeeze (df : DataFrame) : squeezed :=
  match rows df, columns df with
  | [r], [_] => SqScalar (nth 0 (snd r) NA)
  | [r], cols => SqSeries (combine (map LStr cols) (snd r))
  | rs, [_] => SqSeries (map (fun r => (LInt (fst r), nth 0 (snd r) NA)) rs)
  | _, _ => SqFrame df
  end.

(** [Series.to_dict()] *)
Definition series_to_dict (s : Series) : pydict :=
  map (fun kv => (fst kv, OCell (snd kv))) s.

(** [DataFrame.to_dict()]: column -> (index -> value) *)
Definition frame_to_dict (df : DataFrame) : pydict :=
  map (fun c => (LStr c,
                 ODict (map (fun r => (LInt (fst r), cell_at df c (snd r)))
                            (rows df))))
      (columns df).

(** [df.to_dict("records")]: one column -> value dictionary per row *)
Definition to_dict_records (df : DataFrame) : list (list (string * cell)) :=
  map (fun r => combine (columns df) (snd r)) (rows df).

(** [df.dropna().squeeze().to_dict()], as in [PostgresConsumer.write] *)
Definition dropna_squeeze_to_dict (df : DataFrame) : outcome pydict :=
  match squeeze (frame_dropna df) with
  | SqScalar _ => Raise (AttributeError "object has no attribute 'to_dict'")
  | SqSeries s => Return (series_to_dict s)
  | SqFrame f => Return (frame_to_dict f)
  end.

(** [df.squeeze().dropna().to_dict()], as in [MqttConsumer.consume] *)
Definition squeeze_dropna_to_dict (df : DataFrame) : outcome pydict :=
  match squeeze df with
  | SqScalar _ => Raise (AttributeError "object has no attribute 'dropna'")
  | SqSeries s => Return (series_to_dict (series_dropna s))
  | SqFrame f => Return (frame_to_dict (frame_dropna f))
  end.

(** ** amber_data.py: the derivations *)

Definition NS_PER_SECOND : Z := 1000000000.
Definition SECONDS_PER_DAY : Z := 86400.

(** one element of [a - b] on two timestamp series.  The difference is taken
    in [Z]: pandas raises [OverflowError] when it leaves the 64-bit
    nanoseconds of a [Timedelta], which two timestamps less than 292 years
    apart never do. *)
Definition timestamp_sub (a b : cell) : outcome cell :=
  match a, b with
  | VTime x, VTime y => Return (VDelta (x - y))
  | VTime _, NA | NA, VTime _ | NA, NA => Return NA
  | _, _ => Raise (TypeError "unsupported operand type(s) for -")
  end.

Fixpoint series_sub (a b : list cell) : outcome (list cell) :=
  match a, b with
  | x :: a', y :: b' =>
      obind (timestamp_sub x y) (fun d =>
      obind (series_sub a' b') (fun ds => Return (d :: ds)))
  | _, _ => Return []
  end.

(** [Timedelta.seconds]: the seconds component, [0 <= seconds < 86400];
    the whole days of the duration are its separate [days] component. *)
Definition timedelta_seconds (ns : Z) : Z :=
  (ns / NS_PER_SECOND) mod SECONDS_PER_DAY.

(** one element of [series.dt.seconds].  The number is given as an integer;
    pandas hands the column over as floats ([3600.0]) when one of its
    elements is missing. *)
Definition dt_seconds (c : cell) : outcome cell :=
  match c with
  | VDelta ns => Return (VInt (timedelta_seconds ns))
  | NA => Return NA
  | _ => Raise (AttributeError "Can only use .dt accessor with datetimelike values")
  end.

Fixpoint map_outcome {A B} (f : A -> outcome B) (l : list A) : outcome (list B) :=
  match l with
  | [] => Return []
  | x :: l' =>
      obind (f x) (fun y => obind (map_outcome f l') (fun ys => Return (y :: ys)))
  end.

Fixpoint mapM {A B} (f : A -> M B) (l : list A) : M (list B) :=
  match l with
  | [] => ret []
  | x :: l' => y <- f x ;; ys <- mapM f l' ;; ret (y :: ys)
  end.

Fixpoint assoc {A} (k : string) (kv : list (string * A)) : option A :=
  match kv with
  | [] => None
  | (k', v) :: kv' => if k' =? k then Some v else assoc k kv'
  end.

(** [m[key]] on a cell that should hold a decoded JSON object.  Python's
    [TypeError] message names the type of the operand; it is shortened
    here. *)
Definition getitem (m : cell) (key : string) : outcome scalar :=
  match m with
  | VObj kv =>
      match assoc key kv with
      | Some v => Return v
      | None => Raise (KeyError key)
      end
  | _ => Raise (TypeError "object is not subscriptable")
  end.

(** The field lists and table names of amber_data.py. *)
Definition TABLE_RAW_ACTUAL_30MIN : string := "amber_actual_30min".
Definition TABLE_RAW_ACTUAL_5MIN : string := "amber_actual_5min".
Definition TABLE_RAW_FORECAST : string := "amber_forecast".
Definition TABLE_RAW_FORECAST_ROLLING : string := "amber_forecast_rolling".
Definition TIME_FIELD : string := "event_time".

(** [FieldMap(name)]: the type defaults to ["VARCHAR"]. *)
Definition FieldMap_varchar (name : string) : FieldMap :=
  FieldMap_ name (Some "VARCHAR").

(** [FieldMap(name, ty, keep=False)] *)
Definition FieldMap_dropped (name ty : string) : FieldMap :=
  {| in_name := name; data_type := Some ty; column_name := None;
     fm_primary_key := Some false; keep := Some false; default := None;
     convert := Some null_convert; comment := None |}.

Definition actual_30min_fields : list FieldMap :=
  [FieldMap_ TIME_FIELD (Some "TIMESTAMPTZ NOT NULL");
   FieldMap_ "semiScheduledGeneration" (Some "DOUBLE PRECISION");
   FieldMap_ "operationalDemand" (Some "DOUBLE PRECISION");
   FieldMap_ "rooftopSolar" (Some "DOUBLE PRECISION");
   FieldMap_ "createdAt" (Some "TIMESTAMPTZ");
   FieldMap_ "wholesaleKWHPrice" (Some "DOUBLE PRECISION");
   FieldMap_varchar "region";
   FieldMap_ "period" (Some "TIMESTAMPTZ NOT NULL");
   FieldMap_ "renewablesPercentage" (Some "DOUBLE PRECISION");
   FieldMap_ "percentileRank" (Some "DOUBLE PRECISION");
   FieldMap_varchar "postcode";
   FieldMap_ "usage_price" (Some "DOUBLE PRECISION");
   FieldMap_ "export_price" (Some "DOUBLE PRECISION")].

Definition actual_5min_fields : list FieldMap :=
  [FieldMap_ TIME_FIELD (Some "TIMESTAMPTZ NOT NULL");
   FieldMap_ "operationalDemand" (Some "DOUBLE PRECISION");
   FieldMap_ "rooftopSolar" (Some "DOUBLE PRECISION");
   FieldMap_ "wholesaleKWHPrice" (Some "DOUBLE PRECISION");
   FieldMap_varchar "region";
   FieldMap_ "period" (Some "TIMESTAMPTZ NOT NULL");
   FieldMap_ "renewablesPercentage" (Some "DOUBLE PRECISION");
   FieldMap_ "percentileRank" (Some "DOUBLE PRECISION");
   FieldMap_dropped "latestPeriod" "TIMESTAMPTZ";
   FieldMap_dropped "usage" "DOUBLE PRECISION";
   FieldMap_varchar "postcode";
   FieldMap_ "usage_price" (Some "DOUBLE PRECISION");
   FieldMap_ "export_price" (Some "DOUBLE PRECISION")].

Definition forecast_fields : list FieldMap :=
  [FieldMap_ TIME_FIELD (Some "TIMESTAMPTZ NOT NULL");
   FieldMap_ "semiScheduledGeneration" (Some "DOUBLE PRECISION");
   FieldMap_ "operationalDemand" (Some "DOUBLE PRECISION");
   FieldMap_ "rooftopSolar" (Some "DOUBLE PRECISION");
   FieldMap_ "createdAt" (Some "TIMESTAMPTZ");
   FieldMap_ "wholesaleKWHPrice" (Some "DOUBLE PRECISION");
   FieldMap_varchar "region";
   FieldMap_ "period" (Some "TIMESTAMPTZ NOT NULL");
   FieldMap_ "renewablesPercentage" (Some "DOUBLE PRECISION");
   FieldMap_varchar "periodSource";
   FieldMap_ "percentileRank" (Some "DOUBLE PRECISION");
   FieldMap_ "forecastedAt" (Some "TIMESTAMPTZ");
   FieldMap_ "wholesaleKWHPriceRange" (Some "DOUBLE PRECISION[]");
   FieldMap_varchar "postcode";
   FieldMap_ "usage_price" (Some "DOUBLE PRECISION");
   FieldMap_ "export_price" (Some "DOUBLE PRECISION")].

(** [FieldMap(name, ty, comment=text)] *)
Definition FieldMap_comment (name ty text : string) : FieldMap :=
  {| in_name := name; data_type := Some ty; column_name := None;
     fm_primary_key := Some false; keep := Some true; default := None;
     convert := Some null_convert; comment := Some text |}.

Definition forecast_rolling_fields : list FieldMap :=
  [FieldMap_ TIME_FIELD (Some "TIMESTAMPTZ NOT NULL");
   FieldMap_ "semiScheduledGeneration" (Some "DOUBLE PRECISION");
   FieldMap_ "operationalDemand" (Some "DOUBLE PRECISION");
   FieldMap_ "rooftopSolar" (Some "DOUBLE PRECISION");
   FieldMap_ "createdAt" (Some "TIMESTAMPTZ");
   FieldMap_ "wholesaleKWHPrice" (Some "DOUBLE PRECISION");
   FieldMap_varchar "region";
   FieldMap_comment "period" "TIMESTAMPTZ NOT NULL" "30 minute period for forecast";
   FieldMap_ "renewablesPercentage" (Some "DOUBLE PRECISION");
   FieldMap_varchar "periodSource";
   FieldMap_ "percentileRank" (Some "DOUBLE PRECISION");
   FieldMap_comment "forecastedAt" "TIMESTAMPTZ"
     "30 minute period when forecast was made";
   FieldMap_comment "wholesaleKWHPriceRange" "DOUBLE PRECISION[]" "[min, max]";
   FieldMap_varchar "postcode";
   FieldMap_ "usage_price" (Some "DOUBLE PRECISION");
   FieldMap_ "export_price" (Some "DOUBLE PRECISION");
   FieldMap_comment "forecast_lead" "INTEGER"
     ("lead time in seconds for forecast"
      ++ " derived from period and forecastedAt")].

Section Derivations.

(** Python's [float(x)] on a JSON scalar: the bits of the double, or the
    exception it raises. *)
Variable py_float : scalar -> outcome Z.

Definition map_to_array (m : cell) : M cell :=
  try_except
    (lo <- lift (obind (getitem m "min") py_float) ;;
     hi <- lift (obind (getitem m "max") py_float) ;;
     ret (VPair (VFloat lo) (VFloat hi)))
    (fun e =>
       log_exception "json encode failed" [] e ;;;
       ret (VPair (VInt 0) (VInt 0))).

Definition calculate_actual_30min (spec : TableSpecData) (df : DataFrame)
  : M DataFrame :=
  periodType <- lift (getattr_column df "periodType") ;;
  periodSource <- lift (getattr_column df "periodSource") ;;
  let of_ :=
    loc df (mask_and (map (eq_str "ACTUAL") periodType)
                     (map (eq_str "30MIN") periodSource))
        (intersection (columns df) (spec_get_column_names spec)) in
  lift (iloc_last of_).

Definition calculate_actual_5min (spec : TableSpecData) (df : DataFrame)
  : M DataFrame :=
  periodType <- lift (getattr_column df "periodType") ;;
  periodSource <- lift (getattr_column df "periodSource") ;;
  let of_ :=
    loc df (mask_and (map (eq_str "ACTUAL") periodType)
                     (map (eq_str "5MIN") periodSource))
        (intersection (columns df) (spec_get_column_names spec)) in
  ret of_.

(** [if "wholesaleKWHPriceRange" in of.columns: of[...] = of[...].map(map_to_array)] *)
Definition coerce_price_range (of_ : DataFrame) : M DataFrame :=
  if mem "wholesaleKWHPriceRange" (columns of_) then
    col <- lift (getattr_column of_ "wholesaleKWHPriceRange") ;;
    vals <- mapM map_to_array col ;;
    ret (set_column of_ "wholesaleKWHPriceRange" vals)
  else ret of_.

Definition calculate_forecast (spec : TableSpecData) (df : DataFrame)
  : M DataFrame :=
  periodType <- lift (getattr_column df "periodType") ;;
  let of_ :=
    loc df (map (eq_str "FORECAST") periodType)
        (intersection (columns df) (spec_get_column_names spec)) in
  of_ <- coerce_price_range of_ ;;
  lift (iloc_first of_).

Definition calculate_forecast_rolling (spec : TableSpecData) (df : DataFrame)
  : M DataFrame :=
  periodType <- lift (getattr_column df "periodType") ;;
  let of_ :=
    loc df (map (eq_str "FORECAST") periodType)
        (intersection (columns df) (spec_get_column_names spec)) in
  period <- lift (getattr_column of_ "period") ;;
  forecastedAt <- lift (getattr_column of_ "forecastedAt") ;;
  delta <- lift (series_sub period forecastedAt) ;;
  seconds <- lift (map_outcome dt_seconds delta) ;;
  let of_ := set_column of_ "forecast_lead" seconds in
  of_ <- coerce_price_range of_ ;;
  ret of_.

(** The four entries of [table_specs]. *)
Definition actual_30min_spec : TableSpec :=
  {| spec_data := {| field_map := actual_30min_fields;
                     table_name := TABLE_RAW_ACTUAL_30MIN;
                     primary_key := Some TIME_FIELD;
                     extra_sql := Some [DEFAULT_HYPERTABLE] |};
     calculate := Some calculate_actual_30min |}.

Definition actual_5min_spec : TableSpec :=
  {| spec_data := {| field_map := actual_5min_fields;
                     table_name := TABLE_RAW_ACTUAL_5MIN;
                     primary_key := Some TIME_FIELD;
                     extra_sql := Some [DEFAULT_HYPERTABLE] |};
     calculate := Some calculate_actual_5min |}.

Definition forecast_spec : TableSpec :=
  {| spec_data := {| field_map := forecast_fields;
                     table_name := TABLE_RAW_FORECAST;
                     primary_key := Some TIME_FIELD;
                     extra_sql := Some [DEFAULT_HYPERTABLE] |};
     calculate := Some calculate_forecast |}.

Definition forecast_rolling_spec : TableSpec :=
  {| spec_data := {| field_map := forecast_rolling_fields;
                     table_name := TABLE_RAW_FORECAST_ROLLING;
                     primary_key := Some "period, forecast_lead";
                     extra_sql :=
                       Some ["SELECT create_hypertable('{table_name}', 'period', "
                             ++ "if_not_exists => TRUE);"] |};
     calculate := Some calculate_forecast_rolling |}.

(** [table_specs]: the registry, in dispatch order. *)
Definition table_specs : list TableSpec :=
  [actual_30min_spec; actual_5min_spec; forecast_spec; forecast_rolling_spec].

End Derivations.

(** ** amber.py: the per-cycle loops of the sinks *)

(** The connection of the durable sink.  What a call does may depend on what
    has happened so far (a connection can be lost mid-cycle), so each
    operation is given the trace up to the call. *)
Record Connection : Type := mkConnection {
  conn_execute : trace -> string -> list pyobj -> outcome unit;
  conn_executemany : trace -> string -> list (list cell) -> outcome unit
}.

(** The MQTT client and the JSON encoder of the message sink. *)
Record MqttClient : Type := mkMqttClient {
  client_publish : trace -> string -> string -> outcome unit;
  enc_encode : pydict -> outcome string
}.

Definition execute (conn : Connection) (sql : string) (args : list pyobj)
  : M unit :=
  fun tr => (conn_execute conn tr sql args, List.app tr [Execute sql args]).

Definition executemany (conn : Connection) (sql : string)
    (args : list (list cell)) : M unit :=
  fun tr => (conn_executemany conn tr sql args,
             List.app tr [ExecuteMany sql args]).

Definition publish (client : MqttClient) (topic msg : string) : M unit :=
  fun tr => (client_publish client tr topic msg, List.app tr [Publish topic msg]).

(** [", ".join] accepts [str] items only. *)
Fixpoint str_keys (keys : list label) : outcome (list string) :=
  match keys with
  | [] => Return []
  | LStr s :: keys' => obind (str_keys keys') (fun ss => Return (s :: ss))
  | LInt _ :: _ => Raise (TypeError "sequence item: expected str instance, int found")
  end.

Section Sinks.

(** [ad.table_specs] as the sinks see it, and the raw data frame of the cycle. *)
Variable registry : list TableSpec.
Variable ts : DataFrame.

Definition name_of (spec : TableSpec) : string := table_name (spec_data spec).

(** *** [MqttConsumer.consume], from [for spec in ad.table_specs] on *)

Variable client : MqttClient.
Variable topic_template : string.

(** the body of the [try] that publishes one row *)
Definition mqtt_publish_row (spec : TableSpec) (df : DataFrame) : M unit :=
  d <- lift (squeeze_dropna_to_dict df) ;;
  msg <- lift (enc_encode client d) ;;
  topic <- lift (py_format topic_template [("series", name_of spec)]) ;;
  publish client topic msg.

Fixpoint mqtt_loop (specs : list TableSpec) : M unit :=
  match specs with
  | [] => ret tt
  | spec :: rest =>
      df <- do_calculate spec ts ;;
      match df with
      | None =>
          log_info "mqtt table: %s is empty" [name_of spec] ;;;
          mqtt_loop rest
      | Some df =>
          if empty df then
            log_info "mqtt table: %s is empty" [name_of spec] ;;;
            mqtt_loop rest
          else if (1 <? len df)%nat then
            log_info "mqtt multiple rows not implemented yet %s" [name_of spec] ;;;
            mqtt_loop rest
          else
            try_except (mqtt_publish_row spec df)
              (fun e => log_exception "mqtt actual_5min publish failed" [] e) ;;;
            mqtt_loop rest
      end
  end.

Definition consume : M Z := mqtt_loop registry ;;; ret 0%Z.

(** *** [PostgresConsumer.write], from the [try] around the table loop on *)

Variable conn : Connection.

(** The two [except] clauses of the single-row [try].  [ins_sql] is the
    local variable of that name: unbound ([None]) until a statement has been
    composed in this call of [write]. *)
Definition single_row_handler (spec : TableSpec) (ins_sql : option string)
    (e : exn) : M unit :=
  if is_unique_violation e then
    log_warning "unique violation - could be a fast restart so continuing" []
  else
    match ins_sql with
    | Some sql =>
        log_exception "postgres failed to write %s: %s with %s"
          [name_of spec; sql] e
    | None => raise (UnboundLocalError "ins_sql")
    end.

(** The single-row [try] statement.  It returns the binding of [ins_sql]
    after the statement, which is the new statement exactly when the body got
    as far as composing it. *)
Definition write_single_row (spec : TableSpec) (df : DataFrame)
    (ins_sql : option string) : M (option string) :=
  match dropna_squeeze_to_dict df with
  | Raise e => single_row_handler spec ins_sql e ;;; ret ins_sql
  | Return data =>
      match str_keys (map fst data) with
      | Raise e =>
          log_debug "postgres %s fields: %s" [name_of spec] ;;;
          single_row_handler spec ins_sql e ;;; ret ins_sql
      | Return fields =>
          log_debug "postgres %s fields: %s" [name_of spec] ;;;
          let sql := compose_insert fields (name_of spec) None in
          try_except (execute conn sql (map snd data))
            (single_row_handler spec (Some sql)) ;;;
          ret (Some sql)
      end
  end.

(** The branch for more than one row. *)
Definition write_batch (spec : TableSpec) (df : DataFrame) : M (option string) :=
  log_info "table: %s has %d rows" [name_of spec; Py.str_of_nat (len df)] ;;;
  let args := to_dict_records df in
  print "args" ;;;
  print "args[:3]" ;;;
  let fields := map fst (hd [] args) in
  log_debug "postgres %s fields: %s" [name_of spec] ;;;
  let ins_sql := compose_insert fields (name_of spec) None in
  try_except (executemany conn ins_sql (map (map snd) args))
    (fun e =>
       if is_unique_violation e then
         log_warning "unique violation - could be a restart so continuing" []
       else raise e) ;;;
  ret (Some ins_sql).

(** One iteration of [for spec in ad.table_specs]. *)
Definition write_table (spec : TableSpec) (ins_sql : option string)
  : M (option string) :=
  df <- do_calculate spec ts ;;
  match df with
  | None => log_info "table: %s is empty" [name_of spec] ;;; ret ins_sql
  | Some df =>
      if empty df then
        log_info "table: %s is empty" [name_of spec] ;;; ret ins_sql
      else
        print (name_of spec) ;;;
        print "df.head()" ;;;
        log_info "postgres: table: %s len: %d"
          [name_of spec; Py.str_of_nat (len df)] ;;;
        if (1 <? len df)%nat then write_batch spec df
        else
          ins_sql' <- write_single_row spec df ins_sql ;;
          log_info "PostgresWriter: %s written" [name_of spec] ;;;
          ret ins_sql'
  end.

(** The loop inside the outer [try].  The outer handler logs the table of
    the iteration that raised (its loop variable [spec]) and raises again; it
    is attached here to that iteration, after which nothing else runs. *)
Fixpoint write_loop (specs : list TableSpec) (ins_sql : option string)
  : M unit :=
  match specs with
  | [] => ret tt
  | spec :: rest =>
      ins_sql' <-
        try_except (write_table spec ins_sql)
          (fun e =>
             log_exception "PostgresWriter: failed to write: '%s'"
               [name_of spec] e ;;;
             raise e) ;;
      write_loop rest ins_sql'
  end.

Definition write : M Z := write_loop registry None ;;; ret 0%Z.

End Sinks.

(** *** [PostgresConsumer.create_tables] *)

(** The loop over the registry.  [compose_create] is called before the
    [try], so only the failure of [execute] is caught. *)
Fixpoint create_tables (conn : Connection) (specs : list TableSpec) : M unit :=
  match specs with
  | [] => ret tt
  | spec :: rest =>
      create_sql <-
        compose_create (table_name (spec_data spec)) (field_map (spec_data spec))
          (primary_key (spec_data spec)) (extra_sql (spec_data spec)) ;;
      try_except
        (log_debug ("create table: %s with " ++ Py.newline ++ " %s")
           [name_of spec; create_sql] ;;;
         execute conn create_sql [])
        (fun e => log_exception "failed to create table: %s" [create_sql] e) ;;;
      create_tables conn rest
  end.

(** *** The whole of [PostgresConsumer.write] and [MqttConsumer.consume] *)

(** The attributes that [PostgresConsumer.__init__] stores. *)
Record PostgresConsumer : Type := mkPostgresConsumer {
  pg_host : option string;
  pg_database : string;
  pg_user : option string;
  pg_password : option string
}.

(** What the scheduler passes with each cycle. *)
Record Event : Type := mkEvent {
  loop_counter : Z;
  event_time : cell
}.

(** [ts[ad.TIME_FIELD] = event.event_time]: the scalar fills the column. *)
Definition stamp_event_time (ts : DataFrame) (t : cell) : DataFrame :=
  set_column ts TIME_FIELD (repeat t (len ts)).

Section Cycle.

(** The decoded payload, and [to_timeseries], which turns it into the raw
    data frame (its float conversions are not modelled: it is taken as
    given). *)
Variable raw : Type.
Variable to_timeseries : raw -> M DataFrame.

(** The registry [ad.table_specs]. *)
Variable specs : list TableSpec.

(** [payload["data"]] *)
Definition payload_data (payload : option raw) : outcome raw :=
  match payload with
  | Some data => Return data
  | None => Raise (KeyError "data")
  end.

(** What [apg.connect(user, database, host, password)] does when called, the
    connection that [self.conn] denotes once the first cycle has stored it,
    and [getuser()]. *)
Variable apg_connect :
  option string -> string -> option string -> option string -> outcome unit.
Variable conn : Connection.
Variable getuser : string.

(** [PostgresConsumer.connect] *)
Definition connect (self : PostgresConsumer) : M unit :=
  match pg_password self with
  | None => raise (OtherError "database password must not be None")
  | Some _ =>
      match pg_host self with
      | None => raise (OtherError "database host must not be None")
      | Some _ =>
          let user := match pg_user self with
                      | None => getuser
                      | Some u => u
                      end in
          log_info ("user: " ++ user ++ " db: " ++ pg_database self ++ " host: "
                    ++ Py.str_of_opt (pg_host self)) [] ;;;
          lift (apg_connect (pg_user self) (pg_database self) (pg_host self)
                  (pg_password self))
      end
  end.

(** [PostgresConsumer.write] *)
Definition write_event (self : PostgresConsumer) (event : Event)
    (payload : option raw) : M Z :=
  (if (loop_counter event <? 1)%Z then
     try_except (connect self ;;; create_tables conn specs)
       (fun e =>
          log_exception "PostgresWriter: failed to initialize connection/tables"
            [] e ;;;
          raise e)
   else ret tt) ;;;
  data <- lift (payload_data payload) ;;
  ts <- to_timeseries data ;;
  let ts := stamp_event_time ts (event_time event) in
  write specs ts conn.

(** What [mq.Client(host).connect()] does when called, and the client that
    [self.client] denotes once the first cycle has stored it. *)
Variable mq_connect : outcome unit.
Variable client : MqttClient.
Variable topic_template : string.

(** [MqttConsumer.consume] *)
Definition consume_event (event : Event) (payload : option raw) : M Z :=
  (if (loop_counter event <? 1)%Z then
     try_except (lift mq_connect)
       (fun e =>
          log_exception "mqtt: failed to initialize connection/tables" [] e ;;;
          raise e)
   else ret tt) ;;;
  data <- lift (payload_data payload) ;;
  ts <- to_timeseries data ;;
  let ts := stamp_event_time ts (event_time event) in
  consume specs ts client topic_template.

End Cycle.

(** *** [find_config_file] *)






(** * Notions used to state the properties *)


(** The templates of an [extra_sql] argument that the loop visits. *)
Definition extra_templates (extra_sql : option (list string)) : list string :=
  match extra_sql with
  | Some l => l
  | None => []
  end.

(** The selection predicate of the coarse-actual table on a row of [df]:
    its [periodType] is ["ACTUAL"] and its [periodSource] is ["30MIN"]. *)
Definition is_actual_30min (df : DataFrame) (r : Z * list cell) : bool :=
  eq_str "ACTUAL" (cell_at df "periodType" (snd r))
  && eq_str "30MIN" (cell_at df "periodSource" (snd r)).

(** The selection predicate of the forecast tables on a row of [df]. *)
Definition is_forecast (df : DataFrame) (r : Z * list cell) : bool :=
  eq_str "FORECAST" (cell_at df "periodType" (snd r)).

(** Every row of [df] has one cell per column. *)
Definition rectangular (df : DataFrame) : Prop :=
  Forall (fun r => length (snd r) = length (columns df)) (rows df).

(** one element of [(of.period - of.forecastedAt).dt.seconds] *)
Definition lead_of (period forecastedAt : cell) : outcome cell :=
  obind (timestamp_sub period forecastedAt) dt_seconds.

(** The mapping that a single row [r] of [df] should collapse to: column
    name -> value, for the columns whose value is not missing. *)
Definition row_mapping (df : DataFrame) (r : Z * list cell) : pydict :=
  map (fun cv => (LStr (fst cv), OCell (snd cv)))
      (filter (fun cv => negb (is_na (snd cv))) (combine (columns df) (snd r))).

(** The statements sent to the durable sink, in order. *)
Definition statements_sent (tr : trace) : list string :=
  flat_map (fun ev =>
              match ev with
              | Execute sql _ => [sql]
              | ExecuteMany sql _ => [sql]
              | _ => []
              end) tr.

Definition is_statement (ev : event) : bool :=
  match ev with
  | Execute _ _ | ExecuteMany _ _ => true
  | _ => false
  end.

(** The trace at the moment the batch statement of [spec] is sent, given the
    trace [tr] after its derivation. *)
Definition before_executemany (spec : TableSpec) (df : DataFrame) (tr : trace)
  : trace :=
  List.app tr
    [Stdout (name_of spec); Stdout "df.head()";
     Log INFO "postgres: table: %s len: %d" [name_of spec; Py.str_of_nat (len df)];
     Log INFO "table: %s has %d rows" [name_of spec; Py.str_of_nat (len df)];
     Stdout "args"; Stdout "args[:3]";
     Log DEBUG "postgres %s fields: %s" [name_of spec]].

(** The trace at the moment the single-row statement of [spec] is sent. *)
Definition before_execute (spec : TableSpec) (df : DataFrame) (tr : trace)
  : trace :=
  List.app tr
    [Stdout (name_of spec); Stdout "df.head()";
     Log INFO "postgres: table: %s len: %d" [name_of spec; Py.str_of_nat (len df)];
     Log DEBUG "postgres %s fields: %s" [name_of spec]].

Definition batch_sql (spec : TableSpec) (df : DataFrame) : string :=
  compose_insert (map fst (hd [] (to_dict_records df))) (name_of spec) None.

Definition batch_args (df : DataFrame) : list (list cell) :=
  map (map snd) (to_dict_records df).

(** The selection predicate of the fine-actual table on a row of [df]. *)
Definition is_actual_5min (df : DataFrame) (r : Z * list cell) : bool :=
  eq_str "ACTUAL" (cell_at df "periodType" (snd r))
  && eq_str "5MIN" (cell_at df "periodSource" (snd r)).

(** The field has no column name of its own: [column_name] is absent or
    empty. *)
Definition no_column_name (f : FieldMap) : bool :=
  negb (Py.truthy_str (column_name f)).

(** The pair that [map_to_array] falls back to. *)
Definition zero_pair : cell := VPair (VInt 0) (VInt 0).

(** A timestamp or a missing value: what a datetime column holds. *)
Definition is_time_or_na (c : cell) : bool :=
  match c with
  | VTime _ | NA => true
  | _ => false
  end.

(** Every post-create template of the spec formats with the spec's table
    name and primary key. *)
Definition templates_format (spec : TableSpec) : bool :=
  forallb (fun template =>
             match py_format template
                     (create_kwargs (table_name (spec_data spec))
                        (primary_key (spec_data spec))) with
             | Return _ => true
             | Raise _ => false
             end)
          (extra_templates (extra_sql (spec_data spec))).

(** [compose_create] applied to a spec, as [create_tables] calls it. *)
Definition spec_create_sql (spec : TableSpec) : M string :=
  compose_create (table_name (spec_data spec)) (field_map (spec_data spec))
    (primary_key (spec_data spec)) (extra_sql (spec_data spec)).

(** The index labels of the rows of a frame, in order. *)
Definition labels (df : DataFrame) : list Z := map fst (rows df).

(** *** White space at the ends of a text *)

Definition bytes (l : list nat) : string :=
  string_of_list_ascii (map ascii_of_nat l).

(** The white-space characters of Unicode, each as its UTF-8 bytes: U+0009 to
    U+000D, U+001C to U+0020, U+0085, U+00A0, U+1680, U+2000 to U+200A,
    U+2028, U+2029, U+202F, U+205F and U+3000. *)
Definition white_space : list string :=
  map bytes
    [[9]; [10]; [11]; [12]; [13]; [28]; [29]; [30]; [31]; [32];
     [194; 133]; [194; 160];
     [225; 154; 128];
     [226; 128; 128]; [226; 128; 129]; [226; 128; 130]; [226; 128; 131];
     [226; 128; 132]; [226; 128; 133]; [226; 128; 134]; [226; 128; 135];
     [226; 128; 136]; [226; 128; 137]; [226; 128; 138];
     [226; 128; 168]; [226; 128; 169]; [226; 128; 175];
     [226; 129; 159];
     [227; 128; 128]]%nat.

(** A text made of characters that satisfy [P], one after the other. *)
Inductive run_of (P : string -> Prop) : string -> Prop :=
| run_empty : run_of P ""
| run_more (w s : string) : P w -> run_of P s -> run_of P (w ++ s).

Definition is_white_space (w : string) : Prop := In w white_space.

(** A text of white space only. *)
Definition blank (s : string) : Prop := run_of is_white_space s.

Definition starts_blank (s : string) : Prop :=
  exists w rest, is_white_space w /\ s = w ++ rest.

Definition ends_blank (s : string) : Prop :=
  exists front w, is_white_space w /\ s = front ++ w.

(** [entry] is [raw] with the white space at both of its ends removed. *)
Definition stripped_both_ends (raw entry : string) : Prop :=
  exists l r,
    raw = l ++ entry ++ r /\ blank l /\ blank r
    /\ ~ starts_blank entry /\ ~ ends_blank entry.

(** The pattern that three tests on one, two and three bytes accept. *)
Definition accepted (p1 : ascii -> bool) (p2 : ascii -> ascii -> bool)
    (p3 : ascii -> ascii -> ascii -> bool) (w : string) : Prop :=
  (exists a, w = String a "" /\ p1 a = true)
  \/ (exists a b, w = String a (String b "") /\ p2 a b = true)
  \/ (exists a b c, w = String a (String b (String c "")) /\ p3 a b c = true).

Definition starts_accepted (p1 : ascii -> bool) (p2 : ascii -> ascii -> bool)
    (p3 : ascii -> ascii -> ascii -> bool) (s : string) : bool :=
  match s with
  | String a rest =>
      p1 a
      || match rest with
         | String b rest2 =>
             p2 a b
             || match rest2 with
                | String c _ => p3 a b c
                | EmptyString => false
                end
         | EmptyString => false
         end
  | EmptyString => false
  end.

(** *** The statement that [compose_create] should emit *)

Definition line_break : string := String (ascii_of_nat 10) "".

(** The field is listed: its [keep] is [True]. *)
Definition keep_true (f : FieldMap) : bool :=
  match keep f with
  | Some true => true
  | _ => false
  end.

(** The column name of a field: its own when it has a non-empty one, the
    source name otherwise. *)
Definition column_or_source (f : FieldMap) : string :=
  match column_name f with
  | Some (String c name) => String c name
  | _ => in_name f
  end.

(** [column_name type default] before it is stripped: the type as Python
    prints it, and an empty default clause when none is given. *)
Definition raw_entry (f : FieldMap) : string :=
  column_or_source f ++ " "
  ++ match data_type f with Some ty => ty | None => "None" end ++ " "
  ++ match default f with Some d => d | None => "" end.

(** A post-create template, piece by piece: literal text, and references
    [{name}] to a keyword argument. *)
Inductive piece : Type :=
| Lit (text : string)
| Ref (name : string).

(** Literal text as a template holds it: braces doubled. *)
Fixpoint escape (text : string) : string :=
  match text with
  | EmptyString => EmptyString
  | String c rest =>
      if (c =? "{")%char then "{{" ++ escape rest
      else if (c =? "}")%char then "}}" ++ escape rest
      else String c (escape rest)
  end.

Fixpoint template_text (pieces : list piece) : string :=
  match pieces with
  | [] => ""
  | Lit text :: rest => escape text ++ template_text rest
  | Ref name :: rest => "{" ++ name ++ "}" ++ template_text rest
  end.

Definition is_letter (c : ascii) : bool :=
  let n := nat_of_ascii c in
  (((65 <=? n) && (n <=? 90)) || ((97 <=? n) && (n <=? 122)) || (n =? 95))%nat.

(** An identifier: a letter or underscore, then letters, digits and
    underscores. *)
Definition is_identifier (name : string) : bool :=
  match name with
  | EmptyString => false
  | String c rest =>
      is_letter c
      && forallb (fun c => is_letter c || is_digit c) (list_ascii_of_string rest)
  end.

(** The template refers to [table_name] and [primary_key] only. *)
Definition known (pieces : list piece) : bool :=
  forallb (fun p =>
             match p with
             | Lit _ => true
             | Ref name => (name =? "table_name") || (name =? "primary_key")
             end) pieces.

(** The template with its references replaced: [{table_name}] by the table
    name, [{primary_key}] by the primary key, or by the text [None] when
    there is none. *)
Fixpoint substituted (table_name : string) (primary_key : option string)
    (pieces : list piece) : string :=
  match pieces with
  | [] => ""
  | Lit text :: rest => text ++ substituted table_name primary_key rest
  | Ref name :: rest =>
      (if name =? "table_name" then table_name
       else match primary_key with Some p => p | None => "None" end)
      ++ substituted table_name primary_key rest
  end.

(** What the handler of [compose_create] prints for a template. *)
Definition printed_template (template table_name : string)
    (primary_key : option string) : string :=
  String.concat " "
    ["xsql %s table_name %s primary_key %s"; template; table_name;
     match primary_key with Some p => p | None => "None" end].

(** The difference of two timestamps fits the 64-bit nanoseconds of a
    [Timedelta]; nothing is asked of missing values. *)
Definition lead_in_range (period made : cell) : bool :=
  match period, made with
  | VTime p, VTime t => ((- 2 ^ 63 <? p - t) && (p - t <? 2 ^ 63))%Z
  | _, _ => true
  end.

(** What [create_tables] should leave in the trace for tables given by name
    and DDL, on the sink [conn] and from the trace [tr] on: for each table in
    turn the debug record and the statement, followed by the logged exception
    when the sink refused the statement. *)
Fixpoint creation_trace (conn : Connection) (tables : list (string * string))
    (tr : trace) : trace :=
  match tables with
  | [] => tr
  | (name, ddl) :: rest =>
      let asked :=
        List.app tr
          [Log DEBUG ("create table: %s with " ++ line_break ++ " %s")
             [name; ddl]] in
      match conn_execute conn asked ddl [] with
      | Return _ => creation_trace conn rest (List.app asked [Execute ddl []])
      | Raise e =>
          creation_trace conn rest
            (List.app asked
               [Execute ddl [];
                LogException "failed to create table: %s" [ddl] e])
      end
  end.

(** The tables of a registry by name, with their DDL. *)
Definition named (specs : list TableSpec) (ddl : list string)
  : list (string * string) :=
  combine (map (fun spec => table_name (spec_data spec)) specs) ddl.


(** * Reference inputs *)


(** A raw dataset with two ACTUAL 30-minute rows, one ACTUAL 5-minute row and
    one FORECAST row; [usage] is not a column that the 30-minute table keeps. *)
Definition sample_timeseries : DataFrame :=
  {| columns := ["periodType"; "periodSource"; "period"; "usage"; "region"];
     rows :=
       [(0%Z, [VStr "ACTUAL"; VStr "30MIN"; VTime 1000; VFloat 11; VStr "VIC"]);
        (1%Z, [VStr "ACTUAL"; VStr "5MIN"; VTime 2000; VFloat 12; VStr "VIC"]);
        (2%Z, [VStr "ACTUAL"; VStr "30MIN"; VTime 3000; VFloat 13; VStr "VIC"]);
        (3%Z, [VStr "FORECAST"; VStr "30MIN"; VTime 4000; VFloat 14; VStr "VIC"])] |}.

(** A forecast made at [forecast_made] (2023-11-14T22:13:20Z) for the period
    that ends 25 hours later. *)
Definition forecast_made : Z := 1700000000000000000.
Definition forecast_period : Z := forecast_made + 90000 * NS_PER_SECOND.

Definition day_ahead_timeseries : DataFrame :=
  {| columns := ["periodType"; "period"; "forecastedAt"; "region"];
     rows := [(0%Z, [VStr "FORECAST"; VTime forecast_period;
                     VTime forecast_made; VStr "VIC"])] |}.

(** A connection that is lost after the first statement of the cycle: every
    later statement fails. *)
Definition lost_after_first : Connection :=
  let answer (tr : trace) : outcome unit :=
    if existsb is_statement tr
    then Raise (PostgresError "connection is closed")
    else Return tt in
  {| conn_execute := fun tr _ _ => answer tr;
     conn_executemany := fun tr _ _ => answer tr |}.

(** A cycle's raw dataset with one ACTUAL 30-minute row, two ACTUAL 5-minute
    rows and one FORECAST row. *)
Definition cycle_timeseries : DataFrame :=
  {| columns := ["event_time"; "periodType"; "periodSource"; "period";
                 "forecastedAt"; "region"];
     rows :=
       [(0%Z, [VTime 5; VStr "ACTUAL"; VStr "30MIN"; VTime 1000; NA; VStr "VIC"]);
        (1%Z, [VTime 5; VStr "ACTUAL"; VStr "5MIN"; VTime 2000; NA; VStr "VIC"]);
        (2%Z, [VTime 5; VStr "ACTUAL"; VStr "5MIN"; VTime 3000; NA; VStr "VIC"]);
        (3%Z, [VTime 5; VStr "FORECAST"; VStr "30MIN"; VTime 1800000000000;
               VTime 0; VStr "VIC"])] |}.

(** The same cycle without 5-minute rows: every table that has rows has one. *)
Definition cycle_without_5min : DataFrame :=
  {| columns := columns cycle_timeseries;
     rows :=
       [(0%Z, [VTime 5; VStr "ACTUAL"; VStr "30MIN"; VTime 1000; NA; VStr "VIC"]);
        (3%Z, [VTime 5; VStr "FORECAST"; VStr "30MIN"; VTime 1800000000000;
               VTime 0; VStr "VIC"])] |}.

(** A sink that accepts every statement. *)
Definition accepting : Connection :=
  {| conn_execute := fun _ _ _ => Return tt;
     conn_executemany := fun _ _ _ => Return tt |}.

Definition label_text (l : label) : string :=
  match l with
  | LStr s => s
  | LInt _ => "#"
  end.

(** An MQTT client that accepts every message, with an encoder that writes
    down the keys of the mapping it is given. *)
Definition key_listing_client : MqttClient :=
  {| client_publish := fun _ _ _ => Return tt;
     enc_encode := fun d => Return (Py.join "," (map (fun kv => label_text (fst kv)) d)) |}.

(** A cycle whose only row is an ACTUAL 30-minute row without [createdAt]. *)
Definition timeseries_with_null : DataFrame :=
  {| columns := ["event_time"; "periodType"; "periodSource"; "period";
                 "createdAt"; "region"];
     rows := [(0%Z, [VTime 5; VStr "ACTUAL"; VStr "30MIN"; VTime 1000; NA;
                     VStr "VIC"])] |}.

Definition derived_row_with_null : DataFrame :=
  {| columns := ["event_time"; "period"; "createdAt"; "region"];
     rows := [(0%Z, [VTime 5; VTime 1000; NA; VStr "VIC"])] |}.

(** A [float] that converts JSON numbers and rejects everything else. *)
Definition float_of_number (s : scalar) : outcome Z :=
  match s with
  | JNum bits => Return bits
  | JStr _ => Raise (ValueError "could not convert string to float")
  | JNull => Raise (TypeError "float() argument must be a string or a real number")
  end.

(** A cycle's raw dataset that holds ACTUAL 5-minute rows only. *)
Definition early_cycle_timeseries : DataFrame :=
  {| columns := columns cycle_timeseries;
     rows :=
       [(0%Z, [VTime 5; VStr "ACTUAL"; VStr "5MIN"; VTime 2000; NA; VStr "VIC"]);
        (1%Z, [VTime 5; VStr "ACTUAL"; VStr "5MIN"; VTime 3000; NA; VStr "VIC"])] |}.

(** A sink in which every row of the cycle is already stored. *)
Definition already_stored : Connection :=
  {| conn_execute := fun _ _ _ => Raise UniqueViolationError;
     conn_executemany := fun _ _ _ => Raise UniqueViolationError |}.

(** A table whose post-create template names a field that [compose_create]
    does not pass. *)
Definition spec_with_unknown_field : TableSpec :=
  {| spec_data := {| field_map := [FieldMap_ "region" (Some "VARCHAR")];
                     table_name := "amber_region";
                     primary_key := None;
                     extra_sql := Some ["GRANT SELECT ON {table_name} TO {role};"] |};
     calculate := None |}.

(** An MQTT client whose encoder cannot serialise what it is given. *)
Definition unserializable_client : MqttClient :=
  {| client_publish := fun _ _ _ => Return tt;
     enc_encode := fun _ => Raise (TypeError "Object is not JSON serializable") |}.

(** * Properties *)

Unset Implicit Arguments.

(** ** Decimal numerals *)


(** ** compose_insert *)

Lemma insert_placeholders_length (field_names : list string) :
  length (insert_placeholders field_names) = length field_names.
Proof.
  unfold insert_placeholders. now rewrite length_map, length_seq.
Qed.





(** ** Column names *)

Lemma effective_column_falsy (f : FieldMap) :
  Py.truthy_str (column_name f) = false -> effective_column f = in_name f.
Proof.
  unfold effective_column. destruct (column_name f) as [c|]; [|reflexivity].
  intros H. now rewrite H.
Qed.

Lemma get_column_names_nth (fm : list FieldMap) (k : nat) :
  nth_error (get_column_names fm) k
  = option_map effective_column (nth_error (filter kept fm) k).
Proof. unfold get_column_names. apply nth_error_map. Qed.

(** C10.  The k-th keep-true field of a field list gives the k-th name that
    [get_column_names] returns and the k-th column entry of the DDL.  When its
    [column_name] is the empty string, that name is the field's source name
    (and so is empty only if the source name itself is), and the column entry
    is built from the source name. *)
Theorem get_column_names_empty_column_name
    (fm : list FieldMap) (k : nat) (f : FieldMap) :
  nth_error (filter kept fm) k = Some f ->
  column_name f = Some "" ->
  nth_error (get_column_names fm) k = Some (in_name f)
  /\ (nth_error (get_column_names fm) k = Some "" -> in_name f = "")
  /\ nth_error (map fdesc_entry (filter kept fm)) k
     = Some (Py.strip (in_name f ++ " " ++ Py.str_of_opt (data_type f) ++ " "
                       ++ match default f with Some d => d | None => "" end)).
Proof.
  intros Hk Hc.
  assert (He : effective_column f = in_name f)
    by (apply effective_column_falsy; now rewrite Hc).
  assert (Hn : nth_error (get_column_names fm) k = Some (in_name f))
    by (rewrite get_column_names_nth, Hk; simpl; now rewrite He).
  split; [exact Hn|]. split.
  - rewrite Hn. congruence.
  - rewrite nth_error_map, Hk. simpl. unfold fdesc_entry. now rewrite He.
Qed.

Lemma get_column_names_empty_column_name_witness :
  let f := {| in_name := "period"; data_type := Some "TIMESTAMPTZ";
              column_name := Some ""; fm_primary_key := Some false;
              keep := Some true; default := None;
              convert := Some null_convert; comment := None |} in
  let fm := [FieldMap_ "event_time" (Some "TIMESTAMPTZ NOT NULL"); f] in
  nth_error (get_column_names fm) 1 = Some "period"
  /\ (nth_error (get_column_names fm) 1 = Some "" -> in_name f = "")
  /\ nth_error (map fdesc_entry (filter kept fm)) 1
     = Some (Py.strip ("period" ++ " " ++ "TIMESTAMPTZ" ++ " " ++ "")).
Proof.
  intros f fm.
  apply (@get_column_names_empty_column_name fm 1 f); reflexivity.
Defined.

(** ** Construction of a table specification *)




(** ** str.format *)

Lemma append_assoc (a b c : string) : (a ++ b) ++ c = a ++ (b ++ c).
Proof. induction a as [|x a IH]; simpl; [reflexivity|now rewrite IH]. Qed.

Lemma prefix_prefix (p q : string) (o : outcome string) :
  prefix p (prefix q o) = prefix (p ++ q) o.
Proof. destruct o; simpl; [now rewrite append_assoc|reflexivity]. Qed.





(** ** compose_create *)

Lemma format_extra_ok (kw : kwargs) (extra subs : list string) :
  Forall2 (fun x s => py_format x kw = Return s) extra subs ->
  forall clauses, format_extra kw extra clauses = inr (List.app clauses subs).
Proof.
  induction 1 as [|x s extra subs Hx _ IH]; intros clauses; simpl.
  - now rewrite app_nil_r.
  - rewrite Hx, IH, <- app_assoc. reflexivity.
Qed.

Lemma compose_create_ok
    (table_name : string) (fields : list FieldMap) (primary_key : option string)
    (extra_sql : option (list string)) (subs : list string) (tr : trace) :
  Forall2 (fun x s => py_format x (create_kwargs table_name primary_key) = Return s)
          (extra_templates extra_sql) subs ->
  compose_create table_name fields primary_key extra_sql tr
  = (Return
       (Py.join Py.newline
          (List.app
             (List.app
                ["CREATE TABLE IF NOT EXISTS " ++ table_name ++ " (" ++ Py.newline
                 ++ Py.join ("," ++ Py.newline) (map fdesc_entry (filter kept fields))]
                (if Py.truthy_str primary_key
                 then [", PRIMARY KEY(" ++ Py.str_of_opt primary_key ++ ")"; ");"]
                 else [");"]))
             subs)),
     tr).
Proof.
  intros Hsubs. unfold compose_create, bind, ret.
  destruct extra_sql as [[|x extra]|]; simpl in Hsubs.
  - inversion Hsubs; subst. rewrite app_nil_r.
    destruct (Py.truthy_str primary_key); reflexivity.
  - rewrite (@format_extra_ok _ _ _ Hsubs).
    destruct (Py.truthy_str primary_key); reflexivity.
  - inversion Hsubs; subst. rewrite app_nil_r.
    destruct (Py.truthy_str primary_key); reflexivity.
Qed.

Lemma kw_lookup_create_absent (table_name : string) (primary_key : option string)
    (k : string) :
  k <> "table_name" -> k <> "primary_key" ->
  kw_lookup k (create_kwargs table_name primary_key) = None.
Proof.
  intros H1 H2. unfold create_kwargs, kw_lookup.
  destruct (String.eqb_spec "table_name" k); [congruence|].
  destruct (String.eqb_spec "primary_key" k); [congruence|reflexivity].
Qed.

(** C6, as stated, fails in two places.  The default clause is not kept
    verbatim: white space at the end of a column entry is stripped.  And a
    template that refers to [{primary_key}] while the primary key is absent
    does not make [compose_create] raise: the text [None] is substituted. *)
Lemma compose_create_not_as_stated :
  let f := {| in_name := "usage"; data_type := Some "INTEGER";
              column_name := None; fm_primary_key := Some false;
              keep := Some true; default := Some "DEFAULT 0 ";
              convert := Some null_convert; comment := None |} in
  compose_create "t" [f] None None []
  = (Return ("CREATE TABLE IF NOT EXISTS t (" ++ Py.newline
             ++ "usage INTEGER DEFAULT 0" ++ Py.newline ++ ");"), [])
  /\ "usage INTEGER DEFAULT 0" <> "usage" ++ " " ++ "INTEGER" ++ " " ++ "DEFAULT 0 "
  /\ compose_create "t" [f] None (Some [DEFAULT_HYPERTABLE]) []
     = (Return ("CREATE TABLE IF NOT EXISTS t (" ++ Py.newline
                ++ "usage INTEGER DEFAULT 0" ++ Py.newline ++ ");" ++ Py.newline
                ++ "SELECT create_hypertable('t', 'None', if_not_exists => TRUE);"),
        [])
  /\ ~ (exists e tr,
          compose_create "t" [f] None (Some [DEFAULT_HYPERTABLE]) [] = (Raise e, tr)).
Proof.
  intros f. repeat split; try reflexivity; try discriminate.
  intros (e & tr & H). vm_compute in H. discriminate H.
Qed.

(** ** str.strip *)

Lemma lstrip_by_stops (p1 : ascii -> bool) (p2 : ascii -> ascii -> bool)
    (p3 : ascii -> ascii -> ascii -> bool) (n : nat) :
  forall s, String.length s <= n ->
            starts_accepted p1 p2 p3 (Py.lstrip_by p1 p2 p3 s) = false.
Proof.
  induction n as [|n IH]; intros s Hlen.
  - destruct s; [reflexivity|simpl in Hlen; lia].
  - destruct s as [|a rest]; [reflexivity|]. simpl in Hlen. simpl Py.lstrip_by.
    destruct (p1 a) eqn:H1; [apply IH; lia|].
    destruct rest as [|b rest2]; [simpl; now rewrite H1|]. simpl in Hlen.
    destruct (p2 a b) eqn:H2; [apply IH; lia|].
    destruct rest2 as [|c rest3]; [simpl; now rewrite H1, H2|]. simpl in Hlen.
    destruct (p3 a b c) eqn:H3; [apply IH; lia|].
    simpl. now rewrite H1, H2, H3.
Qed.

Lemma lstrip_by_prefix (p1 : ascii -> bool) (p2 : ascii -> ascii -> bool)
    (p3 : ascii -> ascii -> ascii -> bool) (n : nat) :
  forall s, String.length s <= n ->
            exists l, s = l ++ Py.lstrip_by p1 p2 p3 s
                      /\ run_of (accepted p1 p2 p3) l.
Proof.
  induction n as [|n IH]; intros s Hlen.
  - destruct s; [|simpl in Hlen; lia]. exists "". split; [reflexivity|constructor].
  - assert (Hstay : exists l, s = l ++ s /\ run_of (accepted p1 p2 p3) l)
      by (exists ""; split; [reflexivity|constructor]).
    destruct s as [|a rest]; [exact Hstay|]. simpl in Hlen |- *.
    destruct (p1 a) eqn:H1.
    { destruct (IH rest) as (l & Hl & Hrun); [lia|].
      exists (String a "" ++ l). split; [simpl; now rewrite <- Hl|].
      constructor; [left; eauto|exact Hrun]. }
    destruct rest as [|b rest2]; [exact Hstay|]. simpl in Hlen.
    destruct (p2 a b) eqn:H2.
    { destruct (IH rest2) as (l & Hl & Hrun); [lia|].
      exists (String a (String b "") ++ l). split; [simpl; now rewrite <- Hl|].
      constructor; [right; left; eauto|exact Hrun]. }
    destruct rest2 as [|c rest3]; [exact Hstay|]. simpl in Hlen.
    destruct (p3 a b c) eqn:H3; [|exact Hstay].
    destruct (IH rest3) as (l & Hl & Hrun); [lia|].
    exists (String a (String b (String c "")) ++ l).
    split; [simpl; now rewrite <- Hl|].
    constructor; [right; right; eauto 6|exact Hrun].
Qed.

Lemma starts_accepted_app (p1 : ascii -> bool) (p2 : ascii -> ascii -> bool)
    (p3 : ascii -> ascii -> ascii -> bool) (w rest : string) :
  accepted p1 p2 p3 w -> starts_accepted p1 p2 p3 (w ++ rest) = true.
Proof.
  intros [(a & -> & H)|[(a & b & -> & H)|(a & b & c & -> & H)]]; simpl;
    rewrite H, ?orb_true_r; reflexivity.
Qed.

Lemma list_ascii_of_string_append (a b : string) :
  list_ascii_of_string (a ++ b)
  = List.app (list_ascii_of_string a) (list_ascii_of_string b).
Proof. induction a as [|c a IH]; simpl; [reflexivity|now rewrite IH]. Qed.

Lemma string_of_list_ascii_append (l l' : list ascii) :
  string_of_list_ascii (List.app l l')
  = string_of_list_ascii l ++ string_of_list_ascii l'.
Proof. induction l as [|c l IH]; simpl; [reflexivity|now rewrite IH]. Qed.

Lemma reverse_append (a b : string) :
  Py.reverse (a ++ b) = Py.reverse b ++ Py.reverse a.
Proof.
  unfold Py.reverse.
  now rewrite list_ascii_of_string_append, rev_app_distr,
    string_of_list_ascii_append.
Qed.

Lemma reverse_involutive (s : string) : Py.reverse (Py.reverse s) = s.
Proof.
  unfold Py.reverse.
  now rewrite list_ascii_of_string_of_list_ascii, rev_involutive,
    string_of_list_ascii_of_string.
Qed.

Lemma accepted_reverse (p1 : ascii -> bool) (p2 : ascii -> ascii -> bool)
    (p3 : ascii -> ascii -> ascii -> bool) (w : string) :
  accepted p1 (fun a b => p2 b a) (fun a b c => p3 c b a) w ->
  accepted p1 p2 p3 (Py.reverse w).
Proof.
  intros [(a & -> & H)|[(a & b & -> & H)|(a & b & c & -> & H)]].
  - left. exists a. split; [reflexivity|exact H].
  - right. left. exists b, a. split; [reflexivity|exact H].
  - right. right. exists c, b, a. split; [reflexivity|exact H].
Qed.

Lemma accepted_reverse_inv (p1 : ascii -> bool) (p2 : ascii -> ascii -> bool)
    (p3 : ascii -> ascii -> ascii -> bool) (w : string) :
  accepted p1 p2 p3 w ->
  accepted p1 (fun a b => p2 b a) (fun a b c => p3 c b a) (Py.reverse w).
Proof.
  intros [(a & -> & H)|[(a & b & -> & H)|(a & b & c & -> & H)]].
  - left. exists a. split; [reflexivity|exact H].
  - right. left. exists b, a. split; [reflexivity|exact H].
  - right. right. exists c, b, a. split; [reflexivity|exact H].
Qed.

Lemma run_of_append (P : string -> Prop) (a b : string) :
  run_of P a -> run_of P b -> run_of P (a ++ b).
Proof.
  induction 1 as [|w s Hw _ IH]; intros Hb; [exact Hb|].
  rewrite append_assoc. constructor; auto.
Qed.

Lemma run_of_weaken (P Q : string -> Prop) (s : string) :
  (forall w, P w -> Q w) -> run_of P s -> run_of Q s.
Proof. intros HPQ. induction 1; constructor; auto. Qed.

Lemma append_empty_r (s : string) : s ++ "" = s.
Proof. induction s as [|c s IH]; simpl; [reflexivity|now rewrite IH]. Qed.

Lemma run_of_reverse (p1 : ascii -> bool) (p2 : ascii -> ascii -> bool)
    (p3 : ascii -> ascii -> ascii -> bool) (s : string) :
  run_of (accepted p1 (fun a b => p2 b a) (fun a b c => p3 c b a)) s ->
  run_of (accepted p1 p2 p3) (Py.reverse s).
Proof.
  induction 1 as [|w s Hw _ IH]; [constructor|].
  rewrite reverse_append. apply run_of_append; [exact IH|].
  rewrite <- (append_empty_r (Py.reverse w)).
  constructor; [now apply accepted_reverse|constructor].
Qed.

Lemma nat_of_ascii_eq (a : ascii) (n : nat) :
  (nat_of_ascii a =? n)%nat = true -> a = ascii_of_nat n.
Proof.
  intros H. apply Nat.eqb_eq in H. rewrite <- H. symmetry.
  apply ascii_nat_embedding.
Qed.

Lemma nat_of_ascii_range (a : ascii) (lo hi : nat) :
  (lo <=? nat_of_ascii a)%nat && (nat_of_ascii a <=? hi)%nat = true ->
  exists n, lo <= n <= hi /\ a = ascii_of_nat n.
Proof.
  intros H. apply andb_true_iff in H as [Hlo Hhi].
  apply Nat.leb_le in Hlo, Hhi. exists (nat_of_ascii a).
  split; [lia|]. symmetry. apply ascii_nat_embedding.
Qed.

Ltac in_white_space := unfold is_white_space; vm_compute; tauto.

(** The tests of [strip] accept the white-space characters and nothing
    else. *)
Lemma accepted_white_space (w : string) :
  accepted Py.isspace Py.isspace2 Py.isspace3 w <-> is_white_space w.
Proof.
  split.
  - intros [(a & -> & H)|[(a & b & -> & H)|(a & b & c & -> & H)]].
    + unfold Py.isspace in H. apply orb_true_iff in H as [H|H];
        apply nat_of_ascii_range in H as (n & Hn & ->).
      * assert (Hc : n = 9 \/ n = 10 \/ n = 11 \/ n = 12 \/ n = 13) by lia.
        destruct Hc as [->|[->|[->|[->| ->]]]]; in_white_space.
      * assert (Hc : n = 28 \/ n = 29 \/ n = 30 \/ n = 31 \/ n = 32) by lia.
        destruct Hc as [->|[->|[->|[->| ->]]]]; in_white_space.
    + unfold Py.isspace2 in H. apply andb_true_iff in H as [Ha Hb].
      apply nat_of_ascii_eq in Ha as ->.
      apply orb_true_iff in Hb as [Hb|Hb]; apply nat_of_ascii_eq in Hb as ->;
        in_white_space.
    + unfold Py.isspace3 in H.
      repeat match type of H with
             | (_ || _)%bool = true => apply orb_true_iff in H as [H|H]
             end;
        repeat match type of H with
               | (_ && _)%bool = true =>
                   let H' := fresh "H" in apply andb_true_iff in H as [H H']
               end;
        repeat match goal with
               | E : (nat_of_ascii _ =? _)%nat = true |- _ =>
                   apply nat_of_ascii_eq in E; subst
               | E : (_ || _)%bool = true |- _ =>
                   apply orb_true_iff in E as [E|E]
               end;
        try in_white_space.
      match goal with
      | E : (_ <=? _)%nat && _ = true |- _ =>
          apply nat_of_ascii_range in E as (n & Hn & ->)
      end.
      assert (Hc : n = 128 \/ n = 129 \/ n = 130 \/ n = 131 \/ n = 132
                   \/ n = 133 \/ n = 134 \/ n = 135 \/ n = 136 \/ n = 137
                   \/ n = 138) by lia.
      repeat destruct Hc as [->|Hc]; try subst n; in_white_space.
  - unfold is_white_space, white_space. simpl map. intros H.
    repeat destruct H as [<-|H];
      try contradiction;
      first [ left; eexists; split; [reflexivity|reflexivity]
            | right; left; do 2 eexists; split; [reflexivity|reflexivity]
            | right; right; do 3 eexists; split; [reflexivity|reflexivity] ].
Qed.

(** [strip] removes the white space at both ends, and nothing else. *)
Lemma strip_stripped_both_ends (raw : string) :
  stripped_both_ends raw (Py.strip raw).
Proof.
  unfold Py.strip, Py.rstrip, Py.lstrip.
  set (q2 := fun a b => Py.isspace2 b a).
  set (q3 := fun a b c => Py.isspace3 c b a).
  destruct (lstrip_by_prefix Py.isspace Py.isspace2 Py.isspace3
              (String.length raw) raw (le_n _)) as (l & Hl & Hrunl).
  pose proof (lstrip_by_stops Py.isspace Py.isspace2 Py.isspace3
                (String.length raw) raw (le_n _)) as Hstopl.
  set (t := Py.lstrip_by Py.isspace Py.isspace2 Py.isspace3 raw) in *.
  destruct (lstrip_by_prefix Py.isspace q2 q3
              (String.length (Py.reverse t)) (Py.reverse t) (le_n _))
    as (r' & Hr & Hrunr).
  pose proof (lstrip_by_stops Py.isspace q2 q3
                (String.length (Py.reverse t)) (Py.reverse t) (le_n _)) as Hstopr.
  set (u := Py.lstrip_by Py.isspace q2 q3 (Py.reverse t)) in *.
  assert (Ht : t = Py.reverse u ++ Py.reverse r').
  { rewrite <- (reverse_involutive t), Hr. apply reverse_append. }
  exists l, (Py.reverse r'). split; [|split; [|split; [|split]]].
  - rewrite <- Ht. exact Hl.
  - apply run_of_weaken with (2 := Hrunl). apply accepted_white_space.
  - apply run_of_weaken with (P := accepted Py.isspace Py.isspace2 Py.isspace3).
    + apply accepted_white_space.
    + now apply run_of_reverse.
  - intros (w & rest & Hw & Heq).
    apply accepted_white_space in Hw.
    assert (Hstart : starts_accepted Py.isspace Py.isspace2 Py.isspace3 t = true).
    { rewrite Ht, Heq, append_assoc. now apply starts_accepted_app. }
    congruence.
  - intros (front & w & Hw & Heq).
    apply accepted_white_space in Hw.
    assert (Hu : u = Py.reverse w ++ Py.reverse front).
    { rewrite <- (reverse_involutive u), Heq. apply reverse_append. }
    assert (Hstart : starts_accepted Py.isspace q2 q3 u = true).
    { rewrite Hu. apply starts_accepted_app. now apply accepted_reverse_inv. }
    congruence.
Qed.

(** ** Templates given piece by piece *)

Lemma format_from_escape (kw : kwargs) (text rest : string) :
  format_from kw Text (escape text ++ rest)
  = prefix text (format_from kw Text rest).
Proof.
  induction text as [|c text IH]; simpl.
  - now destruct (format_from kw Text rest).
  - destruct (Ascii.eqb_spec c "{") as [->|Hopen];
      [simpl; rewrite IH, prefix_prefix; reflexivity|].
    destruct (Ascii.eqb_spec c "}") as [->|Hclose];
      [simpl; rewrite IH, prefix_prefix; reflexivity|].
    simpl. apply Ascii.eqb_neq in Hopen, Hclose. rewrite Hopen, Hclose.
    rewrite IH, prefix_prefix. reflexivity.
Qed.

Lemma identifier_char_no_brace (c : ascii) :
  is_letter c || is_digit c = true ->
  Ascii.eqb c "{" = false /\ Ascii.eqb c "}" = false.
Proof.
  destruct c as [[] [] [] [] [] [] [] []]; vm_compute; intros H;
    try discriminate; auto.
Qed.

Lemma format_from_field (kw : kwargs) (rest : string) (name acc : string) :
  forallb (fun c => is_letter c || is_digit c) (list_ascii_of_string name) = true ->
  format_from kw (Field acc) (name ++ "}" ++ rest)
  = obind (get_value (acc ++ name) kw)
          (fun v => prefix v (format_from kw Text rest)).
Proof.
  revert acc. induction name as [|c name IH]; intros acc Hname; simpl.
  - now rewrite append_empty_r.
  - simpl in Hname. apply andb_true_iff in Hname as [Hc Hname].
    destruct (identifier_char_no_brace c Hc) as [-> ->].
    rewrite (IH _ Hname), append_assoc. reflexivity.
Qed.

Lemma format_from_reference (kw : kwargs) (name rest : string) :
  is_identifier name = true ->
  format_from kw Text ("{" ++ name ++ "}" ++ rest)
  = obind (match kw_lookup name kw with
           | Some v => Return v
           | None => Raise (KeyError name)
           end)
          (fun v => prefix v (format_from kw Text rest)).
Proof.
  destruct name as [|c name]; [discriminate|]. simpl is_identifier.
  intros H. apply andb_true_iff in H as [Hc Hname].
  assert (Hc' : is_letter c || is_digit c = true) by (rewrite Hc; reflexivity).
  destruct (identifier_char_no_brace c Hc') as [Hopen Hclose].
  assert (Hdigits : all_digits (String c name) = false).
  { unfold all_digits. simpl.
    destruct c as [[] [] [] [] [] [] [] []]; vm_compute in Hc; try discriminate;
      reflexivity. }
  transitivity (format_from kw (Field (String c "")) (name ++ "}" ++ rest)).
  - change ("{" ++ String c name ++ "}" ++ rest)
      with (String "{" (String c (name ++ "}" ++ rest))).
    cbn [format_from]. change (Ascii.eqb "{" "{") with true. cbv iota.
    rewrite Hopen, Hclose. reflexivity.
  - rewrite (format_from_field kw rest name (String c "") Hname).
    change (String c "" ++ name) with (String c name).
    unfold get_value. now rewrite Hdigits.
Qed.

(** A template that refers to [table_name] and [primary_key] only formats,
    and gives the template with its references replaced. *)
Lemma py_format_known (table_name : string) (primary_key : option string)
    (pieces : list piece) (rest : string) :
  known pieces = true ->
  format_from (create_kwargs table_name primary_key) Text
    (template_text pieces ++ rest)
  = prefix (substituted table_name primary_key pieces)
      (format_from (create_kwargs table_name primary_key) Text rest).
Proof.
  induction pieces as [|[text|name] pieces IH]; intros Hknown.
  - simpl. now destruct (format_from _ Text rest).
  - simpl template_text. rewrite append_assoc, format_from_escape.
    rewrite (IH Hknown), prefix_prefix. reflexivity.
  - simpl in Hknown. apply andb_true_iff in Hknown as [Hname Hknown].
    simpl template_text. simpl substituted.
    change ("{" ++ name ++ "}" ++ template_text pieces)
      with (String "{" (name ++ String "}" (template_text pieces))).
    change (String "{" (name ++ String "}" (template_text pieces)) ++ rest)
      with (String "{" ((name ++ String "}" (template_text pieces)) ++ rest)).
    rewrite append_assoc.
    change (String "{" (name ++ String "}" (template_text pieces) ++ rest))
      with ("{" ++ name ++ "}" ++ (template_text pieces ++ rest)).
    apply orb_true_iff in Hname as [Hname|Hname]; apply String.eqb_eq in Hname;
      subst name.
    + rewrite format_from_reference by reflexivity. simpl.
      rewrite (IH Hknown), prefix_prefix. reflexivity.
    + rewrite format_from_reference by reflexivity. simpl.
      rewrite (IH Hknown), prefix_prefix.
      destruct primary_key; reflexivity.
Qed.

Lemma py_format_known_template (table_name : string)
    (primary_key : option string) (pieces : list piece) :
  known pieces = true ->
  py_format (template_text pieces) (create_kwargs table_name primary_key)
  = Return (substituted table_name primary_key pieces).
Proof.
  intros Hknown. unfold py_format.
  rewrite <- (append_empty_r (template_text pieces)).
  rewrite (py_format_known table_name primary_key pieces "" Hknown).
  simpl. now rewrite append_empty_r.
Qed.

(** A reference to another name makes [format] raise [KeyError] with that
    name, whatever follows it. *)
Lemma py_format_unknown_reference (table_name : string)
    (primary_key : option string) (before : list piece) (k rest : string) :
  known before = true ->
  is_identifier k = true ->
  k <> "table_name" -> k <> "primary_key" ->
  py_format (template_text before ++ "{" ++ k ++ "}" ++ rest)
    (create_kwargs table_name primary_key)
  = Raise (KeyError k).
Proof.
  intros Hknown Hk Ht Hp. unfold py_format.
  rewrite (py_format_known table_name primary_key before _ Hknown).
  rewrite (format_from_reference _ k rest Hk).
  rewrite (kw_lookup_create_absent table_name primary_key k Ht Hp).
  reflexivity.
Qed.


(** ** compose_create: the statement *)

Lemma kept_keep_true (f : FieldMap) : kept f = keep_true f.
Proof. unfold kept, keep_true. now destruct (keep f) as [[]|]. Qed.

Lemma effective_column_or_source (f : FieldMap) :
  effective_column f = column_or_source f.
Proof.
  unfold effective_column, column_or_source.
  now destruct (column_name f) as [[|c name]|].
Qed.

Lemma fdesc_entry_stripped (f : FieldMap) :
  stripped_both_ends (raw_entry f) (fdesc_entry f).
Proof.
  unfold fdesc_entry. rewrite effective_column_or_source.
  replace (Py.str_of_opt (data_type f))
    with (match data_type f with Some ty => ty | None => "None" end)
    by now destruct (data_type f).
  apply strip_stripped_both_ends.
Qed.

Lemma format_extra_first_failure (kw : kwargs) (formatted : list string)
    (failing : string) (later : list string) (e : exn) :
  Forall (fun x => exists s, py_format x kw = Return s) formatted ->
  py_format failing kw = Raise e ->
  forall clauses,
    format_extra kw (List.app formatted (failing :: later)) clauses
    = inl (failing, e).
Proof.
  intros Hdone Hfail. induction Hdone as [|x l [s Hx] _ IH]; intros clauses; simpl.
  - now rewrite Hfail.
  - rewrite Hx. apply IH.
Qed.

Lemma compose_create_first_failure
    (table_name : string) (fields : list FieldMap) (primary_key : option string)
    (formatted : list string) (failing : string) (later : list string)
    (e : exn) (tr : trace) :
  Forall (fun x => exists s,
            py_format x (create_kwargs table_name primary_key) = Return s)
         formatted ->
  py_format failing (create_kwargs table_name primary_key) = Raise e ->
  compose_create table_name fields primary_key
    (Some (List.app formatted (failing :: later))) tr
  = (Raise e,
     List.app tr [Stdout (printed_template failing table_name primary_key)]).
Proof.
  intros Hdone Hfail. unfold compose_create, bind, ret.
  destruct (List.app formatted (failing :: later)) as [|x extra] eqn:Hextra;
    [now destruct formatted|].
  rewrite <- Hextra.
  rewrite (format_extra_first_failure _ formatted failing later e Hdone Hfail).
  unfold print, emit, raise, bind, printed_template, Py.join.
  now destruct primary_key.
Qed.

(** C6, amended.  For every table name, field list and primary key,
    [compose_create] builds a [CREATE TABLE IF NOT EXISTS] statement whose
    column list has one entry per keep-true field, in declaration order, each
    entry being [column_name type default] (the column name falling back to
    the source name when it is absent or empty, the default clause present
    only when given) with the white space at both ends of the entry removed;
    the statement holds a [PRIMARY KEY(...)] clause if and only if
    [primary_key] is a non-empty string.  Post-create templates written as
    literal text with references [{name}] to identifiers follow the
    statement, one per line, with [{table_name}] replaced by the table name
    and [{primary_key}] by the primary key, or by the text [None] when it is
    absent.  When a template refers to another identifier, whatever follows
    that reference, [compose_create] prints that template and raises
    [KeyError] with the first such name of the first such template, and
    returns no SQL. *)
Theorem compose_create_statement
    (table_name : string) (fields : list FieldMap) (primary_key : option string)
    (tr : trace) :
  exists entries,
    Forall2 (fun f entry => stripped_both_ends (raw_entry f) entry)
            (filter keep_true fields) entries
    /\ let head :=
         "CREATE TABLE IF NOT EXISTS " ++ table_name ++ " (" ++ line_break
         ++ String.concat ("," ++ line_break) entries in
       let statement :=
         match primary_key with
         | Some (String c p) =>
             [head; ", PRIMARY KEY(" ++ String c p ++ ")"; ");"]
         | _ => [head; ");"]
         end in
       compose_create table_name fields primary_key None tr
       = (Return (String.concat line_break statement), tr)
       /\ (forall templates,
             forallb known templates = true ->
             compose_create table_name fields primary_key
               (Some (map template_text templates)) tr
             = (Return
                  (String.concat line_break
                     (List.app statement
                        (map (substituted table_name primary_key) templates))),
                tr))
       /\ (forall formatted before k tail later,
             forallb known formatted = true ->
             known before = true ->
             is_identifier k = true ->
             k <> "table_name" -> k <> "primary_key" ->
             let failing := template_text before ++ "{" ++ k ++ "}" ++ tail in
             compose_create table_name fields primary_key
               (Some (List.app (map template_text formatted) (failing :: later)))
               tr
             = (Raise (KeyError k),
                List.app tr
                  [Stdout (printed_template failing table_name primary_key)])).
Proof.
  exists (map fdesc_entry (filter kept fields)). split.
  - rewrite (filter_ext kept keep_true kept_keep_true).
    induction (filter keep_true fields) as [|f l IH]; simpl; constructor;
      [apply fdesc_entry_stripped|exact IH].
  - assert (Hformats : forall templates,
              forallb known templates = true ->
              Forall2 (fun x s =>
                         py_format x (create_kwargs table_name primary_key)
                         = Return s)
                      (map template_text templates)
                      (map (substituted table_name primary_key) templates)).
    { induction templates as [|t l IH]; simpl; intros H; constructor.
      - apply andb_true_iff in H as [Ht _]. now apply py_format_known_template.
      - apply andb_true_iff in H as [_ Hl]. now apply IH. }
    cbv zeta. split; [|split].
    + rewrite (compose_create_ok table_name fields primary_key None [] tr)
        by constructor.
      unfold Py.join. now destruct primary_key as [[|c p]|].
    + intros templates Hknown.
      rewrite (compose_create_ok table_name fields primary_key
                 (Some (map template_text templates))
                 (map (substituted table_name primary_key) templates) tr)
        by (apply Hformats; exact Hknown).
      unfold Py.join. now destruct primary_key as [[|c p]|].
    + intros formatted before k tail later Hformatted Hbefore Hk Ht Hp.
      apply compose_create_first_failure.
      * apply Hformats in Hformatted.
        induction Hformatted as [|x s l l' Hx _ IH]; constructor; eauto.
      * now apply py_format_unknown_reference.
Qed.




(** ** do_calculate: the fail-soft boundary *)

(** [do_calculate] itself never raises. *)
Lemma do_calculate_returns (spec : TableSpec) (ts : DataFrame) (tr : trace) :
  exists r tr', do_calculate spec ts tr = (Return r, tr').
Proof.
  unfold do_calculate, try_except, bind, ret.
  destruct (calculate spec) as [calc|]; [|eauto].
  destruct (calc (spec_data spec) ts tr) as [[df|e] tr']; [eauto|].
  unfold log_exception, emit. eauto.
Qed.

(** C7.  When the derivation of a table specification raises an error on a
    raw dataset, [do_calculate] catches it, logs it under the table's name
    and returns [None] (no rows) instead of raising; and in both sinks the
    loop over the registry then goes on with the remaining tables. *)
Theorem do_calculate_fail_soft
    (spec : TableSpec) (ts : DataFrame)
    (calc : TableSpecData -> DataFrame -> M DataFrame)
    (e : exn) (tr tr' : trace) :
  calculate spec = Some calc ->
  calc (spec_data spec) ts tr = (Raise e, tr') ->
  let logged :=
    List.app tr' [LogException "calculation exception: %s"
                    [table_name (spec_data spec)] e] in
  do_calculate spec ts tr = (Return None, logged)
  /\ (forall client topic_template rest,
        mqtt_loop ts client topic_template (spec :: rest) tr
        = mqtt_loop ts client topic_template rest
            (List.app logged
               [Log INFO "mqtt table: %s is empty" [table_name (spec_data spec)]]))
  /\ (forall conn rest ins_sql,
        write_loop ts conn (spec :: rest) ins_sql tr
        = write_loop ts conn rest ins_sql
            (List.app logged
               [Log INFO "table: %s is empty" [table_name (spec_data spec)]])).
Proof.
  intros Hcalc Hraise logged.
  assert (Hdo : do_calculate spec ts tr = (Return None, logged)).
  { unfold do_calculate, try_except, bind, ret. rewrite Hcalc, Hraise.
    reflexivity. }
  split; [exact Hdo|]. split.
  - intros client topic_template rest. simpl. unfold bind at 1. rewrite Hdo.
    reflexivity.
  - intros conn rest ins_sql. simpl. unfold bind at 1, try_except, write_table.
    unfold bind at 1. rewrite Hdo. reflexivity.
Qed.

Lemma do_calculate_fail_soft_witness :
  let failing : TableSpecData -> DataFrame -> M DataFrame :=
    fun _ _ => raise (KeyError "periodType") in
  let spec := {| spec_data := {| field_map := [FieldMap_ "region" (Some "VARCHAR")];
                                 table_name := "amber_actual_5min";
                                 primary_key := Some "event_time";
                                 extra_sql := None |};
                 calculate := Some failing |} in
  let ts := {| columns := ["region"]; rows := [(0%Z, [VStr "VIC"])] |} in
  let logged :=
    [LogException "calculation exception: %s" ["amber_actual_5min"]
       (KeyError "periodType")] in
  do_calculate spec ts [] = (Return None, logged)
  /\ (forall client topic_template rest,
        mqtt_loop ts client topic_template (spec :: rest) []
        = mqtt_loop ts client topic_template rest
            (List.app logged
               [Log INFO "mqtt table: %s is empty" ["amber_actual_5min"]]))
  /\ (forall conn rest ins_sql,
        write_loop ts conn (spec :: rest) ins_sql []
        = write_loop ts conn rest ins_sql
            (List.app logged
               [Log INFO "table: %s is empty" ["amber_actual_5min"]])).
Proof.
  intros failing spec ts logged.
  exact (@do_calculate_fail_soft spec ts failing (KeyError "periodType") [] []
           eq_refl eq_refl).
Defined.

(** ** calculate_actual_30min *)

Lemma getattr_column_cell_at (df : DataFrame) (name : string) (i : nat) :
  index_of name (columns df) = Some i ->
  getattr_column df name
  = Return (map (fun r => cell_at df name (snd r)) (rows df)).
Proof.
  intros Hi. unfold getattr_column, cell_at. now rewrite Hi.
Qed.

Lemma cell_at_absent (df : DataFrame) (name : string) (row : list cell) :
  index_of name (columns df) = None -> cell_at df name row = NA.
Proof. intros Hi. unfold cell_at. now rewrite Hi. Qed.

Lemma select_rows_mask_and (f g : Z * list cell -> bool) (rs : list (Z * list cell)) :
  select_rows (mask_and (map f rs) (map g rs)) rs
  = filter (fun r => f r && g r) rs.
Proof.
  induction rs as [|r rs IH]; [reflexivity|].
  simpl. rewrite IH. reflexivity.
Qed.

Lemma last_map {A B} (f : A -> B) (l : list A) (d : A) :
  last (map f l) (f d) = f (last l d).
Proof.
  revert d. induction l as [|x l IH]; intros d; [reflexivity|].
  destruct l as [|y l]; [reflexivity|].
  change (last (map f (y :: l)) (f d) = f (last (y :: l) d)). apply IH.
Qed.

(** C8.  When the raw dataset holds at least one row that satisfies the
    ACTUAL 30-minute predicate, [calculate_actual_30min] returns a frame of
    exactly one row: the last matching row in input order, cut down to the
    dataset's columns that are among the kept column names of the spec. *)
Theorem calculate_actual_30min_last_match
    (spec : TableSpecData) (df : DataFrame) (tr : trace)
    (first_match : Z * list cell) (more_matches : list (Z * list cell)) :
  filter (is_actual_30min df) (rows df) = first_match :: more_matches ->
  let cols := intersection (columns df) (get_column_names (field_map spec)) in
  let result :=
    {| columns := cols;
       rows := [project df cols (last more_matches first_match)] |} in
  calculate_actual_30min spec df tr = (Return result, tr)
  /\ len result = 1.
Proof.
  intros Hmatch cols result. split; [|reflexivity].
  assert (Hrow : exists r, is_actual_30min df r = true).
  { exists first_match.
    assert (Hin : In first_match (filter (is_actual_30min df) (rows df)))
      by (rewrite Hmatch; now left).
    apply filter_In in Hin. tauto. }
  destruct Hrow as (r & Hr). unfold is_actual_30min in Hr.
  apply andb_true_iff in Hr as [Htype Hsource].
  destruct (index_of "periodType" (columns df)) as [i|] eqn:Hi;
    [|rewrite (cell_at_absent df _ (snd r) Hi) in Htype; discriminate].
  destruct (index_of "periodSource" (columns df)) as [j|] eqn:Hj;
    [|rewrite (cell_at_absent df _ (snd r) Hj) in Hsource; discriminate].
  unfold calculate_actual_30min, bind, lift.
  rewrite (getattr_column_cell_at df _ i Hi), (getattr_column_cell_at df _ j Hj).
  rewrite !map_map. unfold iloc_last, loc. simpl rows. simpl columns.
  rewrite (select_rows_mask_and
             (fun r => eq_str "ACTUAL" (cell_at df "periodType" (snd r)))
             (fun r => eq_str "30MIN" (cell_at df "periodSource" (snd r)))).
  change (filter _ (rows df)) with (filter (is_actual_30min df) (rows df)).
  rewrite Hmatch. unfold spec_get_column_names. fold cols. unfold result.
  do 3 f_equal.
  change (project df cols first_match :: map (project df cols) more_matches)
    with (map (project df cols) (first_match :: more_matches)).
  simpl map at 1.
  rewrite <- (last_map (project df cols) more_matches first_match).
  reflexivity.
Qed.

Lemma calculate_actual_30min_last_match_witness :
  calculate_actual_30min (spec_data actual_30min_spec) sample_timeseries []
  = (Return {| columns := ["period"; "region"];
               rows := [(2%Z, [VTime 3000; VStr "VIC"])] |}, [])
  /\ len {| columns := ["period"; "region"];
            rows := [(2%Z, [VTime 3000; VStr "VIC"])] |} = 1.
Proof.
  exact (calculate_actual_30min_last_match (spec_data actual_30min_spec)
           sample_timeseries []
           (0%Z, [VStr "ACTUAL"; VStr "30MIN"; VTime 1000; VFloat 11; VStr "VIC"])
           [(2%Z, [VStr "ACTUAL"; VStr "30MIN"; VTime 3000; VFloat 13; VStr "VIC"])]
           eq_refl).
Defined.

(** ** Columns of a frame *)

Lemma index_of_nth_error (c : string) (cols : list string) (i : nat) :
  index_of c cols = Some i -> nth_error cols i = Some c.
Proof.
  revert i. induction cols as [|x cols IH]; intros i H; [discriminate|].
  simpl in H. destruct (String.eqb_spec x c) as [->|Hne].
  - now injection H as <-.
  - destruct (index_of c cols) as [j|]; [|discriminate].
    injection H as <-. simpl. now apply IH.
Qed.

Lemma index_of_lt (c : string) (cols : list string) (i : nat) :
  index_of c cols = Some i -> i < length cols.
Proof.
  intros H. apply nth_error_Some. rewrite (index_of_nth_error c cols i H). discriminate.
Qed.

Lemma index_of_app_l (c : string) (cols more : list string) (i : nat) :
  index_of c cols = Some i -> index_of c (List.app cols more) = Some i.
Proof.
  revert i. induction cols as [|x cols IH]; intros i H; [discriminate|].
  simpl in *. destruct (x =? c); [exact H|].
  destruct (index_of c cols) as [j|]; [|discriminate].
  now rewrite (IH j eq_refl).
Qed.

Lemma index_of_app_new (c : string) (cols : list string) :
  index_of c cols = None -> index_of c (List.app cols [c]) = Some (length cols).
Proof.
  induction cols as [|x cols IH]; intros H; simpl.
  - now rewrite String.eqb_refl.
  - simpl in H. destruct (x =? c); [discriminate|].
    destruct (index_of c cols); [discriminate|]. now rewrite IH.
Qed.

Lemma nth_set_nth_same {A} (i : nat) (x d : A) (l : list A) :
  i < length l -> nth i (set_nth i x l) d = x.
Proof.
  revert i. induction l as [|y l IH]; intros [|i] H; simpl in *; try lia; auto.
  apply IH. lia.
Qed.

Lemma nth_set_nth_other {A} (i j : nat) (x d : A) (l : list A) :
  i <> j -> nth j (set_nth i x l) d = nth j l d.
Proof.
  revert i j. induction l as [|y l IH]; intros [|i] [|j] H; simpl; auto; try lia.
Qed.

Lemma length_set_nth {A} (i : nat) (x : A) (l : list A) :
  length (set_nth i x l) = length l.
Proof.
  revert i. induction l as [|y l IH]; intros [|i]; simpl; auto.
Qed.

Lemma rectangular_loc (df : DataFrame) (mask : list bool) (cols : list string) :
  rectangular (loc df mask cols).
Proof.
  unfold rectangular, loc. simpl. apply Forall_forall. intros r Hr.
  apply in_map_iff in Hr as (r0 & <- & _). unfold project. simpl.
  now rewrite length_map.
Qed.

Lemma select_rows_map (f : Z * list cell -> bool) (rs : list (Z * list cell)) :
  select_rows (map f rs) rs = filter f rs.
Proof.
  induction rs as [|r rs IH]; [reflexivity|]. simpl. now rewrite IH.
Qed.

Lemma cell_at_project (df : DataFrame) (cols : list string) (c : string)
    (r : Z * list cell) (i : nat) :
  index_of c cols = Some i ->
  nth i (snd (project df cols r)) NA = cell_at df c (snd r).
Proof.
  intros Hi. unfold project. simpl.
  pose proof (index_of_nth_error c cols i Hi) as Hn.
  revert i Hi Hn. induction cols as [|x cols IH]; intros [|i] Hi Hn; simpl in *; try discriminate.
  - now injection Hn as ->.
  - destruct (x =? c); [discriminate|].
    destruct (index_of c cols) as [j|] eqn:E; [|discriminate].
    injection Hi as ->. now apply IH.
Qed.

Lemma getattr_column_loc (df : DataFrame) (mask : list bool) (cols : list string)
    (c : string) (i : nat) :
  index_of c cols = Some i ->
  getattr_column (loc df mask cols) c
  = Return (map (fun r => cell_at df c (snd r)) (select_rows mask (rows df))).
Proof.
  intros Hi. unfold getattr_column. simpl. rewrite Hi. f_equal.
  rewrite map_map. apply map_ext. intros r. now apply cell_at_project.
Qed.

Lemma getattr_column_set_same (df : DataFrame) (c : string) (vals : list cell) :
  rectangular df -> length vals = length (rows df) ->
  getattr_column (set_column df c vals) c = Return vals.
Proof.
  intros Hrect Hlen. unfold set_column, getattr_column.
  destruct (index_of c (columns df)) as [i|] eqn:Hi; simpl.
  - rewrite Hi. f_equal. rewrite map_map. simpl.
    pose proof (index_of_lt c _ i Hi) as Hlt.
    unfold rectangular in Hrect. revert vals Hlen Hrect.
    induction (rows df) as [|r rs IH]; intros [|v vals] Hlen Hrect; simpl in *; try lia; auto.
    inversion Hrect; subst. rewrite nth_set_nth_same by lia. f_equal. apply IH; auto.
  - rewrite (index_of_app_new c _ Hi). f_equal. rewrite map_map. simpl.
    unfold rectangular in Hrect. revert vals Hlen Hrect.
    induction (rows df) as [|r rs IH]; intros [|v vals] Hlen Hrect; simpl in *; try lia; auto.
    inversion Hrect as [|? ? Hr Hrs]; subst. rewrite app_nth2 by lia.
    rewrite Hr, Nat.sub_diag. simpl. f_equal. apply IH; auto.
Qed.

Lemma rectangular_set_column (df : DataFrame) (c : string) (vals : list cell) :
  rectangular df -> rectangular (set_column df c vals).
Proof.
  unfold rectangular, set_column. intros Hrect.
  destruct (index_of c (columns df)) as [i|]; simpl; apply Forall_forall;
    intros r Hr; apply in_map_iff in Hr as ([r0 v] & <- & Hin);
    apply in_combine_l in Hin; simpl;
    pose proof (proj1 (Forall_forall _ _) Hrect r0 Hin) as Hr0; simpl in Hr0.
  - now rewrite length_set_nth.
  - rewrite !length_app. simpl. lia.
Qed.

Lemma getattr_column_set_other (df : DataFrame) (name c : string) (vals : list cell) :
  rectangular df -> length vals = length (rows df) -> c <> name ->
  getattr_column (set_column df name vals) c = getattr_column df c.
Proof.
  intros Hrect Hlen Hne. unfold set_column, getattr_column.
  destruct (index_of name (columns df)) as [i|] eqn:Hi; simpl.
  - destruct (index_of c (columns df)) as [j|] eqn:Hj; [|reflexivity].
    assert (Hij : i <> j).
    { intros ->. apply index_of_nth_error in Hi, Hj. congruence. }
    f_equal. rewrite map_map. simpl. clear Hrect. revert vals Hlen.
    induction (rows df) as [|r rs IH]; intros [|v vals] Hlen; simpl in *; try lia; auto.
    rewrite nth_set_nth_other by exact Hij. f_equal. apply IH. lia.
  - destruct (index_of c (columns df)) as [j|] eqn:Hj.
    + rewrite (index_of_app_l c _ [name] j Hj). f_equal. rewrite map_map. simpl.
      pose proof (index_of_lt c _ j Hj) as Hlt.
      unfold rectangular in Hrect. revert vals Hlen Hrect.
      induction (rows df) as [|r rs IH]; intros [|v vals] Hlen Hrect; simpl in *; try lia; auto.
      inversion Hrect as [|? ? Hr Hrs]; subst. rewrite app_nth1 by lia.
      f_equal. apply IH; auto.
    + assert (Hnone : index_of c (List.app (columns df) [name]) = None).
      { clear -Hj Hne. induction (columns df) as [|x cols IH]; simpl in *.
        - destruct (String.eqb_spec name c); [congruence|reflexivity].
        - destruct (x =? c); [discriminate|].
          destruct (index_of c cols); [discriminate|]. now rewrite IH. }
      now rewrite Hnone.
Qed.

Lemma series_sub_lead (a b : list cell) :
  forall ds ls,
    series_sub a b = Return ds ->
    map_outcome dt_seconds ds = Return ls ->
    Forall2 (fun pt l => lead_of (fst pt) (snd pt) = Return l) (combine a b) ls.
Proof.
  revert b. induction a as [|x a IH]; intros [|y b] ds ls Hs Hm; simpl in *;
    try (injection Hs as <-; simpl in Hm; injection Hm as <-; constructor).
  destruct (timestamp_sub x y) as [d|e] eqn:Hd; [|discriminate]. simpl in Hs.
  destruct (series_sub a b) as [ds'|e] eqn:Hds; [|discriminate]. simpl in Hs.
  injection Hs as <-. simpl in Hm.
  destruct (dt_seconds d) as [l|e] eqn:Hl; [|discriminate]. simpl in Hm.
  destruct (map_outcome dt_seconds ds') as [ls'|e] eqn:Hls; [|discriminate].
  simpl in Hm. injection Hm as <-. constructor.
  - unfold lead_of. simpl. now rewrite Hd.
  - now apply (IH b ds').
Qed.

Lemma mapM_length {A B} (f : A -> M B) (l : list A) :
  forall tr ys tr', mapM f l tr = (Return ys, tr') -> length ys = length l.
Proof.
  induction l as [|x l IH]; intros tr ys tr' H; simpl in H.
  - injection H as <- _. reflexivity.
  - unfold bind in H. destruct (f x tr) as [[y|e] tr1]; [|discriminate].
    destruct (mapM f l tr1) as [[ys'|e] tr2] eqn:E; [|discriminate].
    injection H as <- _. simpl. f_equal. now apply (IH tr1 ys' tr2).
Qed.

Lemma Forall2_length_eq {A B} (P : A -> B -> Prop) (l : list A) (l' : list B) :
  Forall2 P l l' -> length l = length l'.
Proof. induction 1; simpl; congruence. Qed.

Lemma combine_map_same {A B C} (f : A -> B) (g : A -> C) (l : list A) :
  combine (map f l) (map g l) = map (fun x => (f x, g x)) l.
Proof. induction l as [|x l IH]; simpl; [reflexivity|now rewrite IH]. Qed.

Lemma Forall2_map_l {A B C} (P : B -> C -> Prop) (f : A -> B) (l : list A) (l' : list C) :
  Forall2 P (map f l) l' <-> Forall2 (fun x y => P (f x) y) l l'.
Proof.
  revert l'. induction l as [|x l IH]; intros l'; simpl; split; intros H;
    inversion H; subst; constructor; auto; now apply IH.
Qed.

(** ** calculate_forecast_rolling: the lead time *)

Lemma timedelta_seconds_bounds (ns : Z) :
  (0 <= timedelta_seconds ns < SECONDS_PER_DAY)%Z.
Proof.
  unfold timedelta_seconds, SECONDS_PER_DAY. apply Z.mod_pos_bound. lia.
Qed.

Lemma timedelta_seconds_within_a_day (ns : Z) :
  (0 <= ns < SECONDS_PER_DAY * NS_PER_SECOND)%Z ->
  timedelta_seconds ns = (ns / NS_PER_SECOND)%Z.
Proof.
  unfold timedelta_seconds, SECONDS_PER_DAY, NS_PER_SECOND. intros [H0 H1].
  apply Z.mod_small. split.
  - apply Z.div_pos; lia.
  - apply Z.div_lt_upper_bound; lia.
Qed.

Lemma timedelta_seconds_drops_days (ns days : Z) :
  timedelta_seconds (ns + days * (SECONDS_PER_DAY * NS_PER_SECOND))
  = timedelta_seconds ns.
Proof.
  unfold timedelta_seconds, SECONDS_PER_DAY, NS_PER_SECOND.
  replace (ns + days * (86400 * 1000000000))%Z
    with (ns + (days * 86400) * 1000000000)%Z by lia.
  rewrite Z.div_add by lia. rewrite Z.add_mod by lia.
  rewrite Z.mod_mul by lia. rewrite Z.add_0_r. apply Z.mod_mod. lia.
Qed.

(** Whenever the rolling derivation returns, its [forecast_lead] column
    holds, row by row, the seconds component of period - forecastedAt of the
    FORECAST rows of the raw dataset, in input order. *)
Lemma calculate_forecast_rolling_lead_column
    (py_float : scalar -> outcome Z) (spec : TableSpecData) (df : DataFrame)
    (tr tr' : trace) (out : DataFrame) :
  calculate_forecast_rolling py_float spec df tr = (Return out, tr') ->
  exists leads,
    getattr_column out "forecast_lead" = Return leads
    /\ Forall2 (fun r l =>
                  lead_of (cell_at df "period" (snd r))
                          (cell_at df "forecastedAt" (snd r)) = Return l)
               (filter (is_forecast df) (rows df)) leads.
Proof.
  unfold calculate_forecast_rolling, bind, lift, ret. intros H.
  destruct (index_of "periodType" (columns df)) as [i|] eqn:Hi;
    [|unfold getattr_column in H; rewrite Hi in H; discriminate].
  rewrite (getattr_column_cell_at df _ i Hi) in H. rewrite map_map in H.
  set (cols := intersection (columns df) (spec_get_column_names spec)) in *.
  set (mask := map (fun x => eq_str "FORECAST" (cell_at df "periodType" (snd x))) (rows df)) in *.
  set (of_ := loc df mask cols) in *.
  destruct (index_of "period" cols) as [j|] eqn:Hj;
    [|unfold getattr_column in H; simpl in H; rewrite Hj in H; discriminate].
  destruct (index_of "forecastedAt" cols) as [k|] eqn:Hk;
    [|unfold getattr_column in H at 2; simpl in H; rewrite Hk in H;
      destruct (getattr_column of_ "period"); discriminate].
  unfold of_ in H at 1 2.
  rewrite (getattr_column_loc df mask cols _ j Hj) in H.
  rewrite (getattr_column_loc df mask cols _ k Hk) in H.
  unfold mask in H at 1 2. rewrite select_rows_map in H.
  change (fun x => eq_str "FORECAST" (cell_at df "periodType" (snd x))) with (is_forecast df) in H.
  set (sel := filter (is_forecast df) (rows df)) in *.
  destruct (series_sub _ _) as [ds|e] eqn:Hds; [|discriminate].
  destruct (map_outcome dt_seconds ds) as [ls|e] eqn:Hls; [|discriminate].
  pose proof (series_sub_lead _ _ ds ls Hds Hls) as Hlead.
  rewrite combine_map_same in Hlead. apply Forall2_map_l in Hlead. simpl in Hlead.
  assert (Hlen : length ls = length (rows of_)).
  { rewrite <- (Forall2_length_eq _ _ _ Hlead). unfold of_, loc. simpl.
    rewrite length_map. unfold mask. now rewrite select_rows_map. }
  pose proof (rectangular_loc df mask cols) as Hrect. fold of_ in Hrect.
  set (of1 := set_column of_ "forecast_lead" ls) in *.
  assert (Hget : getattr_column of1 "forecast_lead" = Return ls)
    by (apply getattr_column_set_same; assumption).
  exists ls. split; [|exact Hlead].
  unfold coerce_price_range, bind, lift, ret in H.
  destruct (mem "wholesaleKWHPriceRange" (columns of1)).
  - destruct (getattr_column of1 "wholesaleKWHPriceRange") as [col|e] eqn:Hcol;
      [|discriminate].
    destruct (mapM (map_to_array py_float) col tr) as [[vals|e] tr1] eqn:Hmap;
      [|discriminate].
    injection H as <- _.
    rewrite getattr_column_set_other; [exact Hget| | |discriminate].
    + now apply rectangular_set_column.
    + rewrite (mapM_length _ _ _ _ _ Hmap).
      unfold getattr_column in Hcol.
      destruct (index_of "wholesaleKWHPriceRange" (columns of1)); [|discriminate].
      injection Hcol as <-. now rewrite length_map.
  - injection H as <- _. exact Hget.
Qed.

(** C2 fails on the code.  For every FORECAST row the derivation stores the
    [seconds] component of the duration P - T, that is (P - T) in whole
    seconds modulo one day: it is P - T in whole seconds for a lead under one
    day, and whole days are dropped from a longer one.  A forecast made 25
    hours (90000 s) before its period gets [forecast_lead = 3600]. *)
Theorem forecast_lead_drops_whole_days :
  (forall py_float spec df tr tr' out,
     calculate_forecast_rolling py_float spec df tr = (Return out, tr') ->
     exists leads,
       getattr_column out "forecast_lead" = Return leads
       /\ Forall2 (fun r l =>
                     lead_of (cell_at df "period" (snd r))
                             (cell_at df "forecastedAt" (snd r)) = Return l)
                  (filter (is_forecast df) (rows df)) leads)
  /\ (forall P T : Z,
        lead_of (VTime P) (VTime T)
        = Return (VInt (((P - T) / NS_PER_SECOND) mod SECONDS_PER_DAY)))
  /\ (forall P T : Z,
        (T < P)%Z -> (P - T < SECONDS_PER_DAY * NS_PER_SECOND)%Z ->
        lead_of (VTime P) (VTime T) = Return (VInt ((P - T) / NS_PER_SECOND)))
  /\ (forall py_float,
        calculate_forecast_rolling py_float
          (spec_data (forecast_rolling_spec py_float)) day_ahead_timeseries []
        = (Return {| columns := ["period"; "forecastedAt"; "region"; "forecast_lead"];
                     rows := [(0%Z, [VTime forecast_period; VTime forecast_made;
                                     VStr "VIC"; VInt 3600])] |},
           []))
  /\ (forecast_made < forecast_period)%Z
  /\ ((forecast_period - forecast_made) / NS_PER_SECOND = 90000)%Z.
Proof.
  split; [exact calculate_forecast_rolling_lead_column|].
  split; [reflexivity|]. split.
  - intros P T Hlt Hday. unfold lead_of. simpl.
    rewrite timedelta_seconds_within_a_day by lia. reflexivity.
  - split; [reflexivity|]. split; reflexivity.
Qed.

(** ** PostgresConsumer.write: a failing write *)

(** In the branch for several rows only a unique violation is caught: any
    other failure of [executemany] leaves the loop, is logged by the outer
    handler and is raised again by [write]; the remaining tables [rest] are
    never looked at. *)
Lemma write_loop_batch_failure
    (ts : DataFrame) (conn : Connection) (spec : TableSpec)
    (rest : list TableSpec) (ins_sql : option string)
    (df : DataFrame) (e : exn) (tr tr1 : trace) :
  do_calculate spec ts tr = (Return (Some df), tr1) ->
  empty df = false ->
  1 < len df ->
  conn_executemany conn (before_executemany spec df tr1)
    (batch_sql spec df) (batch_args df) = Raise e ->
  is_unique_violation e = false ->
  write_loop ts conn (spec :: rest) ins_sql tr
  = (Raise e,
     List.app (before_executemany spec df tr1)
       [ExecuteMany (batch_sql spec df) (batch_args df);
        LogException "PostgresWriter: failed to write: '%s'" [name_of spec] e]).
Proof.
  intros Hdo Hne Hlen Hexec Huniq.
  apply Nat.ltb_lt in Hlen.
  simpl. unfold bind at 1, try_except, write_table. unfold bind at 1.
  rewrite Hdo, Hne.
  unfold print, log_info, log_debug, log_exception, emit, bind, ret, raise.
  rewrite Hlen. unfold write_batch, executemany, try_except, bind.
  unfold print, log_info, log_debug, log_warning, emit, bind, ret, raise.
  unfold before_executemany, batch_sql, batch_args in Hexec.
  rewrite <- !app_assoc in *. simpl List.app in *.
  rewrite Hexec, Huniq. unfold before_executemany, batch_sql, batch_args.
  rewrite <- !app_assoc. reflexivity.
Qed.

(** In the single-row branch every failure of [execute] is caught and
    logged with the table and the statement, and the loop goes on with the
    remaining tables. *)
Lemma write_loop_single_failure
    (ts : DataFrame) (conn : Connection) (spec : TableSpec)
    (rest : list TableSpec) (ins_sql : option string)
    (df : DataFrame) (data : pydict) (fields : list string)
    (e : exn) (tr tr1 : trace) :
  do_calculate spec ts tr = (Return (Some df), tr1) ->
  empty df = false ->
  len df <= 1 ->
  dropna_squeeze_to_dict df = Return data ->
  str_keys (map fst data) = Return fields ->
  conn_execute conn (before_execute spec df tr1)
    (compose_insert fields (name_of spec) None) (map snd data) = Raise e ->
  is_unique_violation e = false ->
  write_loop ts conn (spec :: rest) ins_sql tr
  = write_loop ts conn rest (Some (compose_insert fields (name_of spec) None))
      (List.app (before_execute spec df tr1)
         [Execute (compose_insert fields (name_of spec) None) (map snd data);
          LogException "postgres failed to write %s: %s with %s"
            [name_of spec; compose_insert fields (name_of spec) None] e;
          Log INFO "PostgresWriter: %s written" [name_of spec]]).
Proof.
  intros Hdo Hne Hlen Hdata Hkeys Hexec Huniq.
  assert (Hltb : (1 <? len df)%nat = false) by (apply Nat.ltb_ge; exact Hlen).
  simpl. unfold bind at 1, try_except, write_table. unfold bind at 1.
  rewrite Hdo, Hne.
  unfold print, log_info, log_debug, log_exception, emit, bind, ret, raise.
  rewrite Hltb. unfold write_single_row. rewrite Hdata, Hkeys.
  unfold execute, try_except, single_row_handler, bind.
  unfold print, log_info, log_debug, log_exception, emit, bind, ret, raise.
  unfold before_execute in Hexec.
  rewrite <- !app_assoc in *. simpl List.app in *.
  rewrite Hexec, Huniq. unfold before_execute.
  rewrite <- !app_assoc. reflexivity.
Qed.

(** C4 holds on the single-row path and fails on the batch path.  In the
    single-row branch a failing [execute] is caught, logged with the table
    and the statement, and the loop goes on with the remaining tables.  In
    the branch for several rows a failing [executemany] that is not a unique
    violation is not caught per table: it is logged once by the outer handler
    and raised by [write], and the remaining tables are never derived or
    written.  So, with the connection lost after the first statement, [write]
    visits all four tables and returns 0 when every table has one row, and
    stops at the second table when that one has two rows. *)
Theorem write_batch_failure_aborts_cycle :
  (forall ts conn spec rest ins_sql df data fields e tr tr1,
     do_calculate spec ts tr = (Return (Some df), tr1) ->
     empty df = false ->
     len df <= 1 ->
     dropna_squeeze_to_dict df = Return data ->
     str_keys (map fst data) = Return fields ->
     conn_execute conn (before_execute spec df tr1)
       (compose_insert fields (name_of spec) None) (map snd data) = Raise e ->
     is_unique_violation e = false ->
     write_loop ts conn (spec :: rest) ins_sql tr
     = write_loop ts conn rest (Some (compose_insert fields (name_of spec) None))
         (List.app (before_execute spec df tr1)
            [Execute (compose_insert fields (name_of spec) None) (map snd data);
             LogException "postgres failed to write %s: %s with %s"
               [name_of spec; compose_insert fields (name_of spec) None] e;
             Log INFO "PostgresWriter: %s written" [name_of spec]]))
  /\ (forall ts conn spec rest ins_sql df e tr tr1,
        do_calculate spec ts tr = (Return (Some df), tr1) ->
        empty df = false ->
        1 < len df ->
        conn_executemany conn (before_executemany spec df tr1)
          (batch_sql spec df) (batch_args df) = Raise e ->
        is_unique_violation e = false ->
        write_loop ts conn (spec :: rest) ins_sql tr
        = (Raise e,
           List.app (before_executemany spec df tr1)
             [ExecuteMany (batch_sql spec df) (batch_args df);
              LogException "PostgresWriter: failed to write: '%s'"
                [name_of spec] e]))
  /\ (forall py_float : scalar -> outcome Z,
        exists tr,
          write (table_specs py_float) cycle_without_5min lost_after_first []
          = (Return 0%Z, tr)
          /\ statements_sent tr
             = ["INSERT INTO amber_actual_30min (event_time, period, region) values ($1, $2, $3)";
                "INSERT INTO amber_forecast (event_time, periodSource, period, forecastedAt, region) values ($1, $2, $3, $4, $5)";
                "INSERT INTO amber_forecast_rolling (event_time, periodSource, period, forecastedAt, region, forecast_lead) values ($1, $2, $3, $4, $5, $6)"])
  /\ (forall py_float : scalar -> outcome Z,
        write (table_specs py_float) cycle_timeseries lost_after_first []
        = (Raise (PostgresError "connection is closed"),
           [Stdout "amber_actual_30min"; Stdout "df.head()";
            Log INFO "postgres: table: %s len: %d" ["amber_actual_30min"; "1"];
            Log DEBUG "postgres %s fields: %s" ["amber_actual_30min"];
            Execute
              "INSERT INTO amber_actual_30min (event_time, period, region) values ($1, $2, $3)"
              [OCell (VTime 5); OCell (VTime 1000); OCell (VStr "VIC")];
            Log INFO "PostgresWriter: %s written" ["amber_actual_30min"];
            Stdout "amber_actual_5min"; Stdout "df.head()";
            Log INFO "postgres: table: %s len: %d" ["amber_actual_5min"; "2"];
            Log INFO "table: %s has %d rows" ["amber_actual_5min"; "2"];
            Stdout "args"; Stdout "args[:3]";
            Log DEBUG "postgres %s fields: %s" ["amber_actual_5min"];
            ExecuteMany
              "INSERT INTO amber_actual_5min (event_time, period, region) values ($1, $2, $3)"
              [[VTime 5; VTime 2000; VStr "VIC"]; [VTime 5; VTime 3000; VStr "VIC"]];
            LogException "PostgresWriter: failed to write: '%s'"
              ["amber_actual_5min"] (PostgresError "connection is closed")])).
Proof.
  split; [exact write_loop_single_failure|].
  split; [exact write_loop_batch_failure|].
  split; intros py_float.
  - eexists. split; reflexivity.
  - reflexivity.
Qed.

(** ** The single-row collapse *)

Lemma series_to_dict_dropna (cols : list string) (cells : list cell) :
  series_to_dict (series_dropna (combine (map LStr cols) cells))
  = map (fun cv => (LStr (fst cv), OCell (snd cv)))
        (filter (fun cv => negb (is_na (snd cv))) (combine cols cells)).
Proof.
  revert cells. induction cols as [|c cols IH]; intros [|v cells];
    try reflexivity.
  simpl. destruct (is_na v); simpl; [apply IH|].
  unfold series_to_dict, series_dropna in *. simpl. now rewrite IH.
Qed.

(** [MqttConsumer.consume] collapses a single row to [row_mapping]. *)
Lemma squeeze_dropna_to_dict_row (df : DataFrame) (r : Z * list cell) :
  rows df = [r] -> 2 <= length (columns df) ->
  squeeze_dropna_to_dict df = Return (row_mapping df r).
Proof.
  intros Hr Hc. unfold squeeze_dropna_to_dict, squeeze, row_mapping. rewrite Hr.
  destruct (columns df) as [|c1 [|c2 cols]]; simpl in Hc; try lia.
  now rewrite series_to_dict_dropna.
Qed.

Lemma filter_no_na (cols : list string) (cells : list cell) :
  existsb is_na cells = false ->
  filter (fun cv => negb (is_na (snd cv))) (combine cols cells)
  = combine cols cells.
Proof.
  revert cells. induction cols as [|c cols IH]; intros [|v cells] Hna;
    try reflexivity.
  simpl in Hna. apply orb_false_iff in Hna as [Hv Hna].
  simpl. rewrite Hv. simpl. now rewrite IH.
Qed.

(** [PostgresConsumer.write] collapses a single row to [row_mapping] only
    when no value is missing ... *)
Lemma dropna_squeeze_to_dict_full_row (df : DataFrame) (r : Z * list cell) :
  rows df = [r] -> 2 <= length (columns df) ->
  existsb is_na (snd r) = false ->
  dropna_squeeze_to_dict df = Return (row_mapping df r).
Proof.
  intros Hr Hc Hna.
  unfold dropna_squeeze_to_dict, frame_dropna, squeeze. cbn [rows columns].
  rewrite Hr. cbn [filter]. rewrite Hna. cbn [negb].
  rewrite <- (squeeze_dropna_to_dict_row df r Hr Hc).
  unfold squeeze_dropna_to_dict, squeeze. rewrite Hr.
  destruct (columns df) as [|c1 [|c2 cols]]; simpl in Hc; try lia.
  lazy beta iota. f_equal.
  rewrite series_to_dict_dropna, filter_no_na by exact Hna.
  generalize (c1 :: c2 :: cols) as l. generalize (snd r) as cells. clear.
  intros cells l. revert cells.
  induction l as [|c l IH]; intros [|v cells]; try reflexivity.
  simpl. unfold series_to_dict in IH. now rewrite IH.
Qed.

(** ... and to one empty dictionary per column when some value is missing:
    [dropna()] on the frame has then dropped the row itself. *)
Lemma dropna_squeeze_to_dict_null_row (df : DataFrame) (r : Z * list cell) :
  rows df = [r] -> 2 <= length (columns df) ->
  existsb is_na (snd r) = true ->
  dropna_squeeze_to_dict df
  = Return (map (fun c => (LStr c, ODict [])) (columns df)).
Proof.
  intros Hr Hc Hna.
  unfold dropna_squeeze_to_dict, frame_dropna, squeeze, frame_to_dict.
  simpl. rewrite Hr. simpl. rewrite Hna. simpl.
  destruct (columns df) as [|c1 [|c2 cols]]; simpl in Hc; try lia.
  reflexivity.
Qed.

(** C5 holds in the MQTT sink and fails in the Postgres sink.  The MQTT sink
    collapses a single row to the mapping of its columns that have a value.
    The Postgres sink drops missing values before it squeezes the frame: that
    gives the same mapping when the row has no missing value, and drops the
    row itself when it has one, leaving a mapping from every column to an
    empty dictionary.  For the one row derived from [timeseries_with_null],
    whose [createdAt] is missing, the MQTT sink encodes the three columns that
    have a value and the Postgres sink inserts all four columns with empty
    dictionaries for values. *)
Theorem postgres_single_row_with_null :
  (forall df r,
     rows df = [r] -> 2 <= length (columns df) ->
     squeeze_dropna_to_dict df = Return (row_mapping df r))
  /\ (forall df r,
        rows df = [r] -> 2 <= length (columns df) ->
        existsb is_na (snd r) = false ->
        dropna_squeeze_to_dict df = Return (row_mapping df r))
  /\ (forall df r,
        rows df = [r] -> 2 <= length (columns df) ->
        existsb is_na (snd r) = true ->
        dropna_squeeze_to_dict df
        = Return (map (fun c => (LStr c, ODict [])) (columns df)))
  /\ do_calculate actual_30min_spec timeseries_with_null []
     = (Return (Some derived_row_with_null), [])
  /\ row_mapping derived_row_with_null (0%Z, [VTime 5; VTime 1000; NA; VStr "VIC"])
     = [(LStr "event_time", OCell (VTime 5)); (LStr "period", OCell (VTime 1000));
        (LStr "region", OCell (VStr "VIC"))]
  /\ consume [actual_30min_spec] timeseries_with_null key_listing_client
       "amber/{series}" []
     = (Return 0%Z, [Publish "amber/amber_actual_30min" "event_time,period,region"])
  /\ write [actual_30min_spec] timeseries_with_null accepting []
     = (Return 0%Z,
        [Stdout "amber_actual_30min"; Stdout "df.head()";
         Log INFO "postgres: table: %s len: %d" ["amber_actual_30min"; "1"];
         Log DEBUG "postgres %s fields: %s" ["amber_actual_30min"];
         Execute
           "INSERT INTO amber_actual_30min (event_time, period, createdAt, region) values ($1, $2, $3, $4)"
           [ODict []; ODict []; ODict []; ODict []];
         Log INFO "PostgresWriter: %s written" ["amber_actual_30min"]]).
Proof.
  split; [exact squeeze_dropna_to_dict_row|].
  split; [exact dropna_squeeze_to_dict_full_row|].
  split; [exact dropna_squeeze_to_dict_null_row|].
  repeat split.
Qed.

(** * Further properties of the code *)

(** ** Source names and column names *)

(** X1.  [get_in_names] and [get_column_names] list the same fields, the
    keep-true ones in declaration order: they have the same length, the k-th
    source name and the k-th column name belong to the same field, and a name
    is listed only if a keep-true field carries it.  When no keep-true field
    has a column name of its own, the two lists are equal. *)
Theorem in_names_column_names_aligned (fm : list FieldMap) :
  length (get_in_names fm) = length (get_column_names fm)
  /\ (forall k src col,
        nth_error (get_in_names fm) k = Some src ->
        nth_error (get_column_names fm) k = Some col ->
        exists f,
          nth_error (filter kept fm) k = Some f /\ In f fm /\ kept f = true
          /\ in_name f = src /\ effective_column f = col)
  /\ (forall src,
        In src (get_in_names fm)
        <-> exists f, In f fm /\ kept f = true /\ in_name f = src)
  /\ (forallb (fun f => negb (kept f) || no_column_name f) fm = true ->
      get_column_names fm = get_in_names fm).
Proof.
  unfold get_in_names, get_column_names. repeat split.
  - now rewrite !length_map.
  - intros k src col Hs Hc. rewrite nth_error_map in Hs, Hc.
    destruct (nth_error (filter kept fm) k) as [f|] eqn:Hf; [|discriminate].
    simpl in Hs, Hc. injection Hs as <-. injection Hc as <-.
    exists f. pose proof (nth_error_In _ _ Hf) as Hin.
    apply filter_In in Hin. tauto.
  - intros Hin. apply in_map_iff in Hin as (f & <- & Hf).
    apply filter_In in Hf. exists f. tauto.
  - intros (f & Hin & Hk & <-). apply in_map. apply filter_In. tauto.
  - intros Hall. induction fm as [|f fm IH]; [reflexivity|].
    simpl in Hall. apply andb_true_iff in Hall as [Hf Hall].
    simpl. destruct (kept f) eqn:Hk; [|now apply IH].
    simpl in *. rewrite (IH Hall). f_equal.
    apply effective_column_falsy. unfold no_column_name in Hf.
    now apply negb_true_iff in Hf.
Qed.

(** ** Columns of the derived frames *)

Lemma mem_In (x : string) (l : list string) : mem x l = true <-> In x l.
Proof.
  unfold mem. rewrite existsb_exists. split.
  - intros (y & Hy & He). apply String.eqb_eq in He. now subst.
  - intros H. exists x. split; [exact H|apply String.eqb_refl].
Qed.

Lemma mem_false (x : string) (l : list string) : mem x l = false <-> ~ In x l.
Proof.
  rewrite <- mem_In. destruct (mem x l); split; congruence.
Qed.

Lemma In_unique (seen l : list string) (x : string) :
  In x (unique seen l) <-> In x l /\ ~ In x seen.
Proof.
  revert seen. induction l as [|y l IH]; intros seen; simpl; [tauto|].
  destruct (mem y seen) eqn:Hm.
  - rewrite IH. apply mem_In in Hm. split.
    + tauto.
    + intros [[<-|H] Hn]; tauto.
  - apply mem_false in Hm. simpl. rewrite IH. simpl. split.
    + intros [<-|[H Hn]]; [tauto|]. split; [tauto|]. intuition.
    + intros [[<-|H] Hn]; [tauto|].
      destruct (string_dec y x) as [->|Hne]; [tauto|]. right. intuition.
Qed.

Lemma NoDup_unique (seen l : list string) : NoDup (unique seen l).
Proof.
  revert seen. induction l as [|y l IH]; intros seen; simpl; [constructor|].
  destruct (mem y seen); [apply IH|].
  constructor; [|apply IH]. rewrite In_unique. simpl. tauto.
Qed.

(** [intersection] keeps exactly the labels that are on both sides, once. *)
Lemma In_intersection (cols names : list string) (c : string) :
  In c (intersection cols names) <-> In c cols /\ In c names.
Proof.
  unfold intersection. rewrite In_unique, filter_In, mem_In. simpl. tauto.
Qed.

Lemma NoDup_intersection (cols names : list string) :
  NoDup (intersection cols names).
Proof. apply NoDup_unique. Qed.

Lemma In_index_of (c : string) (cols : list string) :
  In c cols -> exists i, index_of c cols = Some i.
Proof.
  induction cols as [|x cols IH]; intros Hin; [contradiction|].
  simpl. destruct (String.eqb_spec x c) as [->|Hne]; [eauto|].
  destruct Hin as [->|Hin]; [contradiction|].
  destruct (IH Hin) as [i ->]. simpl. eauto.
Qed.

Lemma index_of_In (c : string) (cols : list string) (i : nat) :
  index_of c cols = Some i -> In c cols.
Proof.
  intros H. apply index_of_nth_error in H. now apply nth_error_In in H.
Qed.

Lemma getattr_column_missing (df : DataFrame) (c : string) :
  ~ In c (columns df) ->
  getattr_column df c
  = Raise (AttributeError ("'DataFrame' object has no attribute '" ++ c ++ "'")).
Proof.
  intros Hn. unfold getattr_column.
  destruct (index_of c (columns df)) as [i|] eqn:Hi; [|reflexivity].
  apply index_of_In in Hi. contradiction.
Qed.

(** ** calculate_actual_5min *)

Lemma calculate_actual_5min_selects
    (spec : TableSpecData) (df : DataFrame) (tr : trace) :
  In "periodType" (columns df) ->
  In "periodSource" (columns df) ->
  calculate_actual_5min spec df tr
  = (Return
       {| columns := intersection (columns df) (get_column_names (field_map spec));
          rows := map (project df (intersection (columns df)
                                     (get_column_names (field_map spec))))
                      (filter (is_actual_5min df) (rows df)) |}, tr).
Proof.
  intros Htype Hsource.
  destruct (In_index_of _ _ Htype) as [i Hi].
  destruct (In_index_of _ _ Hsource) as [j Hj].
  unfold calculate_actual_5min, bind, lift, ret.
  rewrite (getattr_column_cell_at df _ i Hi), (getattr_column_cell_at df _ j Hj).
  rewrite !map_map. unfold loc.
  rewrite (select_rows_mask_and
             (fun r => eq_str "ACTUAL" (cell_at df "periodType" (snd r)))
             (fun r => eq_str "5MIN" (cell_at df "periodSource" (snd r)))).
  reflexivity.
Qed.

(** X2.  On a raw dataset that has the columns [periodType] and
    [periodSource], [calculate_actual_5min] never raises and logs nothing: it
    returns every ACTUAL 5-minute row, in input order and with its index
    label, cut down to the dataset's columns that the spec keeps.  With no
    such row the result is a frame without rows, not an error. *)
Theorem calculate_actual_5min_all_matches
    (spec : TableSpecData) (df : DataFrame) (tr : trace) :
  In "periodType" (columns df) ->
  In "periodSource" (columns df) ->
  let cols := intersection (columns df) (get_column_names (field_map spec)) in
  let result :=
    {| columns := cols;
       rows := map (project df cols) (filter (is_actual_5min df) (rows df)) |} in
  calculate_actual_5min spec df tr = (Return result, tr)
  /\ len result = length (filter (is_actual_5min df) (rows df))
  /\ map fst (rows result) = map fst (filter (is_actual_5min df) (rows df))
  /\ (filter (is_actual_5min df) (rows df) = [] -> empty result = true).
Proof.
  intros Htype Hsource cols result.
  repeat split.
  - now apply calculate_actual_5min_selects.
  - unfold len, result. simpl. now rewrite length_map.
  - unfold result. simpl. rewrite map_map. reflexivity.
  - intros Hnone. unfold empty, result. simpl. rewrite Hnone. simpl.
    apply orb_true_r.
Qed.

Lemma calculate_actual_5min_all_matches_witness :
  calculate_actual_5min (spec_data actual_5min_spec) sample_timeseries []
  = (Return {| columns := ["period"; "region"];
               rows := [(1%Z, [VTime 2000; VStr "VIC"])] |}, []).
Proof.
  apply (calculate_actual_5min_all_matches (spec_data actual_5min_spec)
           sample_timeseries []); simpl; auto.
Defined.

(** ** calculate_actual_30min without a matching row *)

(** X3.  On a raw dataset that has the columns [periodType] and
    [periodSource] but no ACTUAL 30-minute row, [calculate_actual_30min]
    raises [IndexError] (the last row of an empty selection is asked for);
    through [do_calculate] the table then gets no rows, and the absence of
    rows is logged as a calculation exception. *)
Theorem calculate_actual_30min_no_match
    (spec : TableSpec) (df : DataFrame) (tr : trace) :
  In "periodType" (columns df) ->
  In "periodSource" (columns df) ->
  filter (is_actual_30min df) (rows df) = [] ->
  calculate_actual_30min (spec_data spec) df tr
  = (Raise (IndexError "positional indexers are out-of-bounds"), tr)
  /\ (calculate spec = Some calculate_actual_30min ->
      do_calculate spec df tr
      = (Return None,
         List.app tr
           [LogException "calculation exception: %s" [table_name (spec_data spec)]
              (IndexError "positional indexers are out-of-bounds")])).
Proof.
  intros Htype Hsource Hnone.
  destruct (In_index_of _ _ Htype) as [i Hi].
  destruct (In_index_of _ _ Hsource) as [j Hj].
  assert (Hcalc : calculate_actual_30min (spec_data spec) df tr
                  = (Raise (IndexError "positional indexers are out-of-bounds"), tr)).
  { unfold calculate_actual_30min, bind, lift.
    rewrite (getattr_column_cell_at df _ i Hi), (getattr_column_cell_at df _ j Hj).
    rewrite !map_map. unfold iloc_last, loc. simpl rows.
    rewrite (select_rows_mask_and
               (fun r => eq_str "ACTUAL" (cell_at df "periodType" (snd r)))
               (fun r => eq_str "30MIN" (cell_at df "periodSource" (snd r)))).
    change (filter _ (rows df)) with (filter (is_actual_30min df) (rows df)).
    rewrite Hnone. reflexivity. }
  split; [exact Hcalc|].
  intros Hspec. unfold do_calculate, try_except, bind. rewrite Hspec, Hcalc.
  reflexivity.
Qed.

Lemma calculate_actual_30min_no_match_witness :
  calculate_actual_30min (spec_data actual_30min_spec) early_cycle_timeseries []
  = (Raise (IndexError "positional indexers are out-of-bounds"), [])
  /\ do_calculate actual_30min_spec early_cycle_timeseries []
     = (Return None,
        [LogException "calculation exception: %s" ["amber_actual_30min"]
           (IndexError "positional indexers are out-of-bounds")]).
Proof.
  destruct (calculate_actual_30min_no_match actual_30min_spec
              early_cycle_timeseries []) as [Hraises Hlogged];
    [simpl; auto 8|simpl; auto 8|reflexivity|].
  split; [exact Hraises|exact (Hlogged eq_refl)].
Defined.

(** ** map_to_array *)

Lemma map_to_array_returns (py_float : scalar -> outcome Z) (m : cell) (tr : trace) :
  exists v tr', map_to_array py_float m tr = (Return v, tr').
Proof.
  unfold map_to_array, try_except, bind, lift, ret, log_exception, emit.
  destruct (obind (getitem m "min") py_float) as [lo|e]; [|eauto].
  destruct (obind (getitem m "max") py_float) as [hi|e]; eauto.
Qed.

(** X4.  [map_to_array] never raises.  When the cell is a JSON object whose
    [min] and [max] both convert with [float], it returns the pair of the two
    numbers and logs nothing.  In every other case (the cell is not an object,
    a key is missing, a member does not convert) it returns the pair (0, 0)
    and logs the exception once. *)
Theorem map_to_array_fallback
    (py_float : scalar -> outcome Z) (m : cell) (tr : trace) :
  (exists v tr',
     map_to_array py_float m tr = (Return v, tr')
     /\ (v = zero_pair \/ exists lo hi, v = VPair (VFloat lo) (VFloat hi)))
  /\ (forall kv a b lo hi,
        m = VObj kv -> assoc "min" kv = Some a -> assoc "max" kv = Some b ->
        py_float a = Return lo -> py_float b = Return hi ->
        map_to_array py_float m tr = (Return (VPair (VFloat lo) (VFloat hi)), tr))
  /\ ((forall kv, m <> VObj kv) ->
      map_to_array py_float m tr
      = (Return zero_pair,
         List.app tr [LogException "json encode failed" []
                        (TypeError "object is not subscriptable")]))
  /\ (forall kv key,
        m = VObj kv -> (key = "min" \/ key = "max") -> assoc key kv = None ->
        exists e,
          map_to_array py_float m tr
          = (Return zero_pair,
             List.app tr [LogException "json encode failed" [] e]))
  /\ (forall kv key a e,
        m = VObj kv -> (key = "min" \/ key = "max") -> assoc key kv = Some a ->
        py_float a = Raise e ->
        exists e',
          map_to_array py_float m tr
          = (Return zero_pair,
             List.app tr [LogException "json encode failed" [] e'])).
Proof.
  unfold map_to_array, try_except, bind, lift, ret, log_exception, emit, zero_pair.
  split; [|split; [|split; [|split]]].
  - destruct (obind (getitem m "min") py_float) as [lo|e]; [|eauto 7].
    destruct (obind (getitem m "max") py_float) as [hi|e]; eauto 9.
  - intros kv a b lo hi -> Ha Hb Hlo Hhi. simpl. rewrite Ha, Hb. simpl.
    now rewrite Hlo, Hhi.
  - intros Hm. destruct m; try reflexivity. now contradiction (Hm kv).
  - intros kv key -> [->| ->] Hk; simpl.
    + rewrite Hk. simpl. eauto.
    + rewrite Hk. simpl.
      destruct (assoc "min" kv) as [a|]; simpl; [|eauto].
      destruct (py_float a); eauto.
  - intros kv key a e -> [->| ->] Hk He; simpl.
    + rewrite Hk. simpl. rewrite He. eauto.
    + rewrite Hk. simpl. rewrite He.
      destruct (assoc "min" kv) as [a0|]; simpl; [|eauto].
      destruct (py_float a0); eauto.
Qed.

Lemma mapM_map_to_array_returns (py_float : scalar -> outcome Z) (col : list cell) :
  forall tr, exists vals tr',
    mapM (map_to_array py_float) col tr = (Return vals, tr')
    /\ length vals = length col.
Proof.
  induction col as [|m col IH]; intros tr; simpl.
  - exists [], tr. auto.
  - unfold bind. destruct (map_to_array_returns py_float m tr) as (v & tr1 & ->).
    destruct (IH tr1) as (vals & tr2 & -> & Hlen).
    exists (v :: vals), tr2. simpl. auto.
Qed.

(** ** calculate_forecast *)

Lemma hd_rows_set_column_existing
    (df : DataFrame) (c : string) (k : nat) (r : Z * list cell)
    (rs : list (Z * list cell)) (v : cell) (vals : list cell) :
  index_of c (columns df) = Some k ->
  rows df = r :: rs ->
  iloc_first (set_column df c (v :: vals))
  = Return {| columns := columns df; rows := [(fst r, set_nth k v (snd r))] |}.
Proof.
  intros Hk Hr. unfold iloc_first, set_column. rewrite Hk, Hr. reflexivity.
Qed.

Lemma mapM_cons {A B} (f : A -> M B) (x : A) (l : list A) (tr : trace) :
  mapM f (x :: l) tr
  = match f x tr with
    | (Return y, tr1) =>
        match mapM f l tr1 with
        | (Return ys, tr2) => (Return (y :: ys), tr2)
        | (Raise e, tr2) => (Raise e, tr2)
        end
    | (Raise e, tr1) => (Raise e, tr1)
    end.
Proof.
  simpl. unfold bind, ret. destruct (f x tr) as [[y|e] tr1]; [|reflexivity].
  destruct (mapM f l tr1) as [[ys|e] tr2]; reflexivity.
Qed.

(** X5.  On a raw dataset that has the column [periodType] and at least one
    FORECAST row, [calculate_forecast] never raises: it returns exactly one
    row, the first FORECAST row in input order with its index label, cut down
    to the dataset's columns that the spec keeps.  Every cell is the one of
    the raw row, except [wholesaleKWHPriceRange], which is what
    [map_to_array] makes of the raw cell; when that column is not among the
    kept ones nothing is logged. *)
Theorem calculate_forecast_first_match
    (py_float : scalar -> outcome Z) (spec : TableSpecData) (df : DataFrame)
    (tr : trace) (first_match : Z * list cell)
    (more_matches : list (Z * list cell)) :
  In "periodType" (columns df) ->
  filter (is_forecast df) (rows df) = first_match :: more_matches ->
  let cols := intersection (columns df) (get_column_names (field_map spec)) in
  exists cells tr',
    calculate_forecast py_float spec df tr
    = (Return {| columns := cols; rows := [(fst first_match, cells)] |}, tr')
    /\ length cells = length cols
    /\ (forall c i,
          index_of c cols = Some i -> c <> "wholesaleKWHPriceRange" ->
          nth i cells NA = cell_at df c (snd first_match))
    /\ (forall i,
          index_of "wholesaleKWHPriceRange" cols = Some i ->
          exists tr1,
            map_to_array py_float
              (cell_at df "wholesaleKWHPriceRange" (snd first_match)) tr
            = (Return (nth i cells NA), tr1))
    /\ (~ In "wholesaleKWHPriceRange" cols -> tr' = tr).
Proof.
  intros Htype Hmatch cols.
  destruct (In_index_of _ _ Htype) as [i Hi].
  unfold calculate_forecast, bind, lift.
  rewrite (getattr_column_cell_at df _ i Hi). rewrite map_map.
  change (map (fun x => eq_str "FORECAST" (cell_at df "periodType" (snd x))) (rows df))
    with (map (is_forecast df) (rows df)).
  unfold spec_get_column_names. fold cols.
  set (of_ := loc df (map (is_forecast df) (rows df)) cols).
  assert (Hrows : rows of_ = project df cols first_match
                             :: map (project df cols) more_matches).
  { unfold of_, loc. simpl. now rewrite select_rows_map, Hmatch. }
  unfold coerce_price_range.
  destruct (mem "wholesaleKWHPriceRange" (columns of_)) eqn:Hmem.
  - apply mem_In in Hmem. simpl in Hmem.
    destruct (In_index_of _ _ Hmem) as [k Hk].
    unfold bind, lift, ret.
    unfold getattr_column at 1. simpl columns. rewrite Hk. rewrite Hrows.
    simpl map.
    match goal with
    | |- context [mapM _ (?x :: ?l) tr] =>
        rewrite (mapM_cons (map_to_array py_float) x l tr);
        destruct (map_to_array_returns py_float x tr) as (v & tr1 & Hv);
        rewrite Hv;
        destruct (mapM_map_to_array_returns py_float l tr1)
          as (vals & tr2 & Hvals & _);
        rewrite Hvals
    end.
    rewrite (hd_rows_set_column_existing of_ _ k _ _ v vals Hk Hrows).
    exists (set_nth k v (snd (project df cols first_match))), tr2.
    split; [reflexivity|]. split; [|split; [|split]].
    + rewrite length_set_nth. unfold project. simpl. now rewrite length_map.
    + intros c j Hj Hne. rewrite nth_set_nth_other.
      * now apply cell_at_project.
      * intros ->. apply index_of_nth_error in Hk, Hj. congruence.
    + intros j Hj. injection Hj as <-.
      rewrite nth_set_nth_same.
      * exists tr1. rewrite <- (cell_at_project df cols _ first_match k Hk).
        exact Hv.
      * unfold project. simpl. rewrite length_map.
        now apply index_of_lt with (c := "wholesaleKWHPriceRange").
    + intros Hn. contradiction.
  - apply mem_false in Hmem. simpl in Hmem. unfold ret, bind.
    unfold iloc_first. rewrite Hrows.
    exists (snd (project df cols first_match)), tr.
    split; [reflexivity|]. split; [|split; [|split]].
    + unfold project. simpl. now rewrite length_map.
    + intros c j Hj _. now apply cell_at_project.
    + intros j Hj. apply index_of_In in Hj. contradiction.
    + reflexivity.
Qed.

Lemma calculate_forecast_first_match_witness :
  exists cells tr',
    calculate_forecast float_of_number (spec_data (forecast_spec float_of_number))
      cycle_timeseries []
    = (Return {| columns := ["event_time"; "periodSource"; "period";
                             "forecastedAt"; "region"];
                 rows := [(3%Z, cells)] |}, tr')
    /\ length cells = 5
    /\ nth 2 cells NA = VTime 1800000000000.
Proof.
  destruct (calculate_forecast_first_match float_of_number
              (spec_data (forecast_spec float_of_number)) cycle_timeseries []
              (3%Z, [VTime 5; VStr "FORECAST"; VStr "30MIN"; VTime 1800000000000;
                     VTime 0; VStr "VIC"]) [])
    as (cells & tr' & Hreturns & Hlen & Hcells & _);
    [simpl; auto 8|reflexivity|].
  exists cells, tr'. split; [exact Hreturns|]. split; [exact Hlen|].
  apply (Hcells "period" 2); [reflexivity|discriminate].
Defined.

Lemma calculate_forecast_no_rows
    (py_float : scalar -> outcome Z) (spec : TableSpecData) (df : DataFrame)
    (tr : trace) :
  In "periodType" (columns df) ->
  filter (is_forecast df) (rows df) = [] ->
  calculate_forecast py_float spec df tr
  = (Raise (IndexError "positional indexers are out-of-bounds"), tr).
Proof.
  intros Htype Hnone.
  destruct (In_index_of _ _ Htype) as [i Hi].
  unfold calculate_forecast, bind, lift.
  rewrite (getattr_column_cell_at df _ i Hi). rewrite map_map.
  change (map (fun x => eq_str "FORECAST" (cell_at df "periodType" (snd x))) (rows df))
    with (map (is_forecast df) (rows df)).
  set (cols := intersection (columns df) (spec_get_column_names spec)).
  set (of_ := loc df (map (is_forecast df) (rows df)) cols).
  assert (Hrows : rows of_ = []).
  { unfold of_, loc. simpl. now rewrite select_rows_map, Hnone. }
  unfold coerce_price_range.
  destruct (mem "wholesaleKWHPriceRange" (columns of_)) eqn:Hmem.
  - apply mem_In in Hmem. destruct (In_index_of _ _ Hmem) as [k Hk].
    unfold bind, lift, ret, getattr_column. rewrite Hk, Hrows. simpl.
    unfold iloc_first, set_column. rewrite Hk, Hrows. reflexivity.
  - unfold ret, iloc_first. now rewrite Hrows.
Qed.

(** X6.  On a raw dataset that has the column [periodType] but no FORECAST
    row, [calculate_forecast] raises [IndexError] (the first row of an empty
    selection is asked for) and logs nothing; through [do_calculate] the
    forecast table then gets no rows, and the absence of rows is logged as a
    calculation exception. *)
Theorem calculate_forecast_no_match
    (py_float : scalar -> outcome Z) (spec : TableSpec) (df : DataFrame)
    (tr : trace) :
  In "periodType" (columns df) ->
  filter (is_forecast df) (rows df) = [] ->
  calculate spec = Some (calculate_forecast py_float) ->
  calculate_forecast py_float (spec_data spec) df tr
  = (Raise (IndexError "positional indexers are out-of-bounds"), tr)
  /\ do_calculate spec df tr
     = (Return None,
        List.app tr
          [LogException "calculation exception: %s" [table_name (spec_data spec)]
             (IndexError "positional indexers are out-of-bounds")]).
Proof.
  intros Htype Hnone Hspec.
  pose proof (calculate_forecast_no_rows py_float (spec_data spec) df tr
                Htype Hnone) as Hcalc.
  split; [exact Hcalc|].
  unfold do_calculate, try_except, bind. rewrite Hspec, Hcalc. reflexivity.
Qed.

Lemma calculate_forecast_no_match_witness :
  calculate_forecast float_of_number (spec_data (forecast_spec float_of_number))
    early_cycle_timeseries []
  = (Raise (IndexError "positional indexers are out-of-bounds"), [])
  /\ do_calculate (forecast_spec float_of_number) early_cycle_timeseries []
     = (Return None,
        [LogException "calculation exception: %s" ["amber_forecast"]
           (IndexError "positional indexers are out-of-bounds")]).
Proof.
  apply (calculate_forecast_no_match float_of_number
           (forecast_spec float_of_number) early_cycle_timeseries []);
    [simpl; auto 8|reflexivity|reflexivity].
Defined.

(** ** A raw dataset without the kind column *)

(** X7.  The derivations tolerate the absence of kept columns, but not of
    the kind column: on a raw dataset without [periodType] each of the four
    derivations raises [AttributeError] before it selects anything, and logs
    nothing. *)
Theorem derivations_need_periodType
    (py_float : scalar -> outcome Z) (spec : TableSpecData) (df : DataFrame)
    (tr : trace) :
  ~ In "periodType" (columns df) ->
  let e := AttributeError "'DataFrame' object has no attribute 'periodType'" in
  calculate_actual_30min spec df tr = (Raise e, tr)
  /\ calculate_actual_5min spec df tr = (Raise e, tr)
  /\ calculate_forecast py_float spec df tr = (Raise e, tr)
  /\ calculate_forecast_rolling py_float spec df tr = (Raise e, tr).
Proof.
  intros Hn e.
  pose proof (getattr_column_missing df "periodType" Hn) as Hget.
  unfold calculate_actual_30min, calculate_actual_5min, calculate_forecast,
    calculate_forecast_rolling, bind, lift.
  rewrite Hget. repeat split.
Qed.

Lemma derivations_need_periodType_witness :
  calculate_actual_5min (spec_data actual_5min_spec) derived_row_with_null []
  = (Raise (AttributeError "'DataFrame' object has no attribute 'periodType'"), [])
  /\ calculate_forecast_rolling float_of_number
       (spec_data actual_5min_spec) derived_row_with_null []
     = (Raise (AttributeError "'DataFrame' object has no attribute 'periodType'"), []).
Proof.
  destruct (derivations_need_periodType float_of_number
              (spec_data actual_5min_spec) derived_row_with_null [])
    as (_ & H5 & _ & Hr);
    [simpl; intuition discriminate|].
  split; [exact H5|exact Hr].
Defined.

(** ** calculate_forecast_rolling: the shape of the result *)

Lemma columns_set_column (df : DataFrame) (c : string) (vals : list cell) :
  columns (set_column df c vals)
  = if mem c (columns df) then columns df else List.app (columns df) [c].
Proof.
  unfold set_column. destruct (index_of c (columns df)) as [i|] eqn:Hi; simpl.
  - apply index_of_In in Hi. apply mem_In in Hi. now rewrite Hi.
  - destruct (mem c (columns df)) eqn:Hm; [|reflexivity].
    apply mem_In in Hm. destruct (In_index_of _ _ Hm) as [i Hi']. congruence.
Qed.

Lemma labels_set_column (df : DataFrame) (c : string) (vals : list cell) :
  length vals = length (rows df) ->
  map fst (rows (set_column df c vals)) = map fst (rows df).
Proof.
  intros Hlen. unfold set_column.
  destruct (index_of c (columns df)); simpl; rewrite map_map; simpl;
    revert vals Hlen; induction (rows df) as [|r rs IH]; intros [|v vals] Hlen;
    simpl in *; try lia; auto; f_equal; apply IH; lia.
Qed.

Lemma series_lead_returns (f g : Z * list cell -> cell) (rs : list (Z * list cell)) :
  Forall (fun r => is_time_or_na (f r) && is_time_or_na (g r) = true) rs ->
  exists ds ls,
    series_sub (map f rs) (map g rs) = Return ds
    /\ map_outcome dt_seconds ds = Return ls
    /\ length ls = length rs.
Proof.
  induction 1 as [|r rs Hr _ (ds & ls & Hds & Hls & Hlen)]; simpl.
  - exists [], []. auto.
  - rewrite Hds. apply andb_true_iff in Hr as [Hf Hg].
    destruct (f r); try discriminate; destruct (g r); try discriminate; simpl;
      eexists; eexists; (split; [reflexivity|]); simpl; rewrite Hls; simpl;
      (split; [reflexivity|]); simpl; now rewrite Hlen.
Qed.

(** X8.  On a raw dataset that has the column [periodType], when [period]
    and [forecastedAt] are columns of the dataset that the spec keeps and
    hold, in the FORECAST rows, timestamps or missing values whose difference
    fits the 64-bit nanoseconds of a [Timedelta],
    [calculate_forecast_rolling] never raises: it returns one row per
    FORECAST row, in input order and with the same index labels; its columns
    are the dataset's columns that the spec keeps, followed by
    [forecast_lead] when that is not already one of them. *)
Theorem calculate_forecast_rolling_shape
    (py_float : scalar -> outcome Z) (spec : TableSpecData) (df : DataFrame)
    (tr : trace) :
  let cols := intersection (columns df) (get_column_names (field_map spec)) in
  In "periodType" (columns df) ->
  In "period" cols ->
  In "forecastedAt" cols ->
  Forall (fun r => is_time_or_na (cell_at df "period" (snd r))
                   && is_time_or_na (cell_at df "forecastedAt" (snd r))
                   && lead_in_range (cell_at df "period" (snd r))
                        (cell_at df "forecastedAt" (snd r)) = true)
         (filter (is_forecast df) (rows df)) ->
  exists out tr',
    calculate_forecast_rolling py_float spec df tr = (Return out, tr')
    /\ columns out
       = (if mem "forecast_lead" cols then cols
          else List.app cols ["forecast_lead"])
    /\ map fst (rows out) = map fst (filter (is_forecast df) (rows df))
    /\ len out = length (filter (is_forecast df) (rows df)).
Proof.
  intros cols Htype Hperiod Hmade Hrange.
  assert (Htimes : Forall (fun r => is_time_or_na (cell_at df "period" (snd r))
                                    && is_time_or_na (cell_at df "forecastedAt" (snd r))
                                    = true)
                          (filter (is_forecast df) (rows df))).
  { apply Forall_impl with (2 := Hrange). intros r Hr.
    now apply andb_true_iff in Hr as [Hr _]. }
  destruct (In_index_of _ _ Htype) as [i Hi].
  destruct (In_index_of _ _ Hperiod) as [j Hj].
  destruct (In_index_of _ _ Hmade) as [k Hk].
  unfold calculate_forecast_rolling, bind, lift, ret.
  rewrite (getattr_column_cell_at df _ i Hi). rewrite map_map.
  change (map (fun x => eq_str "FORECAST" (cell_at df "periodType" (snd x))) (rows df))
    with (map (is_forecast df) (rows df)).
  unfold spec_get_column_names. fold cols.
  set (mask := map (is_forecast df) (rows df)).
  rewrite (getattr_column_loc df mask cols _ j Hj).
  rewrite (getattr_column_loc df mask cols _ k Hk).
  unfold mask at 1 2. rewrite select_rows_map.
  set (sel := filter (is_forecast df) (rows df)) in *.
  destruct (series_lead_returns (fun r => cell_at df "period" (snd r))
              (fun r => cell_at df "forecastedAt" (snd r)) sel Htimes)
    as (ds & ls & Hds & Hls & Hlen).
  rewrite Hds, Hls.
  set (of_ := loc df mask cols).
  assert (Hrows : rows of_ = map (project df cols) sel).
  { unfold of_, loc, mask. simpl. now rewrite select_rows_map. }
  assert (Hlen0 : length ls = length (rows of_))
    by (rewrite Hrows, length_map; exact Hlen).
  set (of1 := set_column of_ "forecast_lead" ls).
  assert (Hcols1 : columns of1
                   = if mem "forecast_lead" cols then cols
                     else List.app cols ["forecast_lead"])
    by (unfold of1; now rewrite columns_set_column).
  assert (Hlab1 : map fst (rows of1) = map fst sel).
  { unfold of1. rewrite labels_set_column by exact Hlen0.
    rewrite Hrows, map_map. reflexivity. }
  unfold coerce_price_range, bind, lift, ret.
  destruct (mem "wholesaleKWHPriceRange" (columns of1)) eqn:Hmem.
  - apply mem_In in Hmem. destruct (In_index_of _ _ Hmem) as [n Hn].
    unfold getattr_column. rewrite Hn.
    destruct (mapM_map_to_array_returns py_float
                (map (fun r => nth n (snd r) NA) (rows of1)) tr)
      as (vals & tr2 & Hvals & Hvlen).
    rewrite Hvals. rewrite length_map in Hvlen.
    eexists. eexists. split; [reflexivity|]. split; [|split].
    + rewrite columns_set_column. apply mem_In in Hmem. now rewrite Hmem.
    + now rewrite labels_set_column.
    + unfold len. rewrite <- (length_map fst), labels_set_column by exact Hvlen.
      rewrite Hlab1. now rewrite length_map.
  - eexists. eexists. split; [reflexivity|]. split; [exact Hcols1|]. split.
    + exact Hlab1.
    + unfold len. rewrite <- (length_map fst), Hlab1. now rewrite length_map.
Qed.

Lemma calculate_forecast_rolling_shape_witness :
  exists out tr',
    calculate_forecast_rolling float_of_number
      (spec_data (forecast_rolling_spec float_of_number)) cycle_timeseries []
    = (Return out, tr')
    /\ columns out = ["event_time"; "periodSource"; "period"; "forecastedAt";
                      "region"; "forecast_lead"]
    /\ map fst (rows out) = [3%Z]
    /\ len out = 1.
Proof.
  apply (calculate_forecast_rolling_shape float_of_number
           (spec_data (forecast_rolling_spec float_of_number)) cycle_timeseries []);
    [simpl; auto 8|vm_compute; auto 8|vm_compute; auto 8|repeat constructor].
Defined.

(** ** Columns that reach a sink *)

Lemma iloc_first_columns (df out : DataFrame) :
  iloc_first df = Return out -> columns out = columns df.
Proof.
  unfold iloc_first. destruct (rows df); [discriminate|]. now intros [= <-].
Qed.

Lemma iloc_last_columns (df out : DataFrame) :
  iloc_last df = Return out -> columns out = columns df.
Proof.
  unfold iloc_last. destruct (rows df); [discriminate|]. now intros [= <-].
Qed.

Lemma calculate_actual_30min_columns (spec : TableSpecData) (df out : DataFrame)
    (tr tr' : trace) :
  calculate_actual_30min spec df tr = (Return out, tr') ->
  columns out = intersection (columns df) (get_column_names (field_map spec)).
Proof.
  unfold calculate_actual_30min, bind, lift. intros H.
  destruct (getattr_column df "periodType"); [|discriminate].
  destruct (getattr_column df "periodSource"); [|discriminate].
  injection H as H _. now apply iloc_last_columns in H.
Qed.

Lemma calculate_actual_5min_columns (spec : TableSpecData) (df out : DataFrame)
    (tr tr' : trace) :
  calculate_actual_5min spec df tr = (Return out, tr') ->
  columns out = intersection (columns df) (get_column_names (field_map spec)).
Proof.
  unfold calculate_actual_5min, bind, lift, ret. intros H.
  destruct (getattr_column df "periodType"); [|discriminate].
  destruct (getattr_column df "periodSource"); [|discriminate].
  now injection H as <- _.
Qed.

Lemma calculate_forecast_columns (py_float : scalar -> outcome Z)
    (spec : TableSpecData) (df out : DataFrame) (tr tr' : trace) :
  calculate_forecast py_float spec df tr = (Return out, tr') ->
  columns out = intersection (columns df) (get_column_names (field_map spec)).
Proof.
  unfold calculate_forecast, bind, lift. intros H.
  destruct (getattr_column df "periodType") as [ptype|]; [|discriminate].
  unfold coerce_price_range, bind, lift, ret in H.
  set (of_ := loc df (map (eq_str "FORECAST") ptype)
                (intersection (columns df) (spec_get_column_names spec))) in *.
  destruct (mem "wholesaleKWHPriceRange" (columns of_)) eqn:Hmem.
  - destruct (getattr_column of_ "wholesaleKWHPriceRange") as [col|]; [|discriminate].
    destruct (mapM (map_to_array py_float) col tr) as [[vals|e] tr2]; [|discriminate].
    injection H as H _. apply iloc_first_columns in H.
    rewrite H, columns_set_column, Hmem. reflexivity.
  - injection H as H _. now apply iloc_first_columns in H.
Qed.

(** X9.  Whenever the coarse-actual, the fine-actual or the forecast
    derivation returns a frame, its columns are, without repetition, exactly
    the columns of the raw dataset that are column names of keep-true fields
    of the spec: a field with
    [keep = False] and a column that the spec does not know never reach a
    sink through these derivations. *)
Theorem derived_columns_are_kept
    (py_float : scalar -> outcome Z) (spec : TableSpecData)
    (df out : DataFrame) (tr tr' : trace) :
  calculate_actual_30min spec df tr = (Return out, tr')
  \/ calculate_actual_5min spec df tr = (Return out, tr')
  \/ calculate_forecast py_float spec df tr = (Return out, tr') ->
  NoDup (columns out)
  /\ (forall c,
        In c (columns out)
        <-> In c (columns df)
            /\ exists f, In f (field_map spec) /\ kept f = true
                         /\ effective_column f = c).
Proof.
  intros H.
  assert (Hcols : columns out
                  = intersection (columns df) (get_column_names (field_map spec))).
  { destruct H as [H|[H|H]].
    - now apply calculate_actual_30min_columns in H.
    - now apply calculate_actual_5min_columns in H.
    - now apply calculate_forecast_columns in H. }
  rewrite Hcols. split; [apply NoDup_intersection|].
  intros c. rewrite In_intersection. unfold get_column_names.
  rewrite in_map_iff. split.
  - intros [Hc (f & <- & Hf)]. apply filter_In in Hf. split; [exact Hc|].
    exists f. tauto.
  - intros [Hc (f & Hin & Hk & <-)]. split; [exact Hc|].
    exists f. split; [reflexivity|]. apply filter_In. tauto.
Qed.

Lemma derived_columns_are_kept_witness :
  let out := {| columns := ["period"; "region"];
                rows := [(2%Z, [VTime 3000; VStr "VIC"])] |} in
  NoDup (columns out)
  /\ (forall c,
        In c (columns out)
        <-> In c (columns sample_timeseries)
            /\ exists f, In f actual_30min_fields /\ kept f = true
                         /\ effective_column f = c).
Proof.
  intros out.
  apply (derived_columns_are_kept float_of_number (spec_data actual_30min_spec)
           sample_timeseries out [] []).
  left. reflexivity.
Defined.

(** ** Rows of the derived frames *)

Lemma getattr_column_length (df : DataFrame) (c : string) (col : list cell) :
  getattr_column df c = Return col -> length col = length (rows df).
Proof.
  unfold getattr_column. destruct (index_of c (columns df)); [|discriminate].
  intros [= <-]. apply length_map.
Qed.

Lemma coerce_price_range_labels (py_float : scalar -> outcome Z)
    (of_ out : DataFrame) (tr tr' : trace) :
  coerce_price_range py_float of_ tr = (Return out, tr') ->
  labels out = labels of_.
Proof.
  unfold coerce_price_range, bind, lift, ret. intros H.
  destruct (mem "wholesaleKWHPriceRange" (columns of_)); [|now injection H as <- _].
  destruct (getattr_column of_ "wholesaleKWHPriceRange") as [col|] eqn:Hcol;
    [|discriminate].
  destruct (mapM (map_to_array py_float) col tr) as [[vals|e] tr2] eqn:Hvals;
    [|discriminate].
  injection H as <- _. apply labels_set_column.
  rewrite (mapM_length _ _ _ _ _ Hvals).
  exact (getattr_column_length _ _ _ Hcol).
Qed.

Lemma labels_loc (df : DataFrame) (p : Z * list cell -> bool) (cols : list string) :
  labels (loc df (map p (rows df)) cols) = map fst (filter p (rows df)).
Proof.
  unfold labels, loc. simpl. now rewrite select_rows_map, map_map.
Qed.

Lemma series_sub_length (a b : list cell) (ds : list cell) :
  length a = length b -> series_sub a b = Return ds -> length ds = length a.
Proof.
  revert b ds. induction a as [|x a IH]; intros [|y b] ds Hlen H; simpl in *;
    try discriminate; try (injection H as <-; reflexivity).
  destruct (timestamp_sub x y); [|discriminate]. simpl in H.
  destruct (series_sub a b) as [ds'|] eqn:E; [|discriminate].
  injection H as <-. simpl. f_equal. apply (IH b); [lia|exact E].
Qed.

Lemma map_outcome_length {A B} (f : A -> outcome B) (l : list A) (l' : list B) :
  map_outcome f l = Return l' -> length l' = length l.
Proof.
  revert l'. induction l as [|x l IH]; intros l' H; simpl in H.
  - now injection H as <-.
  - destruct (f x); [|discriminate]. simpl in H.
    destruct (map_outcome f l) as [ys|]; [|discriminate].
    injection H as <-. simpl. f_equal. now apply IH.
Qed.

Lemma last_cons {A} (rs : list A) (r x : A) : last (x :: rs) r = last rs x.
Proof.
  revert r x. induction rs as [|y l IH]; intros r x; [reflexivity|].
  change (last (y :: l) r = last (y :: l) x). now rewrite !IH.
Qed.

Lemma last_In {A} (rs : list A) (r : A) : In (last rs r) (r :: rs).
Proof.
  revert r. induction rs as [|x rs IH]; intros r; [now left|].
  right. rewrite last_cons. apply IH.
Qed.

Lemma calculate_actual_30min_labels (spec : TableSpecData) (df out : DataFrame)
    (tr tr' : trace) :
  calculate_actual_30min spec df tr = (Return out, tr') ->
  exists r, In r (filter (is_actual_30min df) (rows df)) /\ labels out = [fst r].
Proof.
  unfold calculate_actual_30min, bind, lift. intros H.
  destruct (index_of "periodType" (columns df)) as [i|] eqn:Hi;
    [|unfold getattr_column in H; rewrite Hi in H; discriminate].
  destruct (index_of "periodSource" (columns df)) as [j|] eqn:Hj;
    [|unfold getattr_column in H; rewrite Hi, Hj in H; discriminate].
  rewrite (getattr_column_cell_at df _ i Hi), (getattr_column_cell_at df _ j Hj) in H.
  rewrite !map_map in H. unfold iloc_last, loc in H. simpl rows in H.
  rewrite (select_rows_mask_and
             (fun r => eq_str "ACTUAL" (cell_at df "periodType" (snd r)))
             (fun r => eq_str "30MIN" (cell_at df "periodSource" (snd r)))) in H.
  change (filter _ (rows df)) with (filter (is_actual_30min df) (rows df)) in H.
  destruct (filter (is_actual_30min df) (rows df)) as [|r rs] eqn:Hsel;
    [discriminate|].
  simpl in H. injection H as <- _.
  exists (last rs r). split; [apply last_In|].
  unfold labels. simpl. now rewrite last_map.
Qed.

Lemma calculate_actual_5min_labels (spec : TableSpecData) (df out : DataFrame)
    (tr tr' : trace) :
  calculate_actual_5min spec df tr = (Return out, tr') ->
  labels out = map fst (filter (is_actual_5min df) (rows df)).
Proof.
  unfold calculate_actual_5min, bind, lift, ret. intros H.
  destruct (index_of "periodType" (columns df)) as [i|] eqn:Hi;
    [|unfold getattr_column in H; rewrite Hi in H; discriminate].
  destruct (index_of "periodSource" (columns df)) as [j|] eqn:Hj;
    [|unfold getattr_column in H; rewrite Hi, Hj in H; discriminate].
  rewrite (getattr_column_cell_at df _ i Hi), (getattr_column_cell_at df _ j Hj) in H.
  rewrite !map_map in H. injection H as <- _.
  unfold labels, loc. simpl.
  rewrite (select_rows_mask_and
             (fun r => eq_str "ACTUAL" (cell_at df "periodType" (snd r)))
             (fun r => eq_str "5MIN" (cell_at df "periodSource" (snd r)))).
  now rewrite map_map.
Qed.

Lemma calculate_forecast_labels (py_float : scalar -> outcome Z)
    (spec : TableSpecData) (df out : DataFrame) (tr tr' : trace) :
  calculate_forecast py_float spec df tr = (Return out, tr') ->
  exists r more,
    filter (is_forecast df) (rows df) = r :: more /\ labels out = [fst r].
Proof.
  unfold calculate_forecast, bind, lift. intros H.
  destruct (index_of "periodType" (columns df)) as [i|] eqn:Hi;
    [|unfold getattr_column in H; rewrite Hi in H; discriminate].
  rewrite (getattr_column_cell_at df _ i Hi) in H. rewrite map_map in H.
  change (map (fun x => eq_str "FORECAST" (cell_at df "periodType" (snd x))) (rows df))
    with (map (is_forecast df) (rows df)) in H.
  set (of_ := loc df _ _) in H.
  destruct (coerce_price_range py_float of_ tr) as [[of1|e] tr1] eqn:Hco;
    [|discriminate].
  apply coerce_price_range_labels in Hco. unfold of_ in Hco.
  rewrite labels_loc in Hco.
  unfold iloc_first in H. unfold labels in Hco.
  destruct (rows of1) as [|r1 rs1] eqn:Hr; [discriminate|].
  injection H as <- _.
  destruct (filter (is_forecast df) (rows df)) as [|r more]; [discriminate|].
  simpl in Hco. injection Hco as Hfst _.
  exists r, more. split; [reflexivity|]. unfold labels. simpl. now rewrite Hfst.
Qed.

Lemma calculate_forecast_rolling_labels (py_float : scalar -> outcome Z)
    (spec : TableSpecData) (df out : DataFrame) (tr tr' : trace) :
  calculate_forecast_rolling py_float spec df tr = (Return out, tr') ->
  labels out = map fst (filter (is_forecast df) (rows df)).
Proof.
  unfold calculate_forecast_rolling, bind, lift, ret. intros H.
  destruct (index_of "periodType" (columns df)) as [i|] eqn:Hi;
    [|unfold getattr_column in H; rewrite Hi in H; discriminate].
  rewrite (getattr_column_cell_at df _ i Hi) in H. rewrite map_map in H.
  change (map (fun x => eq_str "FORECAST" (cell_at df "periodType" (snd x))) (rows df))
    with (map (is_forecast df) (rows df)) in H.
  set (of_ := loc df _ _) in H.
  destruct (getattr_column of_ "period") as [period|] eqn:Hp; [|discriminate].
  destruct (getattr_column of_ "forecastedAt") as [made|] eqn:Hm; [|discriminate].
  destruct (series_sub period made) as [ds|] eqn:Hds; [|discriminate].
  destruct (map_outcome dt_seconds ds) as [ls|] eqn:Hls; [|discriminate].
  apply getattr_column_length in Hp, Hm.
  apply series_sub_length in Hds; [|congruence].
  apply map_outcome_length in Hls.
  destruct (coerce_price_range py_float _ tr) as [[of2|e] tr2] eqn:Hco;
    [|discriminate].
  injection H as <- _.
  apply coerce_price_range_labels in Hco. rewrite Hco.
  unfold labels. rewrite labels_set_column by congruence.
  apply labels_loc.
Qed.

Lemma selection_exclusive (df : DataFrame) (r : Z * list cell) :
  (is_actual_30min df r && is_actual_5min df r = false)
  /\ (is_actual_30min df r && is_forecast df r = false)
  /\ (is_actual_5min df r && is_forecast df r = false).
Proof.
  unfold is_actual_30min, is_actual_5min, is_forecast, eq_str.
  destruct (cell_at df "periodType" (snd r)) as [|t| | | | | |];
    destruct (cell_at df "periodSource" (snd r)) as [|s| | | | | |];
    simpl; rewrite ?andb_false_r; auto;
    destruct (String.eqb_spec t "ACTUAL") as [->|]; simpl; auto;
    destruct (String.eqb_spec s "30MIN") as [->|]; simpl;
    rewrite ?andb_false_r; auto.
Qed.

Lemma NoDup_labels_inj (rs : list (Z * list cell)) (r r' : Z * list cell) :
  NoDup (map fst rs) -> In r rs -> In r' rs -> fst r = fst r' -> r = r'.
Proof.
  induction rs as [|x rs IH]; intros Hnd Hr Hr' Heq; [contradiction|].
  simpl in Hnd. inversion Hnd as [|? ? Hx Hrest]; subst.
  destruct Hr as [->|Hr], Hr' as [->|Hr']; auto.
  - exfalso. apply Hx. rewrite Heq. now apply in_map.
  - exfalso. apply Hx. rewrite <- Heq. now apply in_map.
Qed.

Lemma selected_twice (df : DataFrame) (p q : Z * list cell -> bool) (l : Z) :
  NoDup (labels df) ->
  In l (map fst (filter p (rows df))) ->
  In l (map fst (filter q (rows df))) ->
  exists r, In r (rows df) /\ fst r = l /\ p r = true /\ q r = true.
Proof.
  intros Hnd Hp Hq.
  apply in_map_iff in Hp as (r & <- & Hr). apply filter_In in Hr as [Hr Hpr].
  apply in_map_iff in Hq as (r' & Heq & Hr'). apply filter_In in Hr' as [Hr' Hqr].
  assert (r' = r) by (apply (NoDup_labels_inj (rows df)); assumption).
  subst. eauto.
Qed.

(** X10.  No raw row reaches two kinds of table.  On a raw dataset whose
    index labels are distinct, the row that the coarse-actual derivation
    returns, the rows that the fine-actual derivation returns and the rows
    that the forecast derivations return carry pairwise different labels;
    and the row of the forecast table is the first row of the rolling
    forecast table. *)
Theorem derived_tables_share_no_row
    (py_float : scalar -> outcome Z) (df : DataFrame) :
  NoDup (labels df) ->
  (forall spec30 spec5 out30 out5 tr30 tr30' tr5 tr5' l,
     calculate_actual_30min spec30 df tr30 = (Return out30, tr30') ->
     calculate_actual_5min spec5 df tr5 = (Return out5, tr5') ->
     In l (labels out30) -> ~ In l (labels out5))
  /\ (forall spec_a spec_f out_a out_f tr_a tr_a' tr_f tr_f' l,
        calculate_actual_30min spec_a df tr_a = (Return out_a, tr_a')
        \/ calculate_actual_5min spec_a df tr_a = (Return out_a, tr_a') ->
        calculate_forecast py_float spec_f df tr_f = (Return out_f, tr_f')
        \/ calculate_forecast_rolling py_float spec_f df tr_f = (Return out_f, tr_f') ->
        In l (labels out_a) -> ~ In l (labels out_f))
  /\ (forall spec_f spec_r out_f out_r tr_f tr_f' tr_r tr_r',
        calculate_forecast py_float spec_f df tr_f = (Return out_f, tr_f') ->
        calculate_forecast_rolling py_float spec_r df tr_r = (Return out_r, tr_r') ->
        labels out_f = firstn 1 (labels out_r)).
Proof.
  intros Hnd. split; [|split].
  - intros spec30 spec5 out30 out5 tr30 tr30' tr5 tr5' l H30 H5 Hl Hl'.
    apply calculate_actual_30min_labels in H30 as (r & Hr & H30).
    apply calculate_actual_5min_labels in H5.
    rewrite H30 in Hl. rewrite H5 in Hl'. destruct Hl as [<-|[]].
    assert (Hin : In (fst r) (map fst (filter (is_actual_30min df) (rows df))))
      by now apply in_map.
    destruct (selected_twice df _ _ _ Hnd Hin Hl') as (x & _ & _ & Hp & Hq).
    destruct (selection_exclusive df x) as (Hex & _). rewrite Hp, Hq in Hex.
    discriminate.
  - intros spec_a spec_f out_a out_f tr_a tr_a' tr_f tr_f' l Ha Hf Hl Hl'.
    assert (Hfl : In l (map fst (filter (is_forecast df) (rows df)))).
    { destruct Hf as [Hf|Hf].
      - apply calculate_forecast_labels in Hf as (r & more & Hsel & Hf).
        rewrite Hf in Hl'. destruct Hl' as [<-|[]]. rewrite Hsel. now left.
      - apply calculate_forecast_rolling_labels in Hf. now rewrite <- Hf. }
    destruct Ha as [Ha|Ha].
    + apply calculate_actual_30min_labels in Ha as (r & Hr & Ha).
      rewrite Ha in Hl. destruct Hl as [<-|[]].
      assert (Hin : In (fst r) (map fst (filter (is_actual_30min df) (rows df))))
        by now apply in_map.
      destruct (selected_twice df _ _ _ Hnd Hin Hfl) as (x & _ & _ & Hp & Hq).
      destruct (selection_exclusive df x) as (_ & Hex & _). rewrite Hp, Hq in Hex.
      discriminate.
    + apply calculate_actual_5min_labels in Ha. rewrite Ha in Hl.
      destruct (selected_twice df _ _ _ Hnd Hl Hfl) as (x & _ & _ & Hp & Hq).
      destruct (selection_exclusive df x) as (_ & _ & Hex). rewrite Hp, Hq in Hex.
      discriminate.
  - intros spec_f spec_r out_f out_r tr_f tr_f' tr_r tr_r' Hf Hr.
    apply calculate_forecast_labels in Hf as (r & more & Hsel & Hf).
    apply calculate_forecast_rolling_labels in Hr.
    rewrite Hf, Hr, Hsel. reflexivity.
Qed.

Lemma derived_tables_share_no_row_witness :
  NoDup (labels cycle_timeseries)
  /\ ~ In 0%Z (labels {| columns := ["event_time"; "period"; "region"];
                         rows := [(1%Z, [VTime 5; VTime 2000; VStr "VIC"]);
                                  (2%Z, [VTime 5; VTime 3000; VStr "VIC"])] |}).
Proof.
  assert (Hnd : NoDup (labels cycle_timeseries))
    by (repeat constructor; simpl; intuition discriminate).
  split; [exact Hnd|].
  apply (proj1 (derived_tables_share_no_row float_of_number cycle_timeseries Hnd)
           (spec_data actual_30min_spec) (spec_data actual_5min_spec)
           {| columns := ["event_time"; "period"; "region"];
              rows := [(0%Z, [VTime 5; VTime 1000; VStr "VIC"])] |}
           {| columns := ["event_time"; "period"; "region"];
              rows := [(1%Z, [VTime 5; VTime 2000; VStr "VIC"]);
                       (2%Z, [VTime 5; VTime 3000; VStr "VIC"])] |}
           [] [] [] [] 0%Z eq_refl eq_refl).
  left. reflexivity.
Defined.

(** ** MqttConsumer.consume: the table loop *)

Lemma mqtt_loop_returns (ts : DataFrame) (client : MqttClient)
    (topic_template : string) (specs : list TableSpec) :
  forall tr, exists tr',
    mqtt_loop ts client topic_template specs tr = (Return tt, tr').
Proof.
  induction specs as [|spec rest IH]; intros tr; simpl; [unfold ret; eauto|].
  unfold bind at 1.
  destruct (do_calculate_returns spec ts tr) as (r & tr1 & ->).
  destruct r as [df|].
  - destruct (empty df); [unfold bind, log_info, emit; apply IH|].
    destruct (1 <? len df)%nat; [unfold bind, log_info, emit; apply IH|].
    unfold bind at 1, try_except.
    destruct (mqtt_publish_row client topic_template spec df tr1) as [[u|e] tr2].
    + apply IH.
    + unfold log_exception, emit. apply IH.
  - unfold bind, log_info, emit. apply IH.
Qed.

(** X11.  The table loop of [MqttConsumer.consume] goes on with the
    remaining tables whatever happens to one of them: after each table the
    loop continues with the tables that follow.  In particular, when the
    encoder raises, nothing is published, the exception is logged and the
    loop continues; when the client refuses the message, the exception is
    logged after the attempt and the loop continues.  The loop over the whole
    registry therefore ends, and [consume] returns 0. *)
Theorem consume_goes_through_every_table
    (registry : list TableSpec) (ts : DataFrame) (client : MqttClient)
    (topic_template : string) :
  (forall spec tr,
     exists tr1,
       forall rest,
         mqtt_loop ts client topic_template (spec :: rest) tr
         = mqtt_loop ts client topic_template rest tr1)
  /\ (forall spec rest tr df tr1 d e,
        do_calculate spec ts tr = (Return (Some df), tr1) ->
        empty df = false -> len df <= 1 ->
        squeeze_dropna_to_dict df = Return d ->
        enc_encode client d = Raise e ->
        mqtt_loop ts client topic_template (spec :: rest) tr
        = mqtt_loop ts client topic_template rest
            (List.app tr1
               [LogException "mqtt actual_5min publish failed" [] e]))
  /\ (forall spec rest tr df tr1 d msg topic e,
        do_calculate spec ts tr = (Return (Some df), tr1) ->
        empty df = false -> len df <= 1 ->
        squeeze_dropna_to_dict df = Return d ->
        enc_encode client d = Return msg ->
        py_format topic_template [("series", table_name (spec_data spec))]
        = Return topic ->
        client_publish client tr1 topic msg = Raise e ->
        mqtt_loop ts client topic_template (spec :: rest) tr
        = mqtt_loop ts client topic_template rest
            (List.app tr1
               [Publish topic msg;
                LogException "mqtt actual_5min publish failed" [] e]))
  /\ (forall tr,
        exists tr',
          consume registry ts client topic_template tr = (Return 0%Z, tr')).
Proof.
  split; [|split; [|split]].
  - intros spec tr.
    destruct (do_calculate_returns spec ts tr) as (r & tr1 & Hdo).
    destruct r as [df|].
    + destruct (empty df) eqn:Hempty;
        [|destruct (1 <? len df)%nat eqn:Hlen;
          [|destruct (mqtt_publish_row client topic_template spec df tr1)
              as [[u|e] tr2] eqn:Hpub]];
        eexists; intros rest; simpl; unfold bind at 1; rewrite Hdo, Hempty;
        try rewrite Hlen;
        unfold bind at 1, try_except; try rewrite Hpub;
        unfold log_info, log_exception, emit; reflexivity.
    + eexists. intros rest. simpl. unfold bind at 1. rewrite Hdo.
      unfold bind, log_info, emit. reflexivity.
  - intros spec rest tr df tr1 d e Hdo Hempty Hlen Hd Henc.
    apply Nat.ltb_ge in Hlen.
    simpl. unfold bind at 1. rewrite Hdo, Hempty, Hlen.
    unfold bind at 1, try_except, mqtt_publish_row, bind, lift.
    rewrite Hd, Henc. unfold log_exception, emit. reflexivity.
  - intros spec rest tr df tr1 d msg topic e Hdo Hempty Hlen Hd Henc Htopic Hpub.
    apply Nat.ltb_ge in Hlen.
    simpl. unfold bind at 1. rewrite Hdo, Hempty, Hlen.
    unfold bind at 1, try_except, mqtt_publish_row, bind, lift.
    rewrite Hd, Henc. unfold name_of. rewrite Htopic. unfold publish.
    rewrite Hpub. unfold log_exception, emit.
    rewrite <- app_assoc. reflexivity.
  - intros tr. unfold consume, bind.
    destruct (mqtt_loop_returns ts client topic_template registry tr) as (tr' & ->).
    unfold ret. eauto.
Qed.

Lemma consume_goes_through_every_table_witness :
  mqtt_loop cycle_timeseries unserializable_client "amber/{series}"
    [actual_30min_spec; actual_30min_spec] []
  = (Return tt,
     [LogException "mqtt actual_5min publish failed" []
        (TypeError "Object is not JSON serializable");
      LogException "mqtt actual_5min publish failed" []
        (TypeError "Object is not JSON serializable")]).
Proof.
  rewrite (proj1 (proj2 (consume_goes_through_every_table
                           [] cycle_timeseries unserializable_client
                           "amber/{series}"))
             actual_30min_spec [actual_30min_spec] []
             {| columns := ["event_time"; "period"; "region"];
                rows := [(0%Z, [VTime 5; VTime 1000; VStr "VIC"])] |}
             []
             [(LStr "event_time", OCell (VTime 5));
              (LStr "period", OCell (VTime 1000));
              (LStr "region", OCell (VStr "VIC"))]
             (TypeError "Object is not JSON serializable"));
    [reflexivity|reflexivity|reflexivity|vm_compute; lia|reflexivity|reflexivity].
Defined.

(** ** PostgresConsumer.write: the table loop *)

(** X12.  In the branch for several rows a unique violation raised by
    [executemany] is swallowed: a warning is logged and the loop goes on with
    the remaining tables. *)
Theorem write_loop_batch_unique_violation
    (ts : DataFrame) (conn : Connection) (spec : TableSpec)
    (rest : list TableSpec) (ins_sql : option string)
    (df : DataFrame) (tr tr1 : trace) :
  do_calculate spec ts tr = (Return (Some df), tr1) ->
  empty df = false ->
  1 < len df ->
  conn_executemany conn (before_executemany spec df tr1)
    (batch_sql spec df) (batch_args df) = Raise UniqueViolationError ->
  write_loop ts conn (spec :: rest) ins_sql tr
  = write_loop ts conn rest (Some (batch_sql spec df))
      (List.app (before_executemany spec df tr1)
         [ExecuteMany (batch_sql spec df) (batch_args df);
          Log WARNING "unique violation - could be a restart so continuing" []]).
Proof.
  intros Hdo Hne Hlen Hexec.
  apply Nat.ltb_lt in Hlen.
  simpl. unfold bind at 1, try_except, write_table. unfold bind at 1.
  rewrite Hdo, Hne.
  unfold print, log_info, log_debug, log_exception, emit, bind, ret, raise.
  rewrite Hlen. unfold write_batch, executemany, try_except, bind.
  unfold print, log_info, log_debug, log_warning, emit, bind, ret, raise.
  unfold before_executemany, batch_sql, batch_args in Hexec.
  rewrite <- !app_assoc in *. simpl List.app in *.
  rewrite Hexec. change (is_unique_violation UniqueViolationError) with true.
  cbv beta iota. unfold before_executemany, batch_sql, batch_args.
  rewrite <- !app_assoc. reflexivity.
Qed.

Lemma write_loop_batch_unique_violation_witness :
  let df := {| columns := ["event_time"; "period"; "region"];
               rows := [(1%Z, [VTime 5; VTime 2000; VStr "VIC"]);
                        (2%Z, [VTime 5; VTime 3000; VStr "VIC"])] |} in
  write_loop cycle_timeseries already_stored [actual_5min_spec] None []
  = write_loop cycle_timeseries already_stored []
      (Some (batch_sql actual_5min_spec df))
      (List.app (before_executemany actual_5min_spec df [])
         [ExecuteMany (batch_sql actual_5min_spec df) (batch_args df);
          Log WARNING "unique violation - could be a restart so continuing" []]).
Proof.
  intros df.
  apply (write_loop_batch_unique_violation cycle_timeseries already_stored
           actual_5min_spec [] None df [] []);
    [reflexivity|reflexivity|vm_compute; lia|reflexivity].
Defined.

(** X13.  In the single-row branch a unique violation raised by [execute]
    is swallowed: a warning is logged, the table is reported as written and
    the loop goes on with the remaining tables. *)
Theorem write_loop_single_unique_violation
    (ts : DataFrame) (conn : Connection) (spec : TableSpec)
    (rest : list TableSpec) (ins_sql : option string)
    (df : DataFrame) (data : pydict) (fields : list string)
    (tr tr1 : trace) :
  do_calculate spec ts tr = (Return (Some df), tr1) ->
  empty df = false ->
  len df <= 1 ->
  dropna_squeeze_to_dict df = Return data ->
  str_keys (map fst data) = Return fields ->
  conn_execute conn (before_execute spec df tr1)
    (compose_insert fields (name_of spec) None) (map snd data)
  = Raise UniqueViolationError ->
  write_loop ts conn (spec :: rest) ins_sql tr
  = write_loop ts conn rest (Some (compose_insert fields (name_of spec) None))
      (List.app (before_execute spec df tr1)
         [Execute (compose_insert fields (name_of spec) None) (map snd data);
          Log WARNING "unique violation - could be a fast restart so continuing" [];
          Log INFO "PostgresWriter: %s written" [name_of spec]]).
Proof.
  intros Hdo Hne Hlen Hdata Hkeys Hexec.
  assert (Hltb : (1 <? len df)%nat = false) by (apply Nat.ltb_ge; exact Hlen).
  simpl. unfold bind at 1, try_except, write_table. unfold bind at 1.
  rewrite Hdo, Hne.
  unfold print, log_info, log_debug, log_exception, emit, bind, ret, raise.
  rewrite Hltb. unfold write_single_row. rewrite Hdata, Hkeys.
  unfold execute, try_except, single_row_handler, bind.
  unfold print, log_info, log_debug, log_warning, log_exception, emit, bind, ret, raise.
  unfold before_execute in Hexec.
  rewrite <- !app_assoc in *. simpl List.app in *.
  rewrite Hexec. change (is_unique_violation UniqueViolationError) with true.
  cbv beta iota. unfold before_execute.
  rewrite <- !app_assoc. reflexivity.
Qed.

Lemma write_loop_single_unique_violation_witness :
  let df := {| columns := ["event_time"; "period"; "region"];
               rows := [(0%Z, [VTime 5; VTime 1000; VStr "VIC"])] |} in
  let fields := ["event_time"; "period"; "region"] in
  let sql := compose_insert fields "amber_actual_30min" None in
  write_loop cycle_timeseries already_stored [actual_30min_spec] None []
  = write_loop cycle_timeseries already_stored [] (Some sql)
      (List.app (before_execute actual_30min_spec df [])
         [Execute sql [OCell (VTime 5); OCell (VTime 1000); OCell (VStr "VIC")];
          Log WARNING "unique violation - could be a fast restart so continuing" [];
          Log INFO "PostgresWriter: %s written" ["amber_actual_30min"]]).
Proof.
  intros df fields sql.
  apply (write_loop_single_unique_violation cycle_timeseries already_stored
           actual_30min_spec [] None df
           [(LStr "event_time", OCell (VTime 5));
            (LStr "period", OCell (VTime 1000));
            (LStr "region", OCell (VStr "VIC"))]
           fields [] []);
    [reflexivity|reflexivity|vm_compute; lia|reflexivity|reflexivity|reflexivity].
Defined.

Lemma map_fst_combine {A B} (l : list A) (l' : list B) :
  length l = length l' -> map fst (combine l l') = l.
Proof.
  revert l'. induction l as [|x l IH]; intros [|y l'] H; simpl in *;
    try discriminate; [reflexivity|]. f_equal. apply IH. lia.
Qed.

Lemma map_snd_combine {A B} (l : list A) (l' : list B) :
  length l = length l' -> map snd (combine l l') = l'.
Proof.
  revert l'. induction l as [|x l IH]; intros [|y l'] H; simpl in *;
    try discriminate; [reflexivity|]. f_equal. apply IH. lia.
Qed.

Lemma batch_sql_rectangular (spec : TableSpec) (df : DataFrame) :
  rectangular df -> 1 < len df ->
  batch_sql spec df = compose_insert (columns df) (name_of spec) None.
Proof.
  unfold rectangular, batch_sql, to_dict_records, len. intros Hrect Hlen.
  destruct (rows df) as [|r rs]; simpl in Hlen; [lia|].
  inversion Hrect as [|? ? Hr _]; subst. simpl.
  now rewrite map_fst_combine by (symmetry; exact Hr).
Qed.

Lemma batch_args_rectangular (df : DataFrame) :
  rectangular df -> batch_args df = map snd (rows df).
Proof.
  unfold rectangular, batch_args, to_dict_records. intros Hrect.
  rewrite map_map. apply map_ext_in. intros r Hr.
  apply map_snd_combine. symmetry.
  exact (proj1 (Forall_forall _ _) Hrect r Hr).
Qed.

(** X14.  When a table's derivation yields a frame of several rows with one
    cell per column in each row, [PostgresConsumer.write] sends a single
    [executemany] whose statement lists the columns of the frame in order and
    whose argument rows are the rows of the frame, cell by cell in the same
    order: every argument row has exactly as many values as the statement has
    placeholders.  When the sink accepts it, the loop goes on with the
    remaining tables. *)
Theorem write_loop_batch_positional
    (ts : DataFrame) (conn : Connection) (spec : TableSpec)
    (rest : list TableSpec) (ins_sql : option string)
    (df : DataFrame) (tr tr1 : trace) :
  do_calculate spec ts tr = (Return (Some df), tr1) ->
  rectangular df ->
  empty df = false ->
  1 < len df ->
  conn_executemany conn (before_executemany spec df tr1)
    (compose_insert (columns df) (name_of spec) None) (map snd (rows df))
  = Return tt ->
  write_loop ts conn (spec :: rest) ins_sql tr
  = write_loop ts conn rest
      (Some (compose_insert (columns df) (name_of spec) None))
      (List.app (before_executemany spec df tr1)
         [ExecuteMany (compose_insert (columns df) (name_of spec) None)
            (map snd (rows df))])
  /\ Forall (fun args => length args = length (insert_placeholders (columns df)))
            (map snd (rows df)).
Proof.
  intros Hdo Hrect Hne Hlen Hexec. split.
  - pose proof (batch_sql_rectangular spec df Hrect Hlen) as Hsql.
    pose proof (batch_args_rectangular df Hrect) as Hargs.
    apply Nat.ltb_lt in Hlen.
    simpl. unfold bind at 1, try_except, write_table. unfold bind at 1.
    rewrite Hdo, Hne.
    unfold print, log_info, log_debug, log_exception, emit, bind, ret, raise.
    rewrite Hlen. unfold write_batch, executemany, try_except, bind.
    unfold print, log_info, log_debug, log_warning, emit, bind, ret, raise.
    unfold batch_sql in Hsql. unfold batch_args in Hargs.
    rewrite Hsql, Hargs.
    unfold before_executemany in Hexec.
    rewrite <- !app_assoc in *. simpl List.app in *.
    rewrite Hexec. unfold before_executemany.
    rewrite <- !app_assoc. reflexivity.
  - rewrite insert_placeholders_length. apply Forall_map.
    exact Hrect.
Qed.

Lemma write_loop_batch_positional_witness :
  let df := {| columns := ["event_time"; "period"; "region"];
               rows := [(1%Z, [VTime 5; VTime 2000; VStr "VIC"]);
                        (2%Z, [VTime 5; VTime 3000; VStr "VIC"])] |} in
  let sql := compose_insert (columns df) "amber_actual_5min" None in
  write_loop cycle_timeseries accepting [actual_5min_spec] None []
  = write_loop cycle_timeseries accepting [] (Some sql)
      (List.app (before_executemany actual_5min_spec df [])
         [ExecuteMany sql [[VTime 5; VTime 2000; VStr "VIC"];
                           [VTime 5; VTime 3000; VStr "VIC"]]])
  /\ Forall (fun args => length args = length (insert_placeholders (columns df)))
            [[VTime 5; VTime 2000; VStr "VIC"]; [VTime 5; VTime 3000; VStr "VIC"]].
Proof.
  intros df sql.
  apply (write_loop_batch_positional cycle_timeseries accepting
           actual_5min_spec [] None df [] []);
    [reflexivity|repeat constructor|reflexivity|vm_compute; lia|reflexivity].
Defined.

Lemma str_keys_LStr (cols : list string) : str_keys (map LStr cols) = Return cols.
Proof.
  induction cols as [|c cols IH]; simpl; [reflexivity|]. now rewrite IH.
Qed.

Lemma row_mapping_full (df : DataFrame) (r : Z * list cell) :
  existsb is_na (snd r) = false ->
  length (snd r) = length (columns df) ->
  map fst (row_mapping df r) = map LStr (columns df)
  /\ map snd (row_mapping df r) = map OCell (snd r).
Proof.
  intros Hna Hlen. unfold row_mapping. rewrite filter_no_na by exact Hna.
  rewrite !map_map. simpl. split.
  - rewrite <- (map_map fst LStr). now rewrite map_fst_combine.
  - rewrite <- (map_map snd OCell). now rewrite map_snd_combine.
Qed.

(** X15.  When a table's derivation yields a single row of two or more
    columns with no missing value, [PostgresConsumer.write] sends one
    [execute] whose statement lists the columns of the frame in order and
    whose arguments are the cells of the row in the same order, as many as
    the statement has placeholders.  When the sink accepts it, the table is
    reported as written and the loop goes on with the remaining tables. *)
Theorem write_loop_single_positional
    (ts : DataFrame) (conn : Connection) (spec : TableSpec)
    (rest : list TableSpec) (ins_sql : option string)
    (df : DataFrame) (r : Z * list cell) (tr tr1 : trace) :
  do_calculate spec ts tr = (Return (Some df), tr1) ->
  rows df = [r] ->
  2 <= length (columns df) ->
  length (snd r) = length (columns df) ->
  existsb is_na (snd r) = false ->
  conn_execute conn (before_execute spec df tr1)
    (compose_insert (columns df) (name_of spec) None) (map OCell (snd r))
  = Return tt ->
  write_loop ts conn (spec :: rest) ins_sql tr
  = write_loop ts conn rest
      (Some (compose_insert (columns df) (name_of spec) None))
      (List.app (before_execute spec df tr1)
         [Execute (compose_insert (columns df) (name_of spec) None)
            (map OCell (snd r));
          Log INFO "PostgresWriter: %s written" [name_of spec]])
  /\ length (map OCell (snd r)) = length (insert_placeholders (columns df)).
Proof.
  intros Hdo Hrows Hcols Hlen Hna Hexec. split.
  - pose proof (dropna_squeeze_to_dict_full_row df r Hrows Hcols Hna) as Hdata.
    destruct (row_mapping_full df r Hna Hlen) as [Hkeys Hvals].
    assert (Hne : empty df = false).
    { unfold empty. rewrite Hrows.
      destruct (columns df); simpl in *; [lia|reflexivity]. }
    assert (Hltb : (1 <? len df)%nat = false)
      by (unfold len; now rewrite Hrows).
    simpl. unfold bind at 1, try_except, write_table. unfold bind at 1.
    rewrite Hdo, Hne.
    unfold print, log_info, log_debug, log_exception, emit, bind, ret, raise.
    rewrite Hltb. unfold write_single_row. rewrite Hdata, Hkeys, str_keys_LStr.
    rewrite Hvals.
    unfold execute, try_except, single_row_handler, bind.
    unfold print, log_info, log_debug, log_warning, log_exception, emit, bind,
      ret, raise.
    unfold before_execute in Hexec.
    rewrite <- !app_assoc in *. simpl List.app in *.
    rewrite Hexec. unfold before_execute.
    rewrite <- !app_assoc. reflexivity.
  - now rewrite length_map, insert_placeholders_length.
Qed.

Lemma write_loop_single_positional_witness :
  let df := {| columns := ["event_time"; "period"; "region"];
               rows := [(0%Z, [VTime 5; VTime 1000; VStr "VIC"])] |} in
  let sql := compose_insert (columns df) "amber_actual_30min" None in
  write_loop cycle_timeseries accepting [actual_30min_spec] None []
  = write_loop cycle_timeseries accepting [] (Some sql)
      (List.app (before_execute actual_30min_spec df [])
         [Execute sql [OCell (VTime 5); OCell (VTime 1000); OCell (VStr "VIC")];
          Log INFO "PostgresWriter: %s written" ["amber_actual_30min"]])
  /\ length [OCell (VTime 5); OCell (VTime 1000); OCell (VStr "VIC")]
     = length (insert_placeholders (columns df)).
Proof.
  intros df sql.
  apply (write_loop_single_positional cycle_timeseries accepting
           actual_30min_spec [] None df
           (0%Z, [VTime 5; VTime 1000; VStr "VIC"]) [] []);
    [reflexivity|reflexivity|vm_compute; lia|reflexivity|reflexivity|reflexivity].
Defined.

(** ** PostgresConsumer.create_tables *)

Lemma templates_format_Forall2 (kw : kwargs) (templates : list string) :
  forallb (fun template =>
             match py_format template kw with
             | Return _ => true
             | Raise _ => false
             end) templates = true ->
  exists subs, Forall2 (fun x s => py_format x kw = Return s) templates subs.
Proof.
  induction templates as [|x l IH]; simpl; intros H.
  - exists []. constructor.
  - apply andb_true_iff in H as [Hx Hl]. destruct (IH Hl) as (subs & Hsubs).
    destruct (py_format x kw) as [s|e] eqn:E; [|discriminate].
    exists (s :: subs). now constructor.
Qed.

Lemma spec_create_sql_returns (spec : TableSpec) :
  templates_format spec = true ->
  exists sql, forall tr, spec_create_sql spec tr = (Return sql, tr).
Proof.
  intros H. apply templates_format_Forall2 in H as (subs & Hsubs).
  eexists. intros tr. unfold spec_create_sql.
  apply (compose_create_ok _ _ _ _ subs tr Hsubs).
Qed.

Lemma statements_sent_app (tr tr' : trace) :
  statements_sent (List.app tr tr')
  = List.app (statements_sent tr) (statements_sent tr').
Proof. unfold statements_sent. apply flat_map_app. Qed.

Lemma statements_sent_creation_trace (conn : Connection)
    (tables : list (string * string)) :
  forall tr,
    statements_sent (creation_trace conn tables tr)
    = List.app (statements_sent tr) (map snd tables).
Proof.
  induction tables as [|[name ddl] rest IH]; intros tr; simpl.
  - now rewrite app_nil_r.
  - destruct (conn_execute conn _ ddl []); rewrite IH, !statements_sent_app;
      simpl; rewrite ?app_nil_r, <- !app_assoc; reflexivity.
Qed.

Lemma map_snd_named (specs : list TableSpec) (ddl : list string) :
  length specs = length ddl -> map snd (named specs ddl) = ddl.
Proof.
  intros H. unfold named. apply map_snd_combine. now rewrite length_map.
Qed.

(** The tables whose templates format are gone through one by one, and
    [create_tables] goes on with those that follow. *)
Lemma create_tables_app (conn : Connection) (created : list TableSpec)
    (ddl : list string) (more : list TableSpec) :
  Forall2 (fun spec sql => forall tr, spec_create_sql spec tr = (Return sql, tr))
          created ddl ->
  forall tr,
    create_tables conn (List.app created more) tr
    = create_tables conn more (creation_trace conn (named created ddl) tr).
Proof.
  induction 1 as [|spec sql created ddl Hsql _ IH]; intros tr; [reflexivity|].
  simpl. unfold bind at 1. fold (spec_create_sql spec). rewrite Hsql.
  unfold bind at 1, try_except, bind, log_debug, emit, execute.
  unfold name_of, line_break, Py.newline.
  destruct (conn_execute conn _ sql []) as [u|e]; [|unfold log_exception, emit];
    rewrite IH, <- ?app_assoc; reflexivity.
Qed.

Lemma templates_format_ddl (specs : list TableSpec) :
  forallb templates_format specs = true ->
  exists ddl,
    Forall2 (fun spec sql => forall tr, spec_create_sql spec tr = (Return sql, tr))
            specs ddl.
Proof.
  induction specs as [|spec rest IH]; simpl; intros H.
  - exists []. constructor.
  - apply andb_true_iff in H as [Hspec Hrest].
    destruct (IH Hrest) as (ddl & Hddl).
    destruct (spec_create_sql_returns spec Hspec) as (sql & Hsql).
    exists (sql :: ddl). now constructor.
Qed.

(** X16.  When the post-create templates of every table format (as those of
    the registry do), [create_tables] never raises, whatever the sink
    answers.  For each table in registry order it logs the debug record and
    sends the DDL that [compose_create] gives for the table; when the sink
    refuses the statement the exception is logged with the statement, and
    the following tables are created all the same.  The statements sent are
    the DDL of every table, once and in registry order. *)
Theorem create_tables_best_effort (specs : list TableSpec) :
  forallb templates_format specs = true ->
  exists ddl,
    Forall2 (fun spec sql => forall tr, spec_create_sql spec tr = (Return sql, tr))
            specs ddl
    /\ forall conn tr,
         create_tables conn specs tr
         = (Return tt, creation_trace conn (named specs ddl) tr)
         /\ statements_sent (creation_trace conn (named specs ddl) tr)
            = List.app (statements_sent tr) ddl.
Proof.
  intros Hformat. destruct (templates_format_ddl specs Hformat) as (ddl & Hddl).
  exists ddl. split; [exact Hddl|]. intros conn tr. split.
  - rewrite <- (app_nil_r specs) at 1.
    rewrite (create_tables_app conn specs ddl [] Hddl). reflexivity.
  - rewrite statements_sent_creation_trace, map_snd_named; [reflexivity|].
    exact (Forall2_length_eq _ _ _ Hddl).
Qed.

Lemma create_tables_best_effort_witness :
  exists ddl,
    Forall2 (fun spec sql => forall tr, spec_create_sql spec tr = (Return sql, tr))
            (table_specs float_of_number) ddl
    /\ forall conn tr,
         create_tables conn (table_specs float_of_number) tr
         = (Return tt,
            creation_trace conn (named (table_specs float_of_number) ddl) tr)
         /\ statements_sent
              (creation_trace conn (named (table_specs float_of_number) ddl) tr)
            = List.app (statements_sent tr) ddl.
Proof.
  apply (create_tables_best_effort (table_specs float_of_number)).
  vm_compute. reflexivity.
Defined.

(** X17.  A post-create template that refers to an identifier other than
    [table_name] and [primary_key] is not covered by the best effort of
    [create_tables]: [compose_create] is called outside the [try], so at the
    first table with such a template [create_tables] raises [KeyError] with
    that name, after the template has been printed.  The tables before it
    have been created; the table itself and all the following ones are
    not. *)
Theorem create_tables_template_error
    (created : list TableSpec) (spec : TableSpec) (rest : list TableSpec)
    (formatted : list (list piece)) (before : list piece) (k tail : string)
    (later : list string) :
  forallb templates_format created = true ->
  extra_sql (spec_data spec)
  = Some (List.app (map template_text formatted)
            ((template_text before ++ "{" ++ k ++ "}" ++ tail) :: later)) ->
  forallb known formatted = true ->
  known before = true ->
  is_identifier k = true ->
  k <> "table_name" -> k <> "primary_key" ->
  exists ddl,
    Forall2 (fun spec sql => forall tr, spec_create_sql spec tr = (Return sql, tr))
            created ddl
    /\ forall conn tr,
         create_tables conn (List.app created (spec :: rest)) tr
         = (Raise (KeyError k),
            List.app (creation_trace conn (named created ddl) tr)
              [Stdout (printed_template
                         (template_text before ++ "{" ++ k ++ "}" ++ tail)
                         (table_name (spec_data spec))
                         (primary_key (spec_data spec)))])
         /\ statements_sent (creation_trace conn (named created ddl) tr)
            = List.app (statements_sent tr) ddl.
Proof.
  intros Hcreated Hextra Hformatted Hbefore Hk Ht Hp.
  destruct (templates_format_ddl created Hcreated) as (ddl & Hddl).
  exists ddl. split; [exact Hddl|]. intros conn tr. split.
  - rewrite (create_tables_app conn created ddl (spec :: rest) Hddl).
    simpl. unfold bind at 1. rewrite Hextra.
    rewrite (compose_create_first_failure (table_name (spec_data spec))
               (field_map (spec_data spec)) (primary_key (spec_data spec))
               (map template_text formatted)
               (template_text before ++ "{" ++ k ++ "}" ++ tail) later
               (KeyError k)).
    + reflexivity.
    + clear Hextra. induction formatted as [|t l IH]; simpl in *; constructor.
      * apply andb_true_iff in Hformatted as [Hknown _].
        eexists. now apply py_format_known_template.
      * apply andb_true_iff in Hformatted as [_ Hl]. now apply IH.
    + now apply py_format_unknown_reference.
  - rewrite statements_sent_creation_trace, map_snd_named; [reflexivity|].
    exact (Forall2_length_eq _ _ _ Hddl).
Qed.

Lemma create_tables_template_error_witness :
  exists ddl,
    Forall2 (fun spec sql => forall tr, spec_create_sql spec tr = (Return sql, tr))
            [actual_30min_spec] ddl
    /\ forall conn tr,
         create_tables conn
           [actual_30min_spec; spec_with_unknown_field; actual_5min_spec] tr
         = (Raise (KeyError "role"),
            List.app (creation_trace conn (named [actual_30min_spec] ddl) tr)
              [Stdout (printed_template "GRANT SELECT ON {table_name} TO {role};"
                         "amber_region" None)])
         /\ statements_sent (creation_trace conn (named [actual_30min_spec] ddl) tr)
            = List.app (statements_sent tr) ddl.
Proof.
  apply (create_tables_template_error [actual_30min_spec]
           spec_with_unknown_field [actual_5min_spec] []
           [Lit "GRANT SELECT ON "; Ref "table_name"; Lit " TO "] "role"
           ";" []);
    try reflexivity; discriminate.
Defined.

(** ** The cycle timestamp *)

Lemma map_constant {A B} (f : A -> B) (l : list A) (b : B) :
  (forall x, In x l -> f x = b) -> map f l = repeat b (length l).
Proof.
  induction l as [|x l IH]; intros H; simpl; [reflexivity|].
  rewrite (H x) by now left. f_equal. apply IH. intros y Hy. apply H. now right.
Qed.

Lemma repeat_map_inv {A B} (f : A -> B) (l : list A) (b : B) (n : nat) :
  map f l = repeat b n -> forall x, In x l -> f x = b.
Proof.
  revert n. induction l as [|y l IH]; intros [|n] H x Hx; simpl in *;
    try discriminate; try contradiction.
  injection H as Hy Hl. destruct Hx as [<-|Hx]; [exact Hy|]. now apply (IH n).
Qed.

Lemma stamp_event_time_cells (ts : DataFrame) (t : cell) :
  rectangular ts ->
  forall r, In r (rows (stamp_event_time ts t)) ->
            cell_at (stamp_event_time ts t) TIME_FIELD (snd r) = t.
Proof.
  intros Hrect.
  assert (Hget : getattr_column (stamp_event_time ts t) TIME_FIELD
                 = Return (repeat t (len ts))).
  { unfold stamp_event_time. apply getattr_column_set_same; [exact Hrect|].
    apply repeat_length. }
  destruct (index_of TIME_FIELD (columns (stamp_event_time ts t))) as [i|] eqn:Hi;
    [|unfold getattr_column in Hget; rewrite Hi in Hget; discriminate].
  rewrite (getattr_column_cell_at _ _ i Hi) in Hget. injection Hget as Hget.
  intros r Hr.
  exact (repeat_map_inv (fun r => cell_at (stamp_event_time ts t) TIME_FIELD (snd r))
           _ t _ Hget r Hr).
Qed.

(** X18.  Stamping the raw dataset with the cycle timestamp fills the
    [event_time] column of every row, keeps the rows and their labels, and
    leaves every other column as it was; and the fine-actual derivation of a
    spec that keeps [event_time] hands the stamp on: every row it returns from
    the stamped dataset carries the cycle timestamp in [event_time]. *)
Theorem event_time_is_cycle_timestamp
    (spec : TableSpecData) (ts : DataFrame) (t : cell) (tr : trace) :
  rectangular ts ->
  In "periodType" (columns ts) ->
  In "periodSource" (columns ts) ->
  In TIME_FIELD (get_column_names (field_map spec)) ->
  let stamped := stamp_event_time ts t in
  getattr_column stamped TIME_FIELD = Return (repeat t (len ts))
  /\ map fst (rows stamped) = map fst (rows ts)
  /\ (forall c, c <> TIME_FIELD ->
                getattr_column stamped c = getattr_column ts c)
  /\ exists out,
       calculate_actual_5min spec stamped tr = (Return out, tr)
       /\ getattr_column out TIME_FIELD = Return (repeat t (len out)).
Proof.
  intros Hrect Htype Hsource Hkept stamped.
  assert (Hlen : length (repeat t (len ts)) = length (rows ts))
    by apply repeat_length.
  split; [now apply getattr_column_set_same|].
  split; [now apply labels_set_column|].
  split; [intros c Hc; now apply getattr_column_set_other|].
  assert (Hcols : forall c, In c (columns ts) \/ c = TIME_FIELD ->
                            In c (columns stamped)).
  { intros c Hc. unfold stamped, stamp_event_time. rewrite columns_set_column.
    destruct (mem TIME_FIELD (columns ts)) eqn:Hm.
    - destruct Hc as [Hc| ->]; [exact Hc|now apply mem_In].
    - apply in_or_app. destruct Hc as [Hc| ->]; [now left|right; now left]. }
  pose proof (calculate_actual_5min_selects spec stamped tr
                (Hcols _ (or_introl Htype)) (Hcols _ (or_introl Hsource))) as Hout.
  eexists. split; [exact Hout|].
  set (cols := intersection (columns stamped) (get_column_names (field_map spec))).
  assert (Hin : In TIME_FIELD cols)
    by (apply In_intersection; split; [apply Hcols; now right|exact Hkept]).
  destruct (In_index_of _ _ Hin) as [j Hj].
  unfold getattr_column. simpl columns. fold cols. rewrite Hj. f_equal.
  unfold len. simpl rows. rewrite length_map, map_map.
  rewrite <- (length_map (fun r => r)), map_id.
  apply map_constant. intros r Hr. rewrite (cell_at_project stamped cols _ r j Hj).
  apply stamp_event_time_cells; [exact Hrect|].
  apply filter_In in Hr. tauto.
Qed.

Lemma event_time_is_cycle_timestamp_witness :
  getattr_column (stamp_event_time sample_timeseries (VTime 77)) TIME_FIELD
  = Return [VTime 77; VTime 77; VTime 77; VTime 77]
  /\ exists out,
       calculate_actual_5min (spec_data actual_5min_spec)
         (stamp_event_time sample_timeseries (VTime 77)) []
       = (Return out, [])
       /\ getattr_column out TIME_FIELD = Return (repeat (VTime 77) (len out)).
Proof.
  destruct (event_time_is_cycle_timestamp (spec_data actual_5min_spec)
              sample_timeseries (VTime 77) [])
    as (Hstamp & _ & _ & Hderived);
    [repeat constructor|simpl; auto 8|simpl; auto 8|vm_compute; auto 8|].
  split; [exact Hstamp|exact Hderived].
Defined.

(** ** MqttConsumer.consume: the whole cycle *)

(** X19.  [MqttConsumer.consume] returns nothing but 0, and it raises only
    before it reaches the tables: when the client cannot be started on the
    first cycle (which is logged), when the payload has no [data], or when
    [to_timeseries] raises.  Nothing that happens while the tables are gone
    through makes the cycle fail. *)
Theorem consume_event_failures
    (raw : Type) (to_timeseries : raw -> M DataFrame) (specs : list TableSpec)
    (mq_connect : outcome unit) (client : MqttClient) (topic_template : string)
    (event : Event) (payload : option raw) (tr : trace) :
  match consume_event to_timeseries specs mq_connect client topic_template
          event payload tr with
  | (Return v, _) => v = 0%Z
  | (Raise e, tr') =>
      ((loop_counter event < 1)%Z /\ mq_connect = Raise e
       /\ tr' = List.app tr
                  [LogException "mqtt: failed to initialize connection/tables" [] e])
      \/ (payload = None /\ e = KeyError "data")
      \/ (exists data tr0 tr1,
            payload = Some data /\ to_timeseries data tr0 = (Raise e, tr1))
  end.
Proof.
  unfold consume_event.
  set (rest := bind (lift (payload_data payload)) _).
  assert (Hrest : forall tr0,
            match rest tr0 with
            | (Return v, _) => v = 0%Z
            | (Raise e, _) =>
                (payload = None /\ e = KeyError "data")
                \/ (exists data tr0 tr1,
                      payload = Some data
                      /\ to_timeseries data tr0 = (Raise e, tr1))
            end).
  { intros tr0. unfold rest, bind, lift.
    destruct payload as [data|]; simpl; [|auto].
    destruct (to_timeseries data tr0) as [[ts|e] tr1] eqn:Hts; [|eauto 6].
    unfold consume, bind.
    destruct (mqtt_loop_returns (stamp_event_time ts (event_time event)) client
                topic_template specs tr1) as (tr' & ->).
    reflexivity. }
  unfold bind.
  destruct (loop_counter event <? 1)%Z eqn:Hfirst.
  - unfold try_except, lift. destruct mq_connect as [[]|e] eqn:Hconn.
    + pose proof (Hrest tr) as H.
      destruct (rest tr) as [[v|e] tr']; [exact H|tauto].
    + unfold bind, log_exception, emit, raise. left.
      apply Z.ltb_lt in Hfirst. auto.
  - unfold ret. pose proof (Hrest tr) as H.
    destruct (rest tr) as [[v|e] tr']; [exact H|tauto].
Qed.

(** ** PostgresConsumer.write: the first cycle *)

(** X20.  On the first cycle a [PostgresConsumer] that cannot connect fails
    before anything else happens: without a password, without a host, or when
    [apg.connect] raises, [write] raises that exception, logs it as an
    initialisation failure, and sends no statement; the payload is not looked
    at.  The missing password is reported before the missing host. *)
Theorem write_event_connect_failure
    (raw : Type) (to_timeseries : raw -> M DataFrame) (specs : list TableSpec)
    (apg_connect : option string -> string -> option string -> option string
                   -> outcome unit)
    (conn : Connection) (getuser : string)
    (self : PostgresConsumer) (event : Event) (payload : option raw)
    (tr : trace) :
  (loop_counter event < 1)%Z ->
  let fails_with e :=
    exists tr',
      write_event to_timeseries specs apg_connect conn getuser self event payload tr
      = (Raise e, List.app tr' [LogException
                                  "PostgresWriter: failed to initialize connection/tables"
                                  [] e])
      /\ statements_sent tr' = statements_sent tr in
  (pg_password self = None ->
   fails_with (OtherError "database password must not be None"))
  /\ (pg_password self <> None -> pg_host self = None ->
      fails_with (OtherError "database host must not be None"))
  /\ (forall e,
        pg_password self <> None -> pg_host self <> None ->
        apg_connect (pg_user self) (pg_database self) (pg_host self)
          (pg_password self) = Raise e ->
        fails_with e).
Proof.
  intros Hfirst fails_with. apply Z.ltb_lt in Hfirst.
  unfold fails_with, write_event, connect. unfold bind at 1. rewrite Hfirst.
  unfold try_except. unfold bind at 1.
  split; [|split].
  - intros ->. unfold raise, bind, log_exception, emit. eauto.
  - intros Hp ->. destruct (pg_password self); [|congruence].
    unfold raise, bind, log_exception, emit. eauto.
  - intros e Hp Hh Hconn.
    destruct (pg_password self); [|congruence].
    destruct (pg_host self); [|congruence].
    unfold bind, log_info, emit, lift. rewrite Hconn.
    unfold raise, bind, log_exception, emit.
    eexists. split; [reflexivity|].
    rewrite statements_sent_app. simpl. now rewrite app_nil_r.
Qed.

Lemma write_event_connect_failure_witness :
  let refused : option string -> string -> option string -> option string
                -> outcome unit :=
    fun _ _ _ _ => Raise (PostgresError "connection refused") in
  let self := {| pg_host := Some "db"; pg_database := "amber"; pg_user := None;
                 pg_password := Some "secret" |} in
  exists tr',
    write_event (fun _ : unit => ret cycle_timeseries)
      (table_specs float_of_number) refused accepting "amber" self
      {| loop_counter := 0; event_time := VTime 5 |} (Some tt) []
    = (Raise (PostgresError "connection refused"),
       List.app tr'
         [LogException "PostgresWriter: failed to initialize connection/tables"
            [] (PostgresError "connection refused")])
    /\ statements_sent tr' = statements_sent [].
Proof.
  intros refused self.
  apply (write_event_connect_failure unit (fun _ : unit => ret cycle_timeseries)
           (table_specs float_of_number) refused accepting "amber" self
           {| loop_counter := 0; event_time := VTime 5 |} (Some tt) []);
    [reflexivity|discriminate|discriminate|reflexivity].
Defined.

(** ** find_config_file *)





